(** * Adimology: a shallow embedding of the watchlist analysis pipeline

    The development follows the TypeScript sources:
    - [lib/stockbit]  : token cache, [handleApiResponse], [getTopBroker],
                        [getBrokerSummary] (current and older variant);
    - [lib/supabase]  : the [session], [stock_queries] and
                        [background_job_logs] tables and the functions on them;
    - [netlify/functions/analyze-watchlist-background] : the batch job;
    - [app/api/analyze-watchlist/route] : the same batch behind a POST;
    - [app/api/stock/route] : the single-stock analysis path.

    Conventions.  Asynchronous code is sequentialised (every [await] is a
    bind).  Network calls to the data provider are inputs of the model (an
    environment of outcomes).  The relational backend is a store with the
    relational meaning of each query; a record reaches it as JSON, where
    NaN and the infinities are [null].  It reports an error where the
    meaning of the query does ([.single()] on no row), and it may reject an
    upsert for reasons the sources do not show; the batch job and the POST
    route of the watchlist are run on a backend that accepts their upserts.
    JavaScript numbers are NaN, the two infinities, or an exact rational.
    Console output is not modelled. *)

From Stdlib Require Import ZArith QArith Qround Lqa String Ascii List Lia DecimalString.
From stdpp Require Import base gmap strings list.

(** ** JavaScript values *)

Module JS.

Inductive number := NaN | Inf (negative : bool) | Num (q : Q).

(** [a - b] *)
Definition sub (a b : number) : number :=
  match a, b with
  | NaN, _ | _, NaN => NaN
  | Inf s, Inf t => if Bool.eqb s t then NaN else Inf s
  | Inf s, Num _ => Inf s
  | Num _, Inf t => Inf (negb t)
  | Num x, Num y => Num (x - y)
  end.

Definition Qneg (q : Q) : bool :=
  match (q ?= 0)%Q with Lt => true | _ => false end.

Definition Qzero (q : Q) : bool :=
  match (q ?= 0)%Q with Eq => true | _ => false end.

(** [a / b]; the sign of a zero is not tracked, a zero divisor counts
    as [+0]. *)
Definition div (a b : number) : number :=
  match a, b with
  | NaN, _ | _, NaN => NaN
  | Inf _, Inf _ => NaN
  | Inf s, Num y => Inf (xorb s (Qneg y))
  | Num x, Inf _ => Num 0
  | Num x, Num y =>
      if Qzero y then (if Qzero x then NaN else Inf (Qneg x))
      else Num (x / y)
  end.

(** [Math.round]: to the nearest integer, halves upwards. *)
Definition Math_round (a : number) : number :=
  match a with
  | Num q => Num (inject_Z (Qfloor (q + (1 # 2))))
  | _ => a
  end.

Definition max2 (a b : number) : number :=
  match a, b with
  | NaN, _ | _, NaN => NaN
  | Inf false, _ | _, Inf false => Inf false
  | Inf true, x | x, Inf true => x
  | Num x, Num y => if Qle_bool x y then Num y else Num x
  end.

Definition min2 (a b : number) : number :=
  match a, b with
  | NaN, _ | _, NaN => NaN
  | Inf true, _ | _, Inf true => Inf true
  | Inf false, x | x, Inf false => x
  | Num x, Num y => if Qle_bool x y then Num x else Num y
  end.

(** [Math.max(...xs)] and [Math.min(...xs)] *)
Definition Math_max (xs : list number) : number := fold_right max2 (Inf true) xs.
Definition Math_min (xs : list number) : number := fold_right min2 (Inf false) xs.

(** Truthiness, as [!x], [x || y] and [x && y] read it. *)
Definition truthy_number (a : number) : bool :=
  match a with
  | NaN => false
  | Inf _ => true
  | Num q => negb (Qzero q)
  end.

Definition truthy_string (s : string) : bool :=
  match s with EmptyString => false | _ => true end.

(** [x || d] on a possibly missing number, string or object *)
Definition or_number (x : option number) (d : number) : number :=
  match x with
  | Some n => if truthy_number n then n else d
  | None => d
  end.

Definition or_string (x : option string) (d : string) : string :=
  match x with
  | Some s => if truthy_string s then s else d
  | None => d
  end.

(** How [Array.prototype.sort] reads the value of a comparator:
    negative, positive, or zero; NaN counts as [+0]. *)
Inductive sign := Negative | Zero | Positive.

Definition sign_of (v : number) : sign :=
  match v with
  | NaN => Zero
  | Inf true => Negative
  | Inf false => Positive
  | Num q => match (q ?= 0)%Q with Lt => Negative | Eq => Zero | Gt => Positive end
  end.

(** Values of a JSON column or of a free-form object field. *)
Inductive jval := JNull | JBool (b : bool) | JNum (n : number) | JStr (s : string).

(** [JSON.stringify] of a value, as the client of the backend sends it:
    NaN and the infinities become [null]. *)
Definition to_json (v : jval) : jval :=
  match v with
  | JNum (Num q) => JNum (Num q)
  | JNum _ => JNull
  | _ => v
  end.

(** Thrown values: [name] tells [TokenExpiredError] and [TypeError] from a
    plain [Error]; [message] is the text that a handler reads off the value
    with [error instanceof Error ? error.message : String(error)], which is
    [error.message] of an [Error]. *)
Record exn := Exn { name : string; message : string }.

Definition Error (m : string) : exn := Exn "Error" m.
Definition TypeError (m : string) : exn := Exn "TypeError" m.

Inductive result (A : Type) := Return (a : A) | Throw (e : exn).
#[global] Arguments Return {A} a.
#[global] Arguments Throw {A} e.

(** Stateful code that may throw: the state after a throw is the state
    at the throw. *)
Definition M (S A : Type) : Type := S -> result A * S.

#[global] Instance M_ret {S} : MRet (M S) := fun A a s => (Return a, s).

#[global] Instance M_bind {S} : MBind (M S) := fun A B f m s =>
  match m s with
  | (Return a, s') => f a s'
  | (Throw e, s') => (Throw e, s')
  end.

Definition throw {S A} (e : exn) : M S A := fun s => (Throw e, s).

(** [try { m } catch (e) { h e }] *)
Definition try_catch {S A} (m : M S A) (h : exn -> M S A) : M S A := fun s =>
  match m s with
  | (Throw e, s') => h e s'
  | r => r
  end.

Definition get {S} : M S S := fun s => (Return s, s).
Definition modify {S} (f : S -> S) : M S unit := fun s => (Return tt, f s).

(** [s.startsWith(p)] *)
Fixpoint startsWith (s p : string) {struct p} : bool :=
  match p, s with
  | EmptyString, _ => true
  | String a p', String b s' => if Ascii.eqb a b then startsWith s' p' else false
  | String _ _, EmptyString => false
  end.

(** [s.includes(needle)] *)
Fixpoint includes (s needle : string) : bool :=
  startsWith s needle ||
  match s with
  | EmptyString => false
  | String _ s' => includes s' needle
  end.

(** [s.replace(/,/g, '')] *)
Fixpoint remove_commas (s : string) : string :=
  match s with
  | EmptyString => EmptyString
  | String c s' => if Ascii.eqb c "," then remove_commas s' else String c (remove_commas s')
  end.

(** An integer inside a template literal: its decimal digits, which is
    what JavaScript prints for an integer of magnitude below 10^21 (from
    there on it prints an exponent). *)
Definition dec (z : Z) : string := NilZero.string_of_int (Z.to_int z).

End JS.
Export JS.

(** ** Sorting and ordering shared by the store and the runtime *)

Section StableInsertion.
Context {A : Type} (after : A -> A -> bool).

(** A stable insertion sort: [x], which stood before every element of
    [l], is moved past [y] only when [after x y]. *)
Fixpoint insert_before (x : A) (l : list A) : list A :=
  match l with
  | [] => [x]
  | y :: l' => if after x y then y :: insert_before x l' else x :: l
  end.

Definition stable_sort (l : list A) : list A := fold_right insert_before [] l.
End StableInsertion.

(** ** lib/stockbit: broker data of a market-detector response *)

Module Stockbit.

(** The elements of [brokers_buy] and [brokers_sell] are taken at their
    declared type: objects with these fields, each a string. *)
Record BrokerBuyItem := {
  netbs_broker_code : string;
  bval : string;
  blot : string;
  netbs_buy_avg_price : string;
  buy_type : string;
}.

Record BrokerSellItem := {
  sell_broker_code : string;
  sval : string;
  slot : string;
  netbs_sell_avg_price : string;
  sell_type : string;
}.

Record BrokerTopStat := {
  vol : number;
  percent : number;
  amount : number;
  accdist : string;
}.

(** [bandar_detector] as received: every field may be missing. *)
Record BandarDetector := {
  bd_top1 : option BrokerTopStat;
  bd_top3 : option BrokerTopStat;
  bd_top5 : option BrokerTopStat;
  bd_avg : option BrokerTopStat;
  bd_total_buyer : option number;
  bd_total_seller : option number;
  bd_number_broker_buysell : option number;
  bd_broker_accdist : option string;
  bd_volume : option number;
  bd_value : option number;
  bd_average : option number;
}.

(** [BrokerDetector] as returned inside [BrokerSummaryData]. *)
Record BrokerDetector := {
  top1 : BrokerTopStat;
  top3 : BrokerTopStat;
  top5 : BrokerTopStat;
  avg : BrokerTopStat;
  total_buyer : number;
  total_seller : number;
  number_broker_buysell : number;
  broker_accdist : string;
  volume : number;
  value : number;
  average : number;
}.

(** A value that is no array and is neither [undefined] nor [null] *)
Inductive non_array :=
| NAString (s : string)
| NANumber (n : number)
| NABool (b : bool)
| NAObject.

(** A field declared as an array: missing ([undefined] or [null]),
    present but no array, or an array. *)
Inductive field (A : Type) :=
| Absent
| NotArray (v : non_array)
| Arr (a : A).
#[global] Arguments Absent {A}.
#[global] Arguments NotArray {A} v.
#[global] Arguments Arr {A} a.

(** The response is generic in how the [brokers_buy] array is held: by
    reference ([loc]) once parsed into objects, by contents as JSON text. *)
Record BrokerSummary (A : Type) := {
  brokers_buy : field A;
  brokers_sell : field (list BrokerSellItem);
}.
#[global] Arguments brokers_buy {A} _.
#[global] Arguments brokers_sell {A} _.

Record MarketDetectorData (A : Type) := {
  broker_summary : option (BrokerSummary A);
  bandar_detector : option BandarDetector;
}.
#[global] Arguments broker_summary {A} _.
#[global] Arguments bandar_detector {A} _.

Record MarketDetectorResponse (A : Type) := {
  data : option (MarketDetectorData A);
}.
#[global] Arguments data {A} _.

Record BrokerData := {
  bandar : string;
  barangBandar : number;
  rataRataBandar : number;
}.

(** The result of [x.slice(0, 4)]: an array, or a string when [x] was one. *)
Inductive sliced (A : Type) :=
| SlicedArray (l : list A)
| SlicedString (s : string).
#[global] Arguments SlicedArray {A} l.
#[global] Arguments SlicedString {A} s.

Record BrokerSummaryData := {
  detector : BrokerDetector;
  topBuyers : sliced BrokerBuyItem;
  topSellers : sliced BrokerSellItem;
}.

(** *** Arrays of buy items as heap objects *)

Definition loc := nat.
Abbreviation heap := (gmap loc (list BrokerBuyItem)).

Definition array_length (a : loc) : M heap nat :=
  fun h => (Return (length (h !!! a)), h).

(** [[...a]]: a fresh array with the elements of [a] *)
Definition array_spread (a : loc) : M heap loc :=
  fun h => let a' := fresh (dom h) in (Return a', <[a' := h !!! a]> h).

(** [a[i]] *)
Definition array_at (a : loc) (i : nat) : M heap (option BrokerBuyItem) :=
  fun h => (Return ((h !!! a) !! i), h).

(** [Array.prototype.sort]: stable; an element [x] goes after [y] when
    the comparator on [(x, y)] is positive.  This is the result of every
    stable sort when the comparator is a consistent order, and of every
    sort on at most two elements; with an inconsistent comparator on more
    elements the result depends on the engine. *)
Definition is_positive (v : number) : bool :=
  match sign_of v with Positive => true | _ => false end.

Definition sort {A} (cmp : A -> A -> number) (l : list A) : list A :=
  stable_sort (fun x y => is_positive (cmp x y)) l.

(** [a.sort(cmp)]: sorts [a] in place and returns [a] itself *)
Definition array_sort (cmp : BrokerBuyItem -> BrokerBuyItem -> number) (a : loc) : M heap loc :=
  fun h => (Return a, <[a := sort cmp (h !!! a)]> h).

(** [response.json()]: the arrays of the text become fresh objects *)
Definition json_alloc (m : option (MarketDetectorResponse (list BrokerBuyItem)))
  : M heap (option (MarketDetectorResponse loc)) :=
  fun h =>
    match m with
    | None => (Return None, h)
    | Some r =>
        match data r with
        | None => (Return (Some {| data := None |}), h)
        | Some d =>
            match broker_summary d with
            | None =>
                (Return (Some {| data := Some {| broker_summary := None;
                                                 bandar_detector := bandar_detector d |} |}), h)
            | Some bs =>
                let '(buy, h') :=
                  match brokers_buy bs with
                  | Absent => (Absent, h)
                  | NotArray v => (NotArray v, h)
                  | Arr l => let a := fresh (dom h) in (Arr a, <[a := l]> h)
                  end in
                (Return (Some {| data := Some {|
                   broker_summary := Some {| brokers_buy := buy; brokers_sell := brokers_sell bs |};
                   bandar_detector := bandar_detector d |} |}), h')
            end
        end
    end.

(** [marketDetectorData?.data?.broker_summary] *)
Definition broker_summary_of {A} (marketDetectorData : option (MarketDetectorResponse A))
  : option (BrokerSummary A) :=
  match marketDetectorData with
  | Some r => match data r with Some d => broker_summary d | None => None end
  | None => None
  end.

(** [marketDetectorData?.data?.bandar_detector] *)
Definition bandar_detector_of {A} (marketDetectorData : option (MarketDetectorResponse A))
  : option BandarDetector :=
  match marketDetectorData with
  | Some r => match data r with Some d => bandar_detector d | None => None end
  | None => None
  end.

(** [marketDetectorData?.data?.broker_summary?.brokers_buy] *)
Definition brokers_buy_of {A} (marketDetectorData : option (MarketDetectorResponse A)) : field A :=
  match broker_summary_of marketDetectorData with
  | Some bs => brokers_buy bs
  | None => Absent
  end.

Section WithNumber.
(** [Number(s)] on a string is the runtime's; it is a parameter. *)
Variable Number : string -> number.

(** [(a, b) => Number(b.bval) - Number(a.bval)] *)
Definition by_bval_desc (a b : BrokerBuyItem) : number :=
  sub (Number (bval b)) (Number (bval a)).

Definition to_BrokerData (topBroker : BrokerBuyItem) : BrokerData :=
  {| bandar := netbs_broker_code topBroker;
     barangBandar := Math_round (Number (blot topBroker));
     rataRataBandar := Math_round (Number (netbs_buy_avg_price topBroker)) |}.

(** [[...brokers].sort(...)[0]] and the object built from it *)
Definition top_of_sorted_copy (brokers : loc) : M heap BrokerData :=
  copy ← array_spread brokers;
  sorted ← array_sort by_bval_desc copy;
  top ← array_at sorted 0;
  match top with
  | Some topBroker => mret (to_BrokerData topBroker)
  | None => throw (TypeError "Cannot read properties of undefined (reading 'netbs_broker_code')")
  end.

(** Current variant: [null] when there is no broker data. *)
Definition getTopBroker (marketDetectorData : option (MarketDetectorResponse loc))
  : M heap (option BrokerData) :=
  match brokers_buy_of marketDetectorData with
  | Absent => mret None
  | NotArray _ => mret None
  | Arr brokers =>
      n ← array_length brokers;
      if (n =? 0)%nat then mret None
      else b ← top_of_sorted_copy brokers; mret (Some b)
  end.

(** Older variant: throws when there is no broker data. *)
Definition getTopBroker_old (marketDetectorData : option (MarketDetectorResponse loc))
  : M heap BrokerData :=
  match brokers_buy_of marketDetectorData with
  | Absent => throw (Error "No broker data found in data.broker_summary.brokers_buy")
  | NotArray _ => throw (Error "No broker data found in data.broker_summary.brokers_buy")
  | Arr brokers =>
      n ← array_length brokers;
      if (n =? 0)%nat then throw (Error "No broker data found in data.broker_summary.brokers_buy")
      else top_of_sorted_copy brokers
  end.

(** [parseLot] *)
Definition parseLot (lotStr : option string) : number :=
  match lotStr with
  | Some s => if truthy_string s then Number (remove_commas s) else Num 0
  | None => Num 0
  end.
End WithNumber.

Definition default_stat : BrokerTopStat :=
  {| vol := Num 0; percent := Num 0; amount := Num 0; accdist := "-" |}.

(** [x?.slice(0, 4) || []] on a field holding [contents] when an array *)
Definition slice_or_empty {A B} (contents : A -> list B) (x : field A) (what : string)
  : result (sliced B) :=
  match x with
  | Absent => Return (SlicedArray [])
  | Arr a => Return (SlicedArray (take 4 (contents a)))
  | NotArray (NAString s) =>
      let s' := substring 0 4 s in
      if truthy_string s' then Return (SlicedString s') else Return (SlicedArray [])
  | NotArray _ => Throw (TypeError (what +:+ ".slice is not a function"))
  end.

(** Current (graceful) variant of [getBrokerSummary] *)
Definition getBrokerSummary (marketDetectorData : option (MarketDetectorResponse loc))
  : M heap BrokerSummaryData :=
  fun h =>
    let detector := bandar_detector_of marketDetectorData in
    let brokerSummary := broker_summary_of marketDetectorData in
    let field_of {X} (f : BandarDetector -> option X) : option X :=
      match detector with Some d => f d | None => None end in
    let det :=
      {| top1 := default default_stat (field_of bd_top1);
         top3 := default default_stat (field_of bd_top3);
         top5 := default default_stat (field_of bd_top5);
         avg := default default_stat (field_of bd_avg);
         total_buyer := or_number (field_of bd_total_buyer) (Num 0);
         total_seller := or_number (field_of bd_total_seller) (Num 0);
         number_broker_buysell := or_number (field_of bd_number_broker_buysell) (Num 0);
         broker_accdist := or_string (field_of bd_broker_accdist) "-";
         volume := or_number (field_of bd_volume) (Num 0);
         value := or_number (field_of bd_value) (Num 0);
         average := or_number (field_of bd_average) (Num 0) |} in
    let buy :=
      match brokerSummary with Some bs => brokers_buy bs | None => Absent end in
    let sell :=
      match brokerSummary with Some bs => brokers_sell bs | None => Absent end in
    match slice_or_empty (fun a => h !!! a) buy "brokerSummary?.brokers_buy?" with
    | Throw e => (Throw e, h)
    | Return buyers =>
        match slice_or_empty (fun l => l) sell "brokerSummary?.brokers_sell?" with
        | Throw e => (Throw e, h)
        | Return sellers =>
            (Return {| detector := det; topBuyers := buyers; topSellers := sellers |}, h)
        end
    end.

End Stockbit.

(** ** lib/supabase: the relational backend *)

Module Supabase.

Record PostgrestError := { code : string; pg_message : string }.

(** "no rows returned" of [.single()] *)
Definition PGRST116 : PostgrestError :=
  {| code := "PGRST116"; pg_message := "JSON object requested, multiple (or no) rows returned" |}.

(** "function not found" of [.rpc()] *)
Definition PGRST202 : PostgrestError :=
  {| code := "PGRST202"; pg_message := "Could not find the function in the schema cache" |}.

(** [throw error] of a backend error: the error object itself, a plain
    object and no [Error] instance, which [String(error)] prints as
    [[object Object]] whatever its code and message.  The handlers of the
    batch job, the only ones that one reaches, read it so. *)
Definition thrown (e : PostgrestError) : exn := Exn "PostgrestError" "[object Object]".

(** What a query resolves to: [{ data, error }] *)
Definition reply (A : Type) : Type := option A * option PostgrestError.

(** [.single()] *)
Definition single {A} (rows : list A) : reply A :=
  match rows with
  | [x] => (Some x, None)
  | _ => (None, Some PGRST116)
  end.

(** *** Table [stock_queries] *)

(** A row: its primary key and its columns; a column that is missing from
    the map, or that holds [JNull], is NULL. *)
Record stock_query := { id : nat; cols : gmap string jval }.

Abbreviation table := (list stock_query).

Definition str_col (c : string) (r : stock_query) : option string :=
  match cols r !! c with
  | Some (JStr s) => Some s
  | _ => None
  end.

(** The conflict target [from_date,emiten] of a tuple; a NULL in it never
    conflicts. *)
Definition conflict_key (c : gmap string jval) : option (string * string) :=
  match c !! "from_date", c !! "emiten" with
  | Some (JStr d), Some (JStr e) => Some (d, e)
  | _, _ => None
  end.

Definition has_key (k : string * string) (r : stock_query) : bool :=
  bool_decide (conflict_key (cols r) = Some k).

(** The next value of the [id] sequence *)
Definition next_id (t : table) : nat := S (fold_right Nat.max 0 (map id t)).

(** [.update(changes)] on the rows that [sel] selects, then [.select()];
    the changes travel as JSON. *)
Definition update_where (sel : stock_query -> bool) (changes : gmap string jval) (t : table)
  : reply (list stock_query) * table :=
  let sent := to_json <$> changes in
  let t' := map (fun r => if sel r then {| id := id r; cols := sent ∪ cols r |} else r) t in
  ((Some (List.filter sel t'), None), t').

(** A backend that accepts every write *)
Definition accepts (data : gmap string jval) (t : table) : option PostgrestError := None.

Section WithDefaults.
(** The column defaults of the table are not in the sources. *)
Variable column_defaults : gmap string jval.

(** What else the backend checks of a write is not in the sources either
    (other constraints, the types of the columns, its own availability):
    [rejects data t] is the error it answers with, if any. *)
Variable rejects : gmap string jval -> table -> option PostgrestError.

(** INSERT ... ON CONFLICT (from_date, emiten) DO UPDATE SET every column of
    [data], the record travelling as JSON: what an upsert that the backend
    accepts does. *)
Definition upsert (data : gmap string jval) (t : table) : reply (list stock_query) * table :=
  let tuple := (to_json <$> data) ∪ column_defaults in
  let inserted := {| id := next_id t; cols := tuple |} in
  match conflict_key tuple with
  | Some k =>
      if existsb (has_key k) t
      then update_where (has_key k) data t
      else ((Some [inserted], None), t ++ [inserted])
  | None => ((Some [inserted], None), t ++ [inserted])
  end.

(** [.upsert([data], { onConflict: 'from_date,emiten' }).select()]; a
    write that is rejected changes nothing. *)
Definition upsert_select (data : gmap string jval) (t : table)
  : reply (list stock_query) * table :=
  match rejects data t with
  | Some e => ((None, Some e), t)
  | None => upsert data t
  end.

Definition saveStockQuery (data : gmap string jval) : M table (list stock_query) :=
  fun t =>
    let '((result, error), t') := upsert_select data t in
    match error with
    | Some e => (Throw (thrown e), t')
    | None => (Return (default [] result), t')
    end.

Definition saveWatchlistAnalysis (data : gmap string jval) : M table (list stock_query) :=
  fun t =>
    let '((result, error), t') := upsert_select data t in
    match error with
    | Some e => (Throw (thrown e), t')
    | None => (Return (default [] result), t')
    end.
End WithDefaults.

(** [.eq('emiten', emiten).eq('status', 'success').lt('from_date', currentDate)] *)
Definition prior_success (emiten currentDate : string) (r : stock_query) : bool :=
  bool_decide (str_col "emiten" r = Some emiten)
  && bool_decide (str_col "status" r = Some "success")
  && match str_col "from_date" r with
     | Some d => String.ltb d currentDate
     | None => false
     end.

(** [.order('from_date', { ascending: false })]: a row goes after another
    when its date is smaller. *)
Definition older (x y : stock_query) : bool :=
  match str_col "from_date" x, str_col "from_date" y with
  | Some dx, Some dy => String.ltb dx dy
  | None, Some _ => true
  | _, _ => false
  end.

Definition order_by_from_date_desc (rows : table) : table := stable_sort older rows.

Definition real_price_update (price : number) (maxPrice : option number) : gmap string jval :=
  let updateData : gmap string jval := {[ "real_harga" := JNum price ]} in
  match maxPrice with
  | Some m => <["max_harga" := JNum m]> updateData
  | None => updateData
  end.

Definition updatePreviousDayRealPrice (emiten currentDate : string) (price : number)
    (maxPrice : option number) : M table (option (list stock_query)) :=
  fun t =>
    let '(record, findError) :=
      single (take 1 (order_by_from_date_desc (List.filter (prior_success emiten currentDate) t))) in
    match findError, record with
    | None, Some record =>
        let updateData := real_price_update price maxPrice in
        let '((data, updateError), t') :=
          update_where (fun r => (id r =? id record)%nat) updateData t in
        (Return data, t')
    | _, _ => (Return None, t)
    end.

(** *** Table [session] *)

Record session_row := {
  key : string;
  session_value : option string;
  is_valid : option bool;
  last_used_at : option Z;
}.

(** *** Table [background_job_logs] *)

Inductive log_level := level_info | level_warn | level_error.

Inductive job_status := running | completed | failed.

Record log_entry := {
  timestamp : Z;
  level : log_level;
  entry_message : string;
  entry_emiten : option string;
  details : gmap string jval;
}.

Record job_log := {
  job_id : nat;
  job_name : string;
  status : job_status;
  total_items : nat;
  log_entries : list log_entry;
  success_count : option nat;
  error_count : option nat;
  error_message : option string;
  metadata : option (gmap string jval);
  completed_at : option Z;
}.

(** The argument of [updateBackgroundJobLog]: fields left [undefined] are
    not sent. *)
Record job_update := {
  u_status : job_status;
  u_success_count : option nat;
  u_error_count : option nat;
  u_error_message : option string;
  u_metadata : option (gmap string jval);
}.

Definition next_job_id (t : list job_log) : nat := S (fold_right Nat.max 0 (map job_id t)).

Definition apply_job_update (u : job_update) (now : Z) (r : job_log) : job_log :=
  {| job_id := job_id r;
     job_name := job_name r;
     status := u_status u;
     total_items := total_items r;
     log_entries := log_entries r;
     success_count := match u_success_count u with Some n => Some n | None => success_count r end;
     error_count := match u_error_count u with Some n => Some n | None => error_count r end;
     error_message := match u_error_message u with Some m => Some m | None => error_message r end;
     metadata := match u_metadata u with Some m => Some m | None => metadata r end;
     completed_at := Some now |}.

Definition set_log_entries (entries : list log_entry) (r : job_log) : job_log :=
  {| job_id := job_id r;
     job_name := job_name r;
     status := status r;
     total_items := total_items r;
     log_entries := entries;
     success_count := success_count r;
     error_count := error_count r;
     error_message := error_message r;
     metadata := metadata r;
     completed_at := completed_at r |}.

Definition has_job_id (i : nat) (r : job_log) : bool := (job_id r =? i)%nat.

Definition alter_jobs (i : nat) (f : job_log -> job_log) (t : list job_log) : list job_log :=
  map (fun r => if has_job_id i r then f r else r) t.

End Supabase.

(** ** The process and its backend *)

Module Fetch.
(** What [handleApiResponse] reads of a [Response]; [ok] is the range
    200-299 of [status]. *)
Record Response := { status : Z; statusText : string }.

Definition ok (r : Response) : bool := ((200 <=? status r) && (status r <=? 299))%Z.
End Fetch.

Import Supabase.

(** A statement sent to the [session] table. *)
Inductive statement :=
| SessionSelect (k : string)
| SessionUpdate (k : string).

Record world := {
  wall_clock : nat -> Z;            (* the n-th reading of the clock *)
  clock_reads : nat;
  cachedToken : option string;      (* module state of lib/stockbit *)
  tokenLastFetched : Z;
  env_STOCKBIT_JWT_TOKEN : option string;
  session : list session_row;
  session_statements : list statement;
  stock_queries : list stock_query;
  background_job_logs : list job_log;
  append_job_log_entry_rpc : bool;  (* is the SQL function installed? *)
}.

Definition with_clock_reads (n : nat) (w : world) : world :=
  {| wall_clock := wall_clock w; clock_reads := n;
     cachedToken := cachedToken w; tokenLastFetched := tokenLastFetched w;
     env_STOCKBIT_JWT_TOKEN := env_STOCKBIT_JWT_TOKEN w;
     session := session w; session_statements := session_statements w;
     stock_queries := stock_queries w; background_job_logs := background_job_logs w;
     append_job_log_entry_rpc := append_job_log_entry_rpc w |}.

Definition with_token_cache (tok : option string) (fetched : Z) (w : world) : world :=
  {| wall_clock := wall_clock w; clock_reads := clock_reads w;
     cachedToken := tok; tokenLastFetched := fetched;
     env_STOCKBIT_JWT_TOKEN := env_STOCKBIT_JWT_TOKEN w;
     session := session w; session_statements := session_statements w;
     stock_queries := stock_queries w; background_job_logs := background_job_logs w;
     append_job_log_entry_rpc := append_job_log_entry_rpc w |}.

Definition with_session (rows : list session_row) (st : statement) (w : world) : world :=
  {| wall_clock := wall_clock w; clock_reads := clock_reads w;
     cachedToken := cachedToken w; tokenLastFetched := tokenLastFetched w;
     env_STOCKBIT_JWT_TOKEN := env_STOCKBIT_JWT_TOKEN w;
     session := rows; session_statements := session_statements w ++ [st];
     stock_queries := stock_queries w; background_job_logs := background_job_logs w;
     append_job_log_entry_rpc := append_job_log_entry_rpc w |}.

Definition with_stock_queries (t : list stock_query) (w : world) : world :=
  {| wall_clock := wall_clock w; clock_reads := clock_reads w;
     cachedToken := cachedToken w; tokenLastFetched := tokenLastFetched w;
     env_STOCKBIT_JWT_TOKEN := env_STOCKBIT_JWT_TOKEN w;
     session := session w; session_statements := session_statements w;
     stock_queries := t; background_job_logs := background_job_logs w;
     append_job_log_entry_rpc := append_job_log_entry_rpc w |}.

Definition with_job_logs (t : list job_log) (w : world) : world :=
  {| wall_clock := wall_clock w; clock_reads := clock_reads w;
     cachedToken := cachedToken w; tokenLastFetched := tokenLastFetched w;
     env_STOCKBIT_JWT_TOKEN := env_STOCKBIT_JWT_TOKEN w;
     session := session w; session_statements := session_statements w;
     stock_queries := stock_queries w; background_job_logs := t;
     append_job_log_entry_rpc := append_job_log_entry_rpc w |}.

(** [Date.now()], [new Date()] *)
Definition Date_now : M world Z :=
  fun w => (Return (wall_clock w (clock_reads w)), with_clock_reads (S (clock_reads w)) w).

(** Run a function of the [stock_queries] table in the world. *)
Definition on_stock_queries {A} (m : M (list stock_query) A) : M world A :=
  fun w => let '(r, t) := m (stock_queries w) in (r, with_stock_queries t w).

(** *** lib/supabase: session *)

Definition has_key_eq (k : string) (r : session_row) : bool := String.eqb (key r) k.

Definition getSessionValue (k : string) : M world (option string) :=
  fun w =>
    let '(data, error) := single (List.filter (has_key_eq k) (session w)) in
    let w' := with_session (session w) (SessionSelect k) w in
    match error, data with
    | None, Some d => (Return (session_value d), w')
    | _, _ => (Return None, w')
    end.

Definition set_is_valid (b : bool) (r : session_row) : session_row :=
  {| key := key r; session_value := session_value r; is_valid := Some b;
     last_used_at := last_used_at r |}.

Definition set_last_used_at (now : Z) (r : session_row) : session_row :=
  {| key := key r; session_value := session_value r; is_valid := is_valid r;
     last_used_at := Some now |}.

Definition update_session (k : string) (f : session_row -> session_row) : M world unit :=
  fun w =>
    (Return tt,
     with_session (map (fun r => if has_key_eq k r then f r else r) (session w)) (SessionUpdate k) w).

Definition invalidateToken : M world unit :=
  update_session "stockbit_token" (set_is_valid false).

Definition updateTokenLastUsed : M world unit :=
  now ← Date_now;
  update_session "stockbit_token" (set_last_used_at now).

(** *** lib/stockbit: the token *)

Definition TokenExpiredError (m : string) : exn := Exn "TokenExpiredError" m.

Definition TOKEN_CACHE_DURATION : Z := 60000.

Definition truthy_token (t : option string) : bool :=
  match t with Some s => truthy_string s | None => false end.

(** A token that passed a truthiness test is a string. *)
Definition the_token (t : option string) : string := default EmptyString t.

Definition getAuthToken : M world string :=
  now ← Date_now;
  w ← get;
  if truthy_token (cachedToken w) && (now - tokenLastFetched w <? TOKEN_CACHE_DURATION)%Z
  then mret (the_token (cachedToken w))
  else
    token ← getSessionValue "stockbit_token";
    if negb (truthy_token token) then
      let envToken := env_STOCKBIT_JWT_TOKEN w in
      if negb (truthy_token envToken)
      then throw (Error "STOCKBIT_JWT_TOKEN not found in database or environment")
      else mret (the_token envToken)
    else
      modify (with_token_cache token now);;
      mret (the_token token).

(** [updateTokenLastUsed().catch(() => {})] is not awaited; its update is
    taken to reach the store at once. *)
Definition handleApiResponse (response : Fetch.Response) (apiName : string) : M world unit :=
  if (Fetch.status response =? 401)%Z then
    invalidateToken;;
    modify (fun w => with_token_cache None (tokenLastFetched w) w);;
    throw (TokenExpiredError (apiName +:+ ": Token expired or invalid (401)"))
  else if negb (Fetch.ok response) then
    throw (Error (apiName +:+ " error: " +:+ dec (Fetch.status response) +:+ " "
                  +:+ Fetch.statusText response))
  else
    updateTokenLastUsed.

(** *** lib/supabase: job logs *)

Definition createBackgroundJobLog (jobName : string) (totalItems : nat) : M world (option job_log) :=
  fun w =>
    let row :=
      {| job_id := next_job_id (background_job_logs w);
         job_name := jobName;
         status := running;
         total_items := totalItems;
         log_entries := [];
         success_count := None;
         error_count := None;
         error_message := None;
         metadata := None;
         completed_at := None |} in
    let '(data, error) := single [row] in
    let w' := with_job_logs (background_job_logs w ++ [row]) w in
    match error with
    | Some e => (Throw (thrown e), w')
    | None => (Return data, w')
    end.

(** The argument [entry] of [appendBackgroundJobLogEntry] *)
Record entry_input := {
  in_level : log_level;
  in_message : string;
  in_emiten : option string;
  in_details : gmap string jval;
}.

(** [supabase.rpc('append_job_log_entry', ...)].  Modelled from the spec:
    the SQL function is not among the sources; the spec has per-symbol
    failures "appended to an error list and a job log", and the call site
    passes the id of the row and the entry, under the comment "Use raw SQL
    to append to JSONB array for atomic operation".  It appends the entry to [log_entries] of the row
    when the function is installed, and reports PGRST202 otherwise. *)
Definition rpc_append_job_log_entry (jobId : nat) (logEntry : log_entry)
  : world -> option PostgrestError * world :=
  fun w =>
    if append_job_log_entry_rpc w
    then (None,
          with_job_logs
            (alter_jobs jobId (fun r => set_log_entries (log_entries r ++ [logEntry]) r)
               (background_job_logs w)) w)
    else (Some PGRST202, w).

Definition appendBackgroundJobLogEntry (jobId : nat) (entry : entry_input) : M world unit :=
  now ← Date_now;
  let logEntry :=
    {| timestamp := now; level := in_level entry; entry_message := in_message entry;
       entry_emiten := in_emiten entry; details := in_details entry |} in
  ((fun w =>
    let '(error, w1) := rpc_append_job_log_entry jobId logEntry w in
    match error with
    | Some e =>
        if String.eqb (code e) "PGRST202" then
          let '(current, _) := single (List.filter (has_job_id jobId) (background_job_logs w1)) in
          let entries :=
            match current with Some c => log_entries c | None => [] end ++ [logEntry] in
          (Return tt,
           with_job_logs (alter_jobs jobId (set_log_entries entries) (background_job_logs w1)) w1)
        else (Return tt, w1)
    | None => (Return tt, w1)
    end) : M world unit).

Definition updateBackgroundJobLog (jobId : nat) (data : job_update) : M world (option job_log) :=
  now ← Date_now;
  ((fun w =>
    let t' := alter_jobs jobId (apply_job_update data now) (background_job_logs w) in
    let '(result, error) := single (List.filter (has_job_id jobId) t') in
    let w' := with_job_logs t' w in
    match error with
    | Some e => (Throw (thrown e), w')
    | None => (Return result, w')
    end) : M world (option job_log)).

(** ** lib/types: order book, watchlist, targets *)

Module Market.

Record WatchlistItem := { symbol : string; company_code : string }.

(** [watchlist_result] is [watchlistResponse.data?.result]. *)
Record WatchlistResponse := { watchlist_result : option (list WatchlistItem) }.

Record PriceLevel := { price : string }.

Record TotalBidOffer := { bid_lot : option string; offer_lot : option string }.

Record OrderbookData := {
  close : option number;
  high : option number;
  offer : option (list PriceLevel);
  bid : option (list PriceLevel);
  total_bid_offer : option TotalBidOffer;
}.

(** The order book either sits under [data] or is the response itself
    ([ob_self] is the response read as an order book). *)
Record OrderbookResponse := { ob_data : option OrderbookData; ob_self : OrderbookData }.

(** [info_sector] is [emitenInfoData?.data?.sector]. *)
Record EmitenInfoResponse := { info_sector : option string }.

Record HistoricalSummaryItem := { hist_close : number; hist_high : number }.

Record MarketData := {
  harga : number;
  offerTeratas : number;
  bidTerbawah : number;
  totalBid : number;
  totalOffer : number;
}.

(** The value of [calculateTargets] *)
Record Targets := {
  fraksi : number;
  totalPapan : number;
  rataRataBidOfer : number;
  a : number;
  p : number;
  targetRealistis1 : number;
  targetMax : number;
}.

End Market.

Import Stockbit Market.

(** What the process does not define itself: the runtime's [Number] on
    strings, [calculateTargets] of lib/calculations (not in the sources at
    hand), the column defaults of [stock_queries], the date part of
    [toISOString()], and the outcome of every request to the provider. *)
Record environment := {
  Number : string -> number;
  calculateTargets : number -> number -> number -> number -> number -> number -> number -> Targets;
  column_defaults : gmap string jval;
  toISODate : Z -> string;
  fetchWatchlist : result WatchlistResponse;
  fetchMarketDetector :
    string -> string -> string -> result (option (MarketDetectorResponse (list BrokerBuyItem)));
  fetchOrderbook : string -> result OrderbookResponse;
  fetchEmitenInfo : string -> result EmitenInfoResponse;
  fetchHistoricalSummary : string -> string -> string -> nat -> result (list HistoricalSummaryItem);
  orderbook_rejects_first : string -> bool;
}.

#[global] Instance result_ret : MRet result := fun A a => Return a.

#[global] Instance result_bind : MBind result := fun A B f r =>
  match r with
  | Return a => f a
  | Throw e => Throw e
  end.

Definition lift_result {S A} (r : result A) : M S A := fun s => (r, s).

(** The order book, the prices and the lots of one symbol *)
Section MarketData.
Variable env : environment.

Definition obData_of (orderbookData : OrderbookResponse) : OrderbookData :=
  default (ob_self orderbookData) (ob_data orderbookData).

Definition prices (levels : option (list PriceLevel)) : list number :=
  map (fun o => Number env (price o)) (default [] levels).

(** [Number(x)] of a number that may be [undefined] *)
Definition Number_of (x : option number) : number := default NaN x.

Definition offerTeratas_of (obData : OrderbookData) : number :=
  let offerPrices := prices (offer obData) in
  if (0 <? length offerPrices)%nat then Math_max offerPrices
  else or_number (high obData) (Num 0).

Definition bidTerbawah_of (obData : OrderbookData) : number :=
  let bidPrices := prices (bid obData) in
  if (0 <? length bidPrices)%nat then Math_min bidPrices else Num 0.

(** [lot.replace(/,/g, '')] throws on a missing [lot]. *)
Definition lot_number (lot : option string) : result number :=
  match lot with
  | Some s => Return (Number env (remove_commas s))
  | None => Throw (TypeError "Cannot read properties of undefined (reading 'replace')")
  end.

(** [marketData] of the batch job *)
Definition marketData_of (orderbookData : OrderbookResponse) : result MarketData :=
  let obData := obData_of orderbookData in
  match total_bid_offer obData with
  | None => Throw (TypeError "Cannot read properties of undefined (reading 'bid')")
  | Some tbo =>
      totalBid ← lot_number (bid_lot tbo);
      totalOffer ← lot_number (offer_lot tbo);
      mret {| harga := Number_of (close obData);
              offerTeratas := offerTeratas_of obData;
              bidTerbawah := bidTerbawah_of obData;
              totalBid := totalBid;
              totalOffer := totalOffer |}
  end.

Definition targets_of (brokerData : BrokerData) (marketData : MarketData) : Targets :=
  calculateTargets env
    (rataRataBandar brokerData)
    (barangBandar brokerData)
    (offerTeratas marketData)
    (bidTerbawah marketData)
    (div (totalBid marketData) (Num 100))
    (div (totalOffer marketData) (Num 100))
    (harga marketData).

(** The columns common to [saveStockQuery] and [saveWatchlistAnalysis] *)
Definition analysis_columns (emiten fromDate toDate : string) (brokerData : BrokerData)
    (marketData : MarketData) (calculated : Targets) : gmap string jval :=
  <["emiten" := JStr emiten]> (
  <["from_date" := JStr fromDate]> (
  <["to_date" := JStr toDate]> (
  <["bandar" := JStr (bandar brokerData)]> (
  <["barang_bandar" := JNum (barangBandar brokerData)]> (
  <["rata_rata_bandar" := JNum (rataRataBandar brokerData)]> (
  <["harga" := JNum (harga marketData)]> (
  <["ara" := JNum (offerTeratas marketData)]> (
  <["arb" := JNum (bidTerbawah marketData)]> (
  <["fraksi" := JNum (fraksi calculated)]> (
  <["total_bid" := JNum (totalBid marketData)]> (
  <["total_offer" := JNum (totalOffer marketData)]> (
  <["total_papan" := JNum (totalPapan calculated)]> (
  <["rata_rata_bid_ofer" := JNum (rataRataBidOfer calculated)]> (
  <["a" := JNum (a calculated)]> (
  <["p" := JNum (p calculated)]> (
  <["target_realistis" := JNum (targetRealistis1 calculated)]> (
  <["target_max" := JNum (targetMax calculated)]> ∅))))))))))))))))).

(** The argument of [saveWatchlistAnalysis] in the batch job *)
Definition watchlist_row (today emiten : string) (sector : option string) (brokerData : BrokerData)
    (marketData : MarketData) (calculated : Targets) : gmap string jval :=
  let row := <["status" := JStr "success"]>
               (analysis_columns emiten today today brokerData marketData calculated) in
  match sector with
  | Some s => <["sector" := JStr s]> row
  | None => row
  end.

(** [Promise.all] of the three requests of a symbol; the sector request
    has its own [.catch(() => null)]. *)
Definition fetch_all (emiten today : string)
  : result (option (MarketDetectorResponse (list BrokerBuyItem))
            * OrderbookResponse * option EmitenInfoResponse) :=
  let emitenInfoData :=
    match fetchEmitenInfo env emiten with
    | Return i => Some i
    | Throw _ => None
    end in
  match fetchMarketDetector env emiten today today, fetchOrderbook env emiten with
  | Return marketDetectorData, Return orderbookData =>
      Return (marketDetectorData, orderbookData, emitenInfoData)
  | Throw e, Return _ => Throw e
  | Return _, Throw e => Throw e
  | Throw e1, Throw e2 => Throw (if orderbook_rejects_first env emiten then e2 else e1)
  end.

(** [emitenInfoData?.data?.sector || undefined] *)
Definition sector_of (emitenInfoData : option EmitenInfoResponse) : option string :=
  match emitenInfoData with
  | Some i =>
      match info_sector i with
      | Some s => if truthy_string s then Some s else None
      | None => None
      end
  | None => None
  end.

(** [getTopBroker] on a response fresh from [response.json()] *)
Definition top_broker_of (marketDetectorJson : option (MarketDetectorResponse (list BrokerBuyItem)))
  : result (option BrokerData) :=
  let '(parsed, h) := json_alloc marketDetectorJson (∅ : gmap loc (list BrokerBuyItem)) in
  marketDetectorData ← parsed;
  fst (getTopBroker (Number env) marketDetectorData h).

End MarketData.

(** ** netlify/functions/analyze-watchlist-background *)

Module Background.

(** The handler's variables [jobLogId], [results] and [errors], next to
    the world. *)
Record job := {
  the_world : world;
  jobLogId : option nat;
  results : list (string * string);   (* { emiten, status } *)
  errors : list (string * string);    (* { emiten, error } *)
}.

Definition in_world {A} (m : M world A) : M job A :=
  fun j =>
    let '(r, w) := m (the_world j) in
    (r, {| the_world := w; jobLogId := jobLogId j; results := results j; errors := errors j |}).

Definition set_jobLogId (i : nat) : M job unit :=
  modify (fun j => {| the_world := the_world j; jobLogId := Some i;
                      results := results j; errors := errors j |}).

Definition push_result (r : string * string) : M job unit :=
  modify (fun j => {| the_world := the_world j; jobLogId := jobLogId j;
                      results := results j ++ [r]; errors := errors j |}).

Definition push_error (e : string * string) : M job unit :=
  modify (fun j => {| the_world := the_world j; jobLogId := jobLogId j;
                      results := results j; errors := errors j ++ [e] |}).

(** [if (jobLogId)]: neither [null] nor [0] *)
Definition if_jobLogId (j : job) : option nat :=
  match jobLogId j with
  | Some (S n) => Some (S n)
  | _ => None
  end.

(** The substring test on an error message, as written in both [catch]
    blocks *)
Definition isTokenError (errorMessage : string) : bool :=
  includes errorMessage "401"
  || includes errorMessage "unauthorized"
  || includes errorMessage "token"
  || includes errorMessage "authentication".

Definition emiten_of (item : WatchlistItem) : string :=
  if truthy_string (symbol item) then symbol item else company_code item.

(** What the requests and the arithmetic give for one symbol, before
    anything is written. *)
Record analysis := {
  an_sector : option string;
  an_brokerData : BrokerData;
  an_marketData : MarketData;
  an_calculated : Targets;
}.

Section Handler.
Variable env : environment.

Definition analyse (today emiten : string) : result (option analysis) :=
  '(marketDetectorData, orderbookData, emitenInfoData) ← fetch_all env emiten today;
  brokerData ← top_broker_of env marketDetectorData;
  match brokerData with
  | None => mret None
  | Some brokerData =>
      let sector := sector_of emitenInfoData in
      marketData ← marketData_of env orderbookData;
      let calculated := targets_of env brokerData marketData in
      mret (Some {| an_sector := sector; an_brokerData := brokerData;
                    an_marketData := marketData; an_calculated := calculated |})
  end.

Definition seven_days : Z := 604800000.

(** The inner [try] that amends the previous record; its [catch] only
    logs to the console. *)
Definition backfill (today emiten : string) : M job unit :=
  try_catch
    (yesterday ← in_world Date_now;
     historicalData ←
       lift_result (fetchHistoricalSummary env emiten
                      (toISODate env (yesterday - seven_days)) today 5);
     match historicalData with
     | latestData :: _ =>
         in_world (on_stock_queries
           (updatePreviousDayRealPrice emiten today (hist_close latestData)
              (Some (hist_high latestData))));;
         mret tt
     | [] => mret tt
     end)
    (fun updateError => mret tt).

Definition log_when_job {A} (j : job) (f : nat -> M world A) : M job unit :=
  match if_jobLogId j with
  | Some i => in_world (f i);; mret tt
  | None => mret tt
  end.

(** The body of the [for] loop for one watchlist item; the backend is
    taken to accept the upsert. *)
Definition analyze_item (today : string) (item : WatchlistItem) : M job unit :=
  let emiten := emiten_of item in
  try_catch
    (r ← lift_result (analyse today emiten);
     match r with
     | None =>
         let errorMsg := "No broker data available" in
         push_error (emiten, errorMsg);;
         j ← get;
         log_when_job j (fun i =>
           appendBackgroundJobLogEntry i
             {| in_level := level_warn; in_message := errorMsg; in_emiten := Some emiten;
                in_details := ∅ |})
     | Some an =>
         in_world (on_stock_queries
           (saveWatchlistAnalysis (column_defaults env) accepts
              (watchlist_row today emiten (an_sector an) (an_brokerData an)
                 (an_marketData an) (an_calculated an))));;
         backfill today emiten;;
         push_result (emiten, "success");;
         j ← get;
         log_when_job j (fun i =>
           appendBackgroundJobLogEntry i
             {| in_level := level_info; in_message := "Successfully analyzed";
                in_emiten := Some emiten;
                in_details :=
                  {[ "harga" := JNum (harga (an_marketData an));
                     "targetRealistis" := JNum (targetRealistis1 (an_calculated an)) ]} |})
     end)
    (fun error =>
       let errorMessage := message error in
       push_error (emiten, errorMessage);;
       j ← get;
       log_when_job j (fun i =>
         appendBackgroundJobLogEntry i
           {| in_level := level_error;
              in_message := if isTokenError errorMessage
                            then "Token authentication failed" else errorMessage;
              in_emiten := Some emiten;
              in_details :=
                {[ "isTokenError" := JBool (isTokenError errorMessage);
                   "originalError" := JStr errorMessage ]} |})).

(** [for (const item of watchlistItems) { ... }] *)
Fixpoint analyze_items (today : string) (watchlistItems : list WatchlistItem) : M job unit :=
  match watchlistItems with
  | [] => mret tt
  | item :: rest => analyze_item today item;; analyze_items today rest
  end.

Record HandlerResponse := { http_status : Z; body : gmap string jval }.

Definition count (n : nat) : jval := JNum (Num (inject_Z (Z.of_nat n))).

Definition seconds_since (startTime now : Z) : number :=
  div (Num (inject_Z (now - startTime))) (Num 1000).

Definition token_message (errorMessage : string) : string :=
  if isTokenError errorMessage
  then "Stockbit token expired or invalid. Please refresh your token."
  else errorMessage.

(** The outer [try] *)
Definition job_body (startTime : Z) : M job HandlerResponse :=
  now ← in_world Date_now;
  let today := toISODate env now in
  watchlistResponse ← lift_result (fetchWatchlist env);
  let watchlistItems := default [] (watchlist_result watchlistResponse) in
  if (length watchlistItems =? 0)%nat then
    mret {| http_status := 200;
            body := {[ "success" := JBool true; "message" := JStr "No items" ]} |}
  else
    try_catch
      (jobLog ← in_world (createBackgroundJobLog "analyze-watchlist" (length watchlistItems));
       match jobLog with
       | Some l => set_jobLogId (job_id l)
       | None => throw (TypeError "Cannot read properties of null (reading 'id')")
       end)
      (fun logError => mret tt);;
    analyze_items today watchlistItems;;
    finished ← in_world Date_now;
    let duration := seconds_since startTime finished in
    j ← get;
    let hasErrors := (0 <? length (errors j))%nat in
    log_when_job j (fun i =>
      updateBackgroundJobLog i
        {| u_status := if hasErrors && (length (results j) =? 0)%nat then failed else completed;
           u_success_count := Some (length (results j));
           u_error_count := Some (length (errors j));
           u_error_message :=
             if hasErrors then Some (dec (Z.of_nat (length (errors j))) +:+ " items failed")
             else None;
           u_metadata :=
             Some {[ "duration_seconds" := JNum duration; "date" := JStr today ]} |});;
    mret {| http_status := 200;
            body := {[ "success" := JBool true;
                       "results" := count (length (results j));
                       "errors" := count (length (errors j));
                       "jobLogId" := match jobLogId j with Some i => count i | None => JNull end ]} |}.

(** The outer [catch] *)
Definition on_critical_error (startTime : Z) (error : exn) : M job HandlerResponse :=
  let errorMessage := message error in
  j ← get;
  match if_jobLogId j with
  | Some i =>
      in_world (appendBackgroundJobLogEntry i
        {| in_level := level_error; in_message := token_message errorMessage;
           in_emiten := None;
           in_details := {[ "isTokenError" := JBool (isTokenError errorMessage);
                            "error" := JStr errorMessage ]} |});;
      now ← in_world Date_now;
      in_world (updateBackgroundJobLog i
        {| u_status := failed; u_success_count := None; u_error_count := None;
           u_error_message := Some (token_message errorMessage);
           u_metadata :=
             Some {[ "isTokenError" := JBool (isTokenError errorMessage);
                     "duration_seconds" := JNum (seconds_since startTime now) ]} |});;
      mret tt
  | None =>
      try_catch
        (failedLog ← in_world (createBackgroundJobLog "analyze-watchlist" 0);
         match failedLog with
         | Some l =>
             in_world (updateBackgroundJobLog (job_id l)
               {| u_status := failed; u_success_count := None; u_error_count := None;
                  u_error_message := Some (token_message errorMessage);
                  u_metadata := Some {[ "isTokenError" := JBool (isTokenError errorMessage) ]} |});;
             mret tt
         | None => throw (TypeError "Cannot read properties of null (reading 'id')")
         end)
        (fun logError => mret tt)
  end;;
  mret {| http_status := 500;
          body := {[ "success" := JBool false;
                     "error" := JStr errorMessage;
                     "isTokenError" := JBool (isTokenError errorMessage) ]} |}.

(** [export default async (req) => { ... }] *)
Definition handler : M job HandlerResponse :=
  startTime ← in_world Date_now;
  try_catch (job_body startTime) (on_critical_error startTime).

Definition start (w : world) : job :=
  {| the_world := w; jobLogId := None; results := []; errors := [] |}.

End Handler.
End Background.

(** ** app/api/analyze-watchlist/route: the same batch behind a POST *)

Module WatchlistRoute.

(** [authorization] is [request.headers.get('authorization')]. *)
Record Request := { authorization : option string }.

(** The JSON answer: its scalar fields, [results] and [errorDetails]. *)
Record RouteResponse := {
  route_status : Z;
  route_body : gmap string jval;
  route_results : list (string * string);
  route_errorDetails : list (string * string);
}.

Import Background.

Section Route.
Variable env : environment.

(** The body of the [for] loop; the route keeps no job log.  The backend
    is taken to accept the upsert. *)
Definition analyze_item (today : string) (item : WatchlistItem) : M job unit :=
  let emiten := emiten_of item in
  try_catch
    (r ← lift_result (analyse env today emiten);
     match r with
     | None => push_error (emiten, "No broker data")
     | Some an =>
         in_world (on_stock_queries
           (saveWatchlistAnalysis (column_defaults env) accepts
              (watchlist_row today emiten (an_sector an) (an_brokerData an)
                 (an_marketData an) (an_calculated an))));;
         backfill env today emiten;;
         push_result (emiten, "success")
     end)
    (fun error => push_error (emiten, message error)).

Fixpoint analyze_items (today : string) (watchlistItems : list WatchlistItem) : M job unit :=
  match watchlistItems with
  | [] => mret tt
  | item :: rest => analyze_item today item;; analyze_items today rest
  end.

(** [expectedToken && authHeader !== `Bearer ${expectedToken}`] *)
Definition unauthorized (CRON_SECRET : option string) (request : Request) : bool :=
  match CRON_SECRET with
  | Some expectedToken =>
      truthy_string expectedToken
      && negb (bool_decide (authorization request = Some ("Bearer " +:+ expectedToken)))
  | None => false
  end.

Definition POST (CRON_SECRET : option string) (request : Request) : M job RouteResponse :=
  try_catch
    (if unauthorized CRON_SECRET request then
       mret {| route_status := 401;
               route_body := {[ "success" := JBool false; "error" := JStr "Unauthorized" ]};
               route_results := []; route_errorDetails := [] |}
     else
       now ← in_world Date_now;
       let today := toISODate env now in
       watchlistResponse ← lift_result (fetchWatchlist env);
       let watchlistItems := default [] (watchlist_result watchlistResponse) in
       if (length watchlistItems =? 0)%nat then
         mret {| route_status := 200;
                 route_body := {[ "success" := JBool true;
                            "message" := JStr "No watchlist items to analyze" ]};
                 route_results := []; route_errorDetails := [] |}
       else
         analyze_items today watchlistItems;;
         j ← get;
         mret {| route_status := 200;
                 route_body := {[ "success" := JBool true;
                            "date" := JStr today;
                            "analyzed" := count (length (results j));
                            "errors" := count (length (errors j)) ]};
                 route_results := results j;
                 route_errorDetails := errors j |})
    (fun error =>
       mret {| route_status := 500;
               route_body := {[ "success" := JBool false; "error" := JStr (message error) ]};
               route_results := []; route_errorDetails := [] |}).

End Route.
End WatchlistRoute.

(** ** app/api/stock/route: the single-stock analysis path *)

Module StockRoute.

Record StockInput := {
  emiten : option string;
  fromDate : option string;
  toDate : option string;
}.

Record StockAnalysisResult := {
  stockbitData : BrokerData;
  marketData : MarketData;
  marketData_fraksi : number;
  calculated : Targets;
  brokerSummary : BrokerSummaryData;
}.

(** [NextResponse.json(body, { status })] with [body: ApiResponse] *)
Record ApiResponse := {
  http_status : Z;
  success : bool;
  data : option StockAnalysisResult;
  error : option string;
}.

Section Route.
Variable env : environment.

(** The module [getTopBroker] is imported from: the current lib/stockbit,
    or its older copy, which never returns [null]. *)
Variable importedGetTopBroker : option (MarketDetectorResponse loc) -> M heap (option BrokerData).

(** What the backend answers to the upsert of the route *)
Variable rejects : gmap string jval -> list stock_query -> option PostgrestError.

Definition marketData_of (obData : OrderbookData) (tbo : TotalBidOffer) : MarketData :=
  {| harga := Number_of (close obData);
     offerTeratas := offerTeratas_of env obData;
     bidTerbawah := bidTerbawah_of env obData;
     totalBid := parseLot (Number env) (bid_lot tbo);
     totalOffer := parseLot (Number env) (offer_lot tbo) |}.

(** From the two responses to the result, inside the [try] *)
Definition analyse (marketDetectorJson : option (MarketDetectorResponse (list BrokerBuyItem)))
    (orderbookData : OrderbookResponse) : M heap StockAnalysisResult :=
  marketDetectorData ← json_alloc marketDetectorJson;
  brokerData ← importedGetTopBroker marketDetectorData;
  brokerSummary ← getBrokerSummary marketDetectorData;
  let obData := obData_of orderbookData in
  match total_bid_offer obData, close obData with
  | Some tbo, Some _ =>
      let marketData := marketData_of obData tbo in
      match brokerData with
      | None => throw (TypeError "Cannot read properties of null (reading 'rataRataBandar')")
      | Some brokerData =>
          let calculated := targets_of env brokerData marketData in
          mret {| stockbitData := brokerData;
                  marketData := marketData;
                  marketData_fraksi := fraksi calculated;
                  calculated := calculated;
                  brokerSummary := brokerSummary |}
      end
  | _, _ => throw (Error "Invalid Orderbook API response structure")
  end.

(** [Promise.all] of the two requests *)
Definition fetch_both (emiten fromDate toDate : string)
  : result (option (MarketDetectorResponse (list BrokerBuyItem)) * OrderbookResponse) :=
  match fetchMarketDetector env emiten fromDate toDate, fetchOrderbook env emiten with
  | Return marketDetectorData, Return orderbookData => Return (marketDetectorData, orderbookData)
  | Throw e, Return _ => Throw e
  | Return _, Throw e => Throw e
  | Throw e1, Throw e2 => Throw (if orderbook_rejects_first env emiten then e2 else e1)
  end.

Definition failure (status : Z) (msg : string) : ApiResponse :=
  {| http_status := status; success := false; data := None; error := Some msg |}.

(** [saveStockQuery(...)] is not awaited and its rejection is only logged:
    the answer does not depend on it.  The state after [POST] is the table
    once the upsert has settled, which is taken to happen before the next
    statement reaches the store. *)
Definition POST (body : StockInput) : M (list stock_query) ApiResponse :=
  match emiten body, fromDate body, toDate body with
  | Some emiten, Some fromDate, Some toDate =>
      if truthy_string emiten && truthy_string fromDate && truthy_string toDate then
        try_catch
          ('(marketDetectorData, orderbookData) ← lift_result (fetch_both emiten fromDate toDate);
           result ← lift_result
             (fst (analyse marketDetectorData orderbookData (∅ : gmap loc (list BrokerBuyItem))));
           try_catch
             (saveStockQuery (column_defaults env) rejects
                (analysis_columns emiten fromDate toDate (stockbitData result)
                   (marketData result) (calculated result));; mret tt)
             (fun err => mret tt);;
           mret {| http_status := 200; success := true; data := Some result; error := None |})
          (fun error => mret (failure 500 (message error)))
      else mret (failure 400 "Missing required fields: emiten, fromDate, toDate")
  | _, _, _ => mret (failure 400 "Missing required fields: emiten, fromDate, toDate")
  end.

End Route.

(** The older copy of [getTopBroker], seen at the type of the current one *)
Definition older_getTopBroker (Number : string -> number)
    (marketDetectorData : option (MarketDetectorResponse loc)) : M heap (option BrokerData) :=
  b ← getTopBroker_old Number marketDetectorData; mret (Some b).

End StockRoute.

(** ** lib/stockbit, older copy: [getBrokerSummary] *)

Module StockbitOlder.

(** What the older [getBrokerSummary] returns: the fields of
    [bandar_detector] as they were received, and the two slices. *)
Record BrokerSummaryData := {
  detector : BandarDetector;
  topBuyers : sliced BrokerBuyItem;
  topSellers : sliced BrokerSellItem;
}.

(** Older variant: throws when there is no [bandar_detector]. *)
Definition getBrokerSummary (marketDetectorData : option (MarketDetectorResponse loc))
  : M heap BrokerSummaryData :=
  fun h =>
    let detector := bandar_detector_of marketDetectorData in
    let brokerSummary := broker_summary_of marketDetectorData in
    match detector with
    | None => (Throw (Error "No bandar_detector data found in response"), h)
    | Some detector =>
        let det :=
          {| bd_top1 := bd_top1 detector;
             bd_top3 := bd_top3 detector;
             bd_top5 := bd_top5 detector;
             bd_avg := bd_avg detector;
             bd_total_buyer := bd_total_buyer detector;
             bd_total_seller := bd_total_seller detector;
             bd_number_broker_buysell := bd_number_broker_buysell detector;
             bd_broker_accdist := bd_broker_accdist detector;
             bd_volume := bd_volume detector;
             bd_value := bd_value detector;
             bd_average := bd_average detector |} in
        let buy :=
          match brokerSummary with Some bs => brokers_buy bs | None => Absent end in
        let sell :=
          match brokerSummary with Some bs => brokers_sell bs | None => Absent end in
        match slice_or_empty (fun a => h !!! a) buy "brokerSummary?.brokers_buy?" with
        | Throw e => (Throw e, h)
        | Return buyers =>
            match slice_or_empty (fun l => l) sell "brokerSummary?.brokers_sell?" with
            | Throw e => (Throw e, h)
            | Return sellers =>
                (Return {| detector := det; topBuyers := buyers; topSellers := sellers |}, h)
            end
        end
    end.

End StockbitOlder.

(** ** lib/supabase: reading [stock_queries] back *)

Module Queries.

(** [.eq('emiten', emiten).eq('status', 'success')] *)
Definition success_of (emiten : string) (r : stock_query) : bool :=
  bool_decide (str_col "emiten" r = Some emiten)
  && bool_decide (str_col "status" r = Some "success").

(** [.order('from_date', { ascending: false })] without a filter on the
    date: a row goes after another when its date is smaller, and a dated
    row goes after a row without a date (descending order puts NULL
    first). *)
Definition newer_first (x y : stock_query) : bool :=
  match str_col "from_date" x, str_col "from_date" y with
  | Some dx, Some dy => String.ltb dx dy
  | Some _, None => true
  | _, _ => false
  end.

(** [if (error) return null; return data;] after [.limit(1).single()] *)
Definition first_or_null (rows : list stock_query) : option stock_query :=
  let '(data, error) := single (take 1 rows) in
  match error with
  | Some _ => None
  | None => data
  end.

Definition getLatestStockQuery (emiten : string) : M (list stock_query) (option stock_query) :=
  fun t =>
    (Return (first_or_null (stable_sort newer_first (List.filter (success_of emiten) t))), t).

Section WithUpperCase.
(** [s.toUpperCase()] is the runtime's; it is a parameter. *)
Variable toUpperCase : string -> string.

(** [.eq('emiten', emiten.toUpperCase()).eq('from_date', fromDate)
     .eq('to_date', toDate).eq('status', 'success')] *)
Definition specific (emiten fromDate toDate : string) (r : stock_query) : bool :=
  bool_decide (str_col "emiten" r = Some (toUpperCase emiten))
  && bool_decide (str_col "from_date" r = Some fromDate)
  && bool_decide (str_col "to_date" r = Some toDate)
  && bool_decide (str_col "status" r = Some "success").

Definition getSpecificStockQuery (emiten fromDate toDate : string)
  : M (list stock_query) (option stock_query) :=
  fun t => (Return (first_or_null (List.filter (specific emiten fromDate toDate) t)), t).
End WithUpperCase.

End Queries.

(** ** lib/supabase: the status of the token *)

Module TokenStatus.

(** [a < b], [a <= b] and [a > b] on numbers: false when either is NaN. *)
Definition lt (a b : number) : bool :=
  match a, b with
  | NaN, _ | _, NaN => false
  | Inf s, Inf t => s && negb t
  | Inf s, Num _ => s
  | Num _, Inf t => negb t
  | Num x, Num y => negb (Qle_bool y x)
  end.

Definition le (a b : number) : bool :=
  match a, b with
  | NaN, _ | _, NaN => false
  | Inf s, Inf t => s || negb t
  | Inf s, Num _ => s
  | Num _, Inf t => negb t
  | Num x, Num y => Qle_bool x y
  end.

Definition gt (a b : number) : bool := lt b a.

(** The columns that [getTokenStatus] selects *)
Record columns := {
  value : option string;
  expires_at : option string;
  last_used_at : option string;
  is_valid : option bool;
  updated_at : option string;
}.

Record TokenStatus := {
  exists_ : bool;
  isValid : bool;
  token : option string;
  expiresAt : option string;
  lastUsedAt : option string;
  updatedAt : option string;
  isExpiringSoon : bool;
  isExpired : bool;
  hoursUntilExpiry : option number;
}.

Section WithDate.
(** The time value of [new Date(s)], NaN when [s] is no date; it is the
    runtime's. *)
Variable Date_parse : string -> number.

(** [getTokenStatus] from the answer of its query on; [now] is the time
    value of [new Date()]. *)
Definition status_of (answer : reply columns) (now : Z) : TokenStatus :=
  match answer with
  | (Some data, None) =>
      let expiresAt :=
        match expires_at data with
        | Some s => if truthy_string s then Some (Date_parse s) else None
        | None => None
        end in
      let isExpired :=
        match expiresAt with
        | Some t => lt t (Num (inject_Z now))
        | None => false
        end in
      let hoursUntilExpiry :=
        match expiresAt with
        | Some t => Some (div (sub t (Num (inject_Z now))) (Num (inject_Z (1000 * 60 * 60))))
        | None => None
        end in
      let isExpiringSoon :=
        match hoursUntilExpiry with
        | Some h => le h (Num 1) && gt h (Num 0)
        | None => false
        end in
      {| exists_ := true;
         isValid := negb (bool_decide (is_valid data = Some false)) && negb isExpired;
         token := value data;
         expiresAt := expires_at data;
         lastUsedAt := last_used_at data;
         updatedAt := updated_at data;
         isExpiringSoon := isExpiringSoon;
         isExpired := isExpired;
         hoursUntilExpiry := hoursUntilExpiry |}
  | _ =>
      {| exists_ := false; isValid := false; token := None; expiresAt := None;
         lastUsedAt := None; updatedAt := None; isExpiringSoon := false; isExpired := true;
         hoursUntilExpiry := None |}
  end.

(** [new Date()] is read only when the row was found. *)
Definition getTokenStatus (answer : reply columns) : M world TokenStatus :=
  match answer with
  | (Some data, None) => now ← Date_now; mret (status_of answer now)
  | _ => mret (status_of answer 0)
  end.
End WithDate.

End TokenStatus.

(** ** lib/stockbit: the requests to the provider *)

Module Provider.

Definition STOCKBIT_BASE_URL : string := "https://exodus.stockbit.com".
Definition SECTOR_CACHE_DURATION : Z := 3600000.
Definition SECTORS_LIST_CACHE_DURATION : Z := 86400000.

(** What [fetch] is called with: the URL as written, the parameters added
    to it with [searchParams.append], and the headers. *)
Record Request := {
  url : string;
  searchParams : list (string * string);
  headers : list (string * string);
}.

(** What [fetch] resolves to: the [Response], and what [response.json()]
    gives when it is asked for. *)
Record Reply (J : Type) := { response : Fetch.Response; json : result J }.
#[global] Arguments response {J} _.
#[global] Arguments json {J} _.

(** *** The bodies of the answers, at the types the callers read them *)

Record EmitenInfoData := {
  data_sector : option string;
  data_sub_sector : option string;
  data_symbol : option string;
  data_name : option string;
  data_price : option string;
  data_change : option string;
  data_percentage : option number;
}.

Record EmitenInfoResponse := {
  info_data : option EmitenInfoData;
  info_message : option string;
}.

Record SectorItem := { sector_name : option string }.

(** [sectors_data] is [data.data]: an array, or missing. *)
Record SectorsResponse := { sectors_data : option (list SectorItem) }.

Record WatchlistGroup := { watchlist_id : option Z; is_default : option bool }.

Record GroupsResponse := { groups_data : field (list WatchlistGroup) }.

(** An item of a watchlist: the two fields that are read, and the others. *)
Record Item := {
  item_symbol : option string;
  item_company_code : option string;
  item_rest : gmap string jval;
}.

(** [watchlist_items] is [json.data?.result]; [watchlist_rest] holds the
    other fields of [json.data]. *)
Record WatchlistData := { watchlist_items : option (list Item); watchlist_rest : gmap string jval }.

Record WatchlistJson := { watchlist_data : option WatchlistData; watchlist_message : option string }.

Definition KeyStatsItem : Type := gmap string jval.

Record FinName := { fitem : KeyStatsItem }.

Record Category := { keystats_name : string; fin_name_results : list FinName }.

(** [closure_fin_items_results] is [json.data?.closure_fin_items_results]. *)
Record KeyStatsResponse := { closure_fin_items_results : option (list Category) }.

Record KeyStatsData := {
  currentValuation : list KeyStatsItem;
  incomeStatement : list KeyStatsItem;
  balanceSheet : list KeyStatsItem;
  profitability : list KeyStatsItem;
  growth : list KeyStatsItem;
}.

(** [historical_result] is [json.data?.result]. *)
Record HistoricalResponse := { historical_result : option (list HistoricalSummaryItem) }.

(** *** The network and the state of the module *)

(** What the provider answers to the n-th request of the process, by
    endpoint; a [Throw] is a rejection of [fetch] itself. *)
Record network := {
  marketdetectors :
    nat -> Request -> result (Reply (option (MarketDetectorResponse (list BrokerBuyItem))));
  orderbook : nat -> Request -> result (Reply OrderbookResponse);
  emitten_info : nat -> Request -> result (Reply EmitenInfoResponse);
  emitten_sectors : nat -> Request -> result (Reply SectorsResponse);
  watchlist_groups : nat -> Request -> result (Reply GroupsResponse);
  watchlist_detail : nat -> Request -> result (Reply WatchlistJson);
  keystats : nat -> Request -> result (Reply KeyStatsResponse);
  historical_summary : nat -> Request -> result (Reply HistoricalResponse);
}.

(** The module state of lib/stockbit next to the token cache: the two
    sector caches; and the requests sent so far. *)
Record client := {
  process : world;
  sectorCache : gmap string (string * Z);        (* key -> { sector, timestamp } *)
  sectorsListCache : option (list string * Z);   (* { sectors, timestamp } *)
  requests : list Request;
}.

Definition in_process {A} (m : M world A) : M client A :=
  fun c =>
    let '(r, w) := m (process c) in
    (r, {| process := w; sectorCache := sectorCache c;
           sectorsListCache := sectorsListCache c; requests := requests c |}).

Definition set_sectorCache (k : string) (v : string * Z) : M client unit :=
  modify (fun c => {| process := process c; sectorCache := <[k := v]> (sectorCache c);
                      sectorsListCache := sectorsListCache c; requests := requests c |}).

Definition set_sectorsListCache (v : list string * Z) : M client unit :=
  modify (fun c => {| process := process c; sectorCache := sectorCache c;
                      sectorsListCache := Some v; requests := requests c |}).

(** [fetch(url, { method: 'GET', headers })] *)
Definition fetch {J} (answer : nat -> Request -> result (Reply J)) (request : Request)
  : M client (Reply J) :=
  fun c =>
    (answer (length (requests c)) request,
     {| process := process c; sectorCache := sectorCache c;
        sectorsListCache := sectorsListCache c; requests := requests c ++ [request] |}).

Definition getHeaders : M client (list (string * string)) :=
  token ← in_process getAuthToken;
  mret [("accept", "application/json");
        ("authorization", "Bearer " +:+ token);
        ("origin", "https://stockbit.com");
        ("referer", "https://stockbit.com/");
        ("user-agent",
         "Mozilla/5.0 (Windows NT 10.0; Win64; x64) AppleWebKit/537.36 (KHTML, like Gecko) Chrome/143.0.0.0 Safari/537.36")].

(** The pattern of every request: the headers, the call, the check of the
    status, the body. *)
Definition GET {J} (answer : nat -> Request -> result (Reply J))
    (url : string) (searchParams : list (string * string)) (apiName : string) : M client J :=
  headers ← getHeaders;
  reply ← fetch answer {| url := url; searchParams := searchParams; headers := headers |};
  in_process (handleApiResponse (response reply) apiName);;
  lift_result (json reply).

Section Fetchers.
Variable net : network.
(** [s.toUpperCase()] is the runtime's; it is a parameter. *)
Variable toUpperCase : string -> string.

Definition fetchMarketDetector (emiten fromDate toDate : string)
  : M client (option (MarketDetectorResponse (list BrokerBuyItem))) :=
  GET (marketdetectors net)
    (STOCKBIT_BASE_URL +:+ "/marketdetectors/" +:+ emiten)
    [("from", fromDate); ("to", toDate);
     ("transaction_type", "TRANSACTION_TYPE_NET");
     ("market_board", "MARKET_BOARD_REGULER");
     ("investor_type", "INVESTOR_TYPE_ALL");
     ("limit", "25")]
    "Market Detector API".

Definition fetchOrderbook (emiten : string) : M client OrderbookResponse :=
  GET (orderbook net)
    (STOCKBIT_BASE_URL +:+ "/company-price-feed/v2/orderbook/companies/" +:+ emiten) []
    "Orderbook API".

(** The answer that [fetchEmitenInfo] builds from its cache *)
Definition cached_info (sector emiten : string) : EmitenInfoResponse :=
  {| info_data :=
       Some {| data_sector := Some sector;
               data_sub_sector := Some "";
               data_symbol := Some emiten;
               data_name := Some "";
               data_price := Some "0";
               data_change := Some "0";
               data_percentage := Some (Num 0) |};
     info_message := Some "Successfully retrieved company data (cached)" |}.

(** [data.data?.sector] *)
Definition sector_of (data : EmitenInfoResponse) : option string :=
  match info_data data with
  | Some d => data_sector d
  | None => None
  end.

Definition fetchEmitenInfo (emiten : string) : M client EmitenInfoResponse :=
  c ← get;
  let cached := sectorCache c !! toUpperCase emiten in
  now ← in_process Date_now;
  let request : M client EmitenInfoResponse :=
    data ← GET (emitten_info net) (STOCKBIT_BASE_URL +:+ "/emitten/" +:+ emiten +:+ "/info") []
             "Emiten Info API";
    match sector_of data with
    | Some sector =>
        if truthy_string sector
        then set_sectorCache (toUpperCase emiten) (sector, now);; mret data
        else mret data
    | None => mret data
    end in
  match cached with
  | Some (sector, timestamp) =>
      if (now - timestamp <? SECTOR_CACHE_DURATION)%Z
      then mret (cached_info sector emiten)
      else request
  | None => request
  end.

(** [.map(item => item.name).filter(Boolean)] *)
Definition sector_names (items : list SectorItem) : list string :=
  List.filter truthy_string (map (fun item => default EmptyString (sector_name item)) items).

Definition fetchSectors : M client (list string) :=
  now ← in_process Date_now;
  c ← get;
  let request : M client (list string) :=
    data ← GET (emitten_sectors net) (STOCKBIT_BASE_URL +:+ "/emitten/sectors") [] "Sectors API";
    let sectors := sector_names (default [] (sectors_data data)) in
    set_sectorsListCache (sectors, now);;
    mret sectors in
  match sectorsListCache c with
  | Some (sectors, timestamp) =>
      if (now - timestamp <? SECTORS_LIST_CACHE_DURATION)%Z then mret sectors else request
  | None => request
  end.

Definition fetchWatchlistGroups : M client (list WatchlistGroup) :=
  json ← GET (watchlist_groups net) (STOCKBIT_BASE_URL +:+ "/watchlist?page=1&limit=500") []
           "Watchlist Groups API";
  mret (match groups_data json with
        | Arr groups => groups
        | _ => []
        end).

(** [!id] on an id that may be missing; an id is an integer, and 0 counts
    as missing. *)
Definition truthy_id (id : option Z) : bool :=
  match id with
  | Some i => negb (i =? 0)%Z
  | None => false
  end.

(** [groups.find(w => w.is_default) || groups[0]] *)
Definition default_group (groups : list WatchlistGroup) : option WatchlistGroup :=
  match List.find (fun w => bool_decide (is_default w = Some true)) groups with
  | Some g => Some g
  | None => head groups
  end.

(** [{ ...item, company_code: item.symbol || item.company_code }] *)
Definition with_company_code (item : Item) : Item :=
  {| item_symbol := item_symbol item;
     item_company_code :=
       match item_symbol item with
       | Some s => if truthy_string s then Some s else item_company_code item
       | None => item_company_code item
       end;
     item_rest := item_rest item |}.

Definition detail_url (id : Z) : string :=
  STOCKBIT_BASE_URL +:+ "/watchlist/" +:+ dec id +:+ "?page=1&limit=500".

Definition fetchWatchlist (watchlistId : option Z) : M client WatchlistJson :=
  id ← (if truthy_id watchlistId then mret watchlistId
        else
          groups ← fetchWatchlistGroups;
          let defaultGroup := default_group groups in
          let id := match defaultGroup with Some g => watchlist_id g | None => None end in
          if truthy_id id then mret id else throw (Error "No watchlist found"));
  json ← GET (watchlist_detail net) (detail_url (default 0%Z id)) [] "Watchlist Detail API";
  mret (match watchlist_data json with
        | Some d =>
            match watchlist_items d with
            | Some result =>
                {| watchlist_data :=
                     Some {| watchlist_items := Some (map with_company_code result);
                             watchlist_rest := watchlist_rest d |};
                   watchlist_message := watchlist_message json |}
            | None => json
            end
        | None => json
        end).

(** [parseKeyStatsResponse] *)
Definition findCategory (categories : list Category) (name : string) : list KeyStatsItem :=
  match List.find (fun c => String.eqb (keystats_name c) name) categories with
  | Some category => map fitem (fin_name_results category)
  | None => []
  end.

Definition parseKeyStatsResponse (json : KeyStatsResponse) : KeyStatsData :=
  let categories := default [] (closure_fin_items_results json) in
  {| currentValuation := findCategory categories "Current Valuation";
     incomeStatement := findCategory categories "Income Statement";
     balanceSheet := findCategory categories "Balance Sheet";
     profitability := findCategory categories "Profitability";
     growth := findCategory categories "Growth" |}.

Definition fetchKeyStats (emiten : string) : M client KeyStatsData :=
  json ← GET (keystats net)
           (STOCKBIT_BASE_URL +:+ "/keystats/ratio/v1/" +:+ emiten +:+ "?year_limit=10") []
           "KeyStats API";
  mret (parseKeyStatsResponse json).

(** [limit] defaults to 12 when the caller passes none. *)
Definition fetchHistoricalSummary (emiten startDate endDate : string) (limit : nat)
  : M client (list HistoricalSummaryItem) :=
  json ← GET (historical_summary net)
           (STOCKBIT_BASE_URL +:+ "/company-price-feed/historical/summary/" +:+ emiten
            +:+ "?period=HS_PERIOD_DAILY&start_date=" +:+ startDate +:+ "&end_date=" +:+ endDate
            +:+ "&limit=" +:+ dec (Z.of_nat limit) +:+ "&page=1") []
           "Historical Summary API";
  mret (default [] (historical_result json)).

End Fetchers.

End Provider.

(** ** Vocabulary of the statements *)

(** [needle] occurs in [s]. *)
Definition occurs_in (needle s : string) : Prop :=
  exists pre post : string, s = pre +:+ needle +:+ post.

(** [a <= b] on dates: [b] is not before [a]. *)
Definition not_after (a b : string) : Prop := String.ltb b a = false.

(** [a <= b] on numbers; NaN is not comparable. *)
Definition num_le (a b : number) : Prop :=
  match a, b with
  | NaN, _ | _, NaN => False
  | Inf true, _ => True
  | _, Inf false => True
  | Inf false, _ => False
  | _, Inf true => False
  | Num x, Num y => (x <= y)%Q
  end.

Definition numeric (a : number) : Prop := a <> NaN.

Import Background.

(** *** The token *)

(** A token is cached and was fetched less than [TOKEN_CACHE_DURATION]
    before [now]. *)
Definition fresh_cache (now : Z) (w : world) : Prop :=
  exists tok, cachedToken w = Some tok /\ tok <> EmptyString
              /\ (now - tokenLastFetched w < 60000)%Z.

(** *** Table [stock_queries] *)

(** The UNIQUE (from_date, emiten) constraint that the conflict target
    names, and the primary key. *)
Definition unique_keys (t : list stock_query) : Prop :=
  forall k, (length (List.filter (has_key k) t) <= 1)%nat.

Definition unique_ids (t : list stock_query) : Prop := NoDup (map id t).

(** What a column holds of a value that was written to it: NULL for a
    number that is NaN or infinite, the value itself otherwise. *)
Definition stored (v : jval) : jval :=
  match v with
  | JNum NaN | JNum (Inf _) => JNull
  | _ => v
  end.

(** The row after ON CONFLICT DO UPDATE with [data] *)
Definition overwrite (data : gmap string jval) (r : stock_query) : stock_query :=
  {| id := id r; cols := (to_json <$> data) ∪ cols r |}.

(** [a] is strictly before [b] in the order of strings, character by
    character; on dates written YYYY-MM-DD this is the order of the days. *)
Inductive before : string -> string -> Prop :=
| before_prefix (c : ascii) (s : string) : before EmptyString (String c s)
| before_head (c1 c2 : ascii) (s1 s2 : string) :
    (nat_of_ascii c1 < nat_of_ascii c2)%nat -> before (String c1 s1) (String c2 s2)
| before_tail (c : ascii) (s1 s2 : string) :
    before s1 s2 -> before (String c s1) (String c s2).

(** A record of [emiten] with status success, dated strictly before
    [currentDate]: what [updatePreviousDayRealPrice] is to amend. *)
Definition prior_record (emiten currentDate : string) (r : stock_query) : Prop :=
  cols r !! "emiten" = Some (JStr emiten)
  /\ cols r !! "status" = Some (JStr "success")
  /\ exists d, cols r !! "from_date" = Some (JStr d) /\ before d currentDate.

(** [x] is dated strictly before [y]. *)
Definition dated_before (x y : stock_query) : Prop :=
  exists dx dy, cols x !! "from_date" = Some (JStr dx) /\ cols y !! "from_date" = Some (JStr dy)
                /\ before dx dy.

Definition dated (x : stock_query) : Prop := exists d, str_col "from_date" x = Some d.

Definition not_later (x y : stock_query) : Prop :=
  exists dx dy, str_col "from_date" x = Some dx /\ str_col "from_date" y = Some dy
                /\ not_after dx dy.

(** A record of [emiten] for [today] with status success is in the table. *)
Definition has_success_row (today emiten : string) (t : list stock_query) : Prop :=
  exists r, In r t /\ str_col "from_date" r = Some today
            /\ str_col "emiten" r = Some emiten /\ str_col "status" r = Some "success".

(** *** Broker data *)

Definition numeric_bval (Number : string -> number) (x : BrokerBuyItem) : Prop :=
  numeric (Number (bval x)).

Definition bval_le (Number : string -> number) (x y : BrokerBuyItem) : Prop :=
  num_le (Number (bval x)) (Number (bval y)).

(** [getTopBroker] answers with an element of [brokers] whose [bval] is
    maximal, and leaves every array as it was. *)
Definition top_broker_is_maximal (Number : string -> number)
    (h : gmap loc (list BrokerBuyItem)) (m : option (MarketDetectorResponse loc))
    (brokers : list BrokerBuyItem) : Prop :=
  exists top h',
    getTopBroker Number m h = (Return (Some (to_BrokerData Number top)), h')
    /\ In top brokers
    /\ (forall x, In x brokers -> bval_le Number x top)
    /\ forall l x, h !! l = Some x -> h' !! l = Some x.

(** The field is missing or holds an array. *)
Definition array_or_absent {A} (x : field A) : Prop :=
  match x with
  | NotArray _ => False
  | _ => True
  end.

Definition buy_field (m : option (MarketDetectorResponse loc)) : field loc :=
  match broker_summary_of m with Some bs => brokers_buy bs | None => Absent end.

Definition sell_field (m : option (MarketDetectorResponse loc)) : field (list BrokerSellItem) :=
  match broker_summary_of m with Some bs => brokers_sell bs | None => Absent end.

Definition default_detector : BrokerDetector :=
  {| top1 := default_stat; top3 := default_stat; top5 := default_stat; avg := default_stat;
     total_buyer := Num 0; total_seller := Num 0; number_broker_buysell := Num 0;
     broker_accdist := "-"; volume := Num 0; value := Num 0; average := Num 0 |}.

(** The dataset is missing, is no array, or is empty. *)
Definition no_broker_dataset (h : gmap loc (list BrokerBuyItem))
    (m : option (MarketDetectorResponse loc)) : Prop :=
  match brokers_buy_of m with
  | Arr a => h !!! a = []
  | _ => True
  end.

Definition no_broker_dataset_json (m : option (MarketDetectorResponse (list BrokerBuyItem)))
  : Prop :=
  match brokers_buy_of m with
  | Arr l => l = []
  | _ => True
  end.

(** *** The batch job *)

(** The job log that the outer [catch] marks: the run's, or a new one. *)
Definition critical_log_id (j : job) : nat :=
  match if_jobLogId j with
  | Some i => i
  | None => next_job_id (background_job_logs (the_world j))
  end.

(** The entry that [appendBackgroundJobLogEntry] builds at time [ts] *)
Definition stamp (ts : Z) (entry : entry_input) : log_entry :=
  {| timestamp := ts; level := in_level entry; entry_message := in_message entry;
     entry_emiten := in_emiten entry; details := in_details entry |}.

(** The row of the run's job log, when the run has one. *)
Definition the_job_row (j : job) : option job_log :=
  match if_jobLogId j with
  | Some i =>
      match List.filter (has_job_id i) (background_job_logs (the_world j)) with
      | [r] => Some r
      | _ => None
      end
  | None => None
  end.

(** What the log entry of a symbol says, by the outcome of its analysis. *)
Definition entry_records (emiten : string) (o : result (option analysis)) (e : log_entry) : Prop :=
  entry_emiten e = Some emiten /\
  match o with
  | Throw err =>
      level e = level_error /\ details e !! "originalError" = Some (JStr (message err))
  | Return None => level e = level_warn /\ entry_message e = "No broker data available"
  | Return (Some _) => level e = level_info /\ entry_message e = "Successfully analyzed"
  end.

(** What the handler's lists gain for a symbol, by the outcome. *)
Definition lists_record (emiten no_data : string) (o : result (option analysis)) (j j' : job)
  : Prop :=
  match o with
  | Throw err => errors j' = errors j ++ [(emiten, message err)] /\ results j' = results j
  | Return None => errors j' = errors j ++ [(emiten, no_data)] /\ results j' = results j
  | Return (Some _) => results j' = results j ++ [(emiten, "success")] /\ errors j' = errors j
  end.




(** What a symbol leaves in the handler's lists and in the table;
    [no_data] is what the loop says of a symbol without broker data. *)
Definition listed (env : environment) (today no_data : string) (item : WatchlistItem)
    (rs es : list (string * string)) : Prop :=
  match analyse env today (emiten_of item) with
  | Throw err => In (emiten_of item, message err) es
  | Return None => In (emiten_of item, no_data) es
  | Return (Some _) => In (emiten_of item, "success") rs
  end.

Definition upserted (env : environment) (today : string) (item : WatchlistItem)
    (t : list stock_query) : Prop :=
  match analyse env today (emiten_of item) with
  | Return (Some _) => has_success_row today (emiten_of item) t
  | _ => True
  end.

(** *** Rows kept by a write *)

(** No row was deleted or moved, and no primary key changed: the keys of
    [t] are the first keys of [t'], in the same order. *)
Definition ids_kept (t t' : list stock_query) : Prop :=
  exists added, map id t' = map id t ++ added.

(** What a write to [stock_queries] keeps: the two uniqueness constraints
    and the rows that were there. *)
Definition table_kept (t t' : list stock_query) : Prop :=
  (unique_keys t -> unique_keys t') /\ (unique_ids t -> unique_ids t') /\ ids_kept t t'.

(** What [updatePreviousDayRealPrice] does to a row when the record it
    found has primary key [i]. *)
Definition amend (price : number) (maxPrice : option number) (i : nat) (r : stock_query)
  : stock_query :=
  if (id r =? i)%nat
  then {| id := id r; cols := (to_json <$> real_price_update price maxPrice) ∪ cols r |}
  else r.


(** *** Job logs *)

(** [row] with [e] appended to its log *)
Definition logged (e : log_entry) (row : job_log) : job_log :=
  set_log_entries (log_entries row ++ [e]) row.

(** *** The batch, symbol by symbol *)

(** The entries of [results] and of [errors] that a watchlist gives, in
    the order of the watchlist; [no_data] is what the loop says of a
    symbol without broker data. *)
Definition successes (env : environment) (today : string) (items : list WatchlistItem)
  : list (string * string) :=
  flat_map (fun item =>
    match analyse env today (emiten_of item) with
    | Return (Some _) => [(emiten_of item, "success")]
    | _ => []
    end) items.

Definition failures (env : environment) (today no_data : string) (items : list WatchlistItem)
  : list (string * string) :=
  flat_map (fun item =>
    match analyse env today (emiten_of item) with
    | Throw err => [(emiten_of item, message err)]
    | Return None => [(emiten_of item, no_data)]
    | Return (Some _) => []
    end) items.

(** The run's job log is the last row of the table, [old] being the rows
    of earlier runs. *)
Definition job_tail (old : list job_log) (row : job_log) (j : job) : Prop :=
  background_job_logs (the_world j) = old ++ [row]
  /\ jobLogId j = Some (job_id row)
  /\ job_id row = next_job_id old.

(** The status that the handler gives a finished run *)
Definition final_status (results errors : list (string * string)) : job_status :=
  if (0 <? length errors)%nat && (length results =? 0)%nat then failed else completed.

(** *** Requests *)

(** A field of a request body that [!x] rejects: missing or empty. *)
Definition blank (x : option string) : Prop := x = None \/ x = Some EmptyString.

(** *** Broker data, continued *)

(** The [bval] of [x] is strictly below that of [y]. *)
Definition bval_lt (Number : string -> number) (x y : BrokerBuyItem) : Prop :=
  bval_le Number x y /\ ~ bval_le Number y x.

(** The defaults of the current [getBrokerSummary] over the fields of a
    received [bandar_detector] *)
Definition with_defaults (d : BandarDetector) : BrokerDetector :=
  {| top1 := default default_stat (bd_top1 d);
     top3 := default default_stat (bd_top3 d);
     top5 := default default_stat (bd_top5 d);
     avg := default default_stat (bd_avg d);
     total_buyer := or_number (bd_total_buyer d) (Num 0);
     total_seller := or_number (bd_total_seller d) (Num 0);
     number_broker_buysell := or_number (bd_number_broker_buysell d) (Num 0);
     broker_accdist := or_string (bd_broker_accdist d) "-";
     volume := or_number (bd_volume d) (Num 0);
     value := or_number (bd_value d) (Num 0);
     average := or_number (bd_average d) (Num 0) |}.

(** [g] is the group that [fetchWatchlist] takes when it is given no id:
    the first one marked as default, or the first one when none is. *)
Definition default_of (groups : list Provider.WatchlistGroup) (g : Provider.WatchlistGroup)
  : Prop :=
  (exists pre post,
      groups = pre ++ g :: post
      /\ Forall (fun w => Provider.is_default w <> Some true) pre
      /\ Provider.is_default g = Some true)
  \/ (Forall (fun w => Provider.is_default w <> Some true) groups /\ head groups = Some g).


(** *** The sector cache *)

(** The sector cache holds no entry for [key] that is less than an hour
    old at [now]: a call at [now] goes to the provider. *)
Definition no_fresh_sector (key : string) (now : Z) (c : Provider.client) : Prop :=
  forall sector timestamp,
    Provider.sectorCache c !! key = Some (sector, timestamp) -> (3600000 <= now - timestamp)%Z.

(** ** Sample data *)

Module Sample.

(** A stand-in for the runtime's [Number]: it agrees with it on the empty
    string and on runs of decimal digits, the strings it is used on below
    apart from ["x"], which is no number. *)
Fixpoint digits (s : string) (acc : Z) : option Z :=
  match s with
  | EmptyString => Some acc
  | String c s' =>
      let n := Z.of_N (N_of_ascii c) in
      if ((48 <=? n) && (n <=? 57))%Z then digits s' (10 * acc + (n - 48))%Z else None
  end.

Definition decimal (s : string) : number :=
  match digits s 0 with
  | Some z => Num (inject_Z z)
  | None => NaN
  end.

(** A stand-in for [calculateTargets]. *)
Definition no_targets (_ _ _ _ _ _ _ : number) : Targets :=
  {| fraksi := Num 0; totalPapan := Num 0; rataRataBidOfer := Num 0; a := Num 0; p := Num 0;
     targetRealistis1 := Num 0; targetMax := Num 0 |}.

Definition buy (broker value lot price : string) : BrokerBuyItem :=
  {| netbs_broker_code := broker; bval := value; blot := lot;
     netbs_buy_avg_price := price; buy_type := "Asing" |}.

Definition brokers : list BrokerBuyItem :=
  [buy "YP" "1200" "35" "9100"; buy "AK" "5400" "160" "9125"; buy "BK" "5400" "80" "9000"].

(** A list with a [bval] that is no number *)
Definition brokers_nan : list BrokerBuyItem :=
  [buy "AA" "x" "10" "100"; buy "BB" "5" "20" "200"].

Definition response {A} (buy : field A) : option (MarketDetectorResponse A) :=
  Some {| data := Some {| broker_summary := Some {| brokers_buy := buy; brokers_sell := Absent |};
                          bandar_detector := None |} |}.

Definition heap_of (l : list BrokerBuyItem) : gmap loc (list BrokerBuyItem) := {[ 1%nat := l ]}.

Definition orderbook : OrderbookResponse :=
  let ob :=
    {| close := Some (Num 9150); high := Some (Num 9200);
       offer := Some [{| price := "9175" |}; {| price := "9200" |}];
       bid := Some [{| price := "9150" |}; {| price := "9125" |}];
       total_bid_offer := Some {| bid_lot := Some "25,322"; offer_lot := Some "18,000" |} |} in
  {| ob_data := Some ob; ob_self := ob |}.

Definition item (s : string) : WatchlistItem := {| symbol := s; company_code := s |}.

(** A watchlist whose first symbol fails at the provider, whose second has
    data, and whose third has no broker data. *)
Definition watchlist : list WatchlistItem := [item "FAIL"; item "BBCA"; item "NONE"].

Definition env : environment :=
  {| Number := decimal;
     calculateTargets := no_targets;
     column_defaults := ∅;
     toISODate := fun _ => "2026-01-05";
     fetchWatchlist := Return {| watchlist_result := Some watchlist |};
     fetchMarketDetector := fun emiten _ _ =>
       if String.eqb emiten "BBCA" then Return (response (Arr brokers))
       else if String.eqb emiten "NONE" then Return (response (Arr []))
       else Throw (Error "Market Detector API error: 500 Internal Server Error");
     fetchOrderbook := fun _ => Return orderbook;
     fetchEmitenInfo := fun _ => Return {| info_sector := Some "Finance" |};
     fetchHistoricalSummary := fun _ _ _ _ => Return [];
     orderbook_rejects_first := fun _ => false |}.

Definition job_row : job_log :=
  {| job_id := 1; job_name := "analyze-watchlist"; status := running; total_items := 3;
     log_entries := []; success_count := None; error_count := None; error_message := None;
     metadata := None; completed_at := None |}.

Definition world_with (queries : list stock_query) (logs : list job_log) : world :=
  {| wall_clock := fun n => (1000 * Z.of_nat n)%Z;
     clock_reads := 0;
     cachedToken := None;
     tokenLastFetched := 0;
     env_STOCKBIT_JWT_TOKEN := None;
     session := [];
     session_statements := [];
     stock_queries := queries;
     background_job_logs := logs;
     append_job_log_entry_rpc := true |}.

Definition row (i : nat) (date emiten : string) : stock_query :=
  {| id := i;
     cols := {[ "from_date" := JStr date; "emiten" := JStr emiten;
                "status" := JStr "success"; "harga" := JNum (Num 9000) ]} |}.

Definition queries : list stock_query :=
  [row 1 "2026-01-02" "BBCA"; row 2 "2026-01-03" "BBCA"; row 3 "2026-01-03" "GOTO"].

Definition first_save : gmap string jval :=
  {[ "from_date" := JStr "2026-01-05"; "emiten" := JStr "BBCA"; "harga" := JNum (Num 9150) ]}.

Definition second_save : gmap string jval :=
  {[ "from_date" := JStr "2026-01-05"; "emiten" := JStr "BBCA"; "harga" := JNum (Num 9300);
     "status" := JStr "success" ]}.

(** A save for an order book without [close]: [harga] is NaN. *)
Definition nan_save : gmap string jval :=
  {[ "from_date" := JStr "2026-01-05"; "emiten" := JStr "BBCA"; "harga" := JNum NaN;
     "status" := JStr "success" ]}.

(** A process that cached ["jwt-0"] at time 0, next to a store that holds
    ["jwt-1"]; the clock was read [reads] times, once a second. *)
Definition token_world (reads : nat) : world :=
  {| wall_clock := fun n => (1000 * Z.of_nat n)%Z;
     clock_reads := reads;
     cachedToken := Some "jwt-0";
     tokenLastFetched := 0;
     env_STOCKBIT_JWT_TOKEN := Some "jwt-env";
     session := [{| key := "stockbit_token"; session_value := Some "jwt-1";
                    is_valid := Some true; last_used_at := None |}];
     session_statements := [];
     stock_queries := [];
     background_job_logs := [];
     append_job_log_entry_rpc := true |}.

(** The handler's variables when the outer [catch] runs after the job log
    was created. *)
Definition failed_job : job :=
  {| the_world := world_with [] [job_row]; jobLogId := Some 1%nat; results := []; errors := [] |}.

Definition token_error : exn :=
  TokenExpiredError "Watchlist Detail API: Token expired or invalid (401)".

(** The same provider with another answer to the watchlist request, and
    with a price history for the backfill. *)
Definition env_with (watchlistResponse : result WatchlistResponse)
    (history : list HistoricalSummaryItem) : environment :=
  {| Number := decimal;
     calculateTargets := no_targets;
     column_defaults := ∅;
     toISODate := fun _ => "2026-01-05";
     fetchWatchlist := watchlistResponse;
     fetchMarketDetector := fetchMarketDetector env;
     fetchOrderbook := fetchOrderbook env;
     fetchEmitenInfo := fetchEmitenInfo env;
     fetchHistoricalSummary := fun _ _ _ _ => Return history;
     orderbook_rejects_first := fun _ => false |}.

Definition history : list HistoricalSummaryItem :=
  [{| hist_close := Num 9175; hist_high := Num 9250 |}].

(** A log entry as the batch writes it *)
Definition entry : entry_input :=
  {| in_level := level_info; in_message := "Successfully analyzed"; in_emiten := Some "BBCA";
     in_details := ∅ |}.

(** The answer of the provider to a request with a token it rejects *)
Definition unauthorized : Fetch.Response :=
  {| Fetch.status := 401; Fetch.statusText := "Unauthorized" |}.

Definition token_row : session_row :=
  {| key := "stockbit_token"; session_value := Some "jwt-1"; is_valid := Some true;
     last_used_at := None |}.

(** A stand-in for [toUpperCase]: it agrees with it on ASCII letters. *)
Fixpoint upper (s : string) : string :=
  match s with
  | EmptyString => EmptyString
  | String c s' =>
      let n := N_of_ascii c in
      String (if ((97 <=? n) && (n <=? 122))%N then ascii_of_N (n - 32) else c) (upper s')
  end.

Definition broker : BrokerData :=
  {| bandar := "AK"; barangBandar := Num 160; rataRataBandar := Num 9125 |}.

Definition market : MarketData :=
  {| harga := Num 9150; offerTeratas := Num 9200; bidTerbawah := Num 9125;
     totalBid := Num 25322; totalOffer := Num 18000 |}.

(** A provider that answers 200 to the requests for company data, sectors
    and watchlists, and is unreachable for the others. *)
Definition ok_200 : Fetch.Response := {| Fetch.status := 200; Fetch.statusText := "OK" |}.

Definition info : Provider.EmitenInfoResponse :=
  {| Provider.info_data :=
       Some {| Provider.data_sector := Some "Finance";
               Provider.data_sub_sector := Some "Banks";
               Provider.data_symbol := Some "BBCA";
               Provider.data_name := Some "Bank Central Asia";
               Provider.data_price := Some "9150";
               Provider.data_change := Some "25";
               Provider.data_percentage := Some (Num 0.27) |};
     Provider.info_message := Some "Successfully retrieved company data" |}.

Definition sector_items : list Provider.SectorItem :=
  [{| Provider.sector_name := Some "Finance" |}; {| Provider.sector_name := None |};
   {| Provider.sector_name := Some "" |}; {| Provider.sector_name := Some "Energy" |}].

Definition groups : list Provider.WatchlistGroup :=
  [{| Provider.watchlist_id := Some 11%Z; Provider.is_default := None |};
   {| Provider.watchlist_id := Some 22%Z; Provider.is_default := Some true |};
   {| Provider.watchlist_id := Some 33%Z; Provider.is_default := Some true |}].

Definition raw_items : list Provider.Item :=
  [{| Provider.item_symbol := Some "BBCA"; Provider.item_company_code := None;
      Provider.item_rest := {[ "last_price" := JNum (Num 9150) ]} |};
   {| Provider.item_symbol := None; Provider.item_company_code := Some "TLKM";
      Provider.item_rest := ∅ |}].

Definition watchlist_of (items : list Provider.Item) : Provider.WatchlistJson :=
  {| Provider.watchlist_data :=
       Some {| Provider.watchlist_items := Some items;
               Provider.watchlist_rest := {[ "watchlist_id" := JNum (Num 22) ]} |};
     Provider.watchlist_message := Some "ok" |}.

Definition fetched_items : list Provider.Item :=
  [{| Provider.item_symbol := Some "BBCA"; Provider.item_company_code := Some "BBCA";
      Provider.item_rest := {[ "last_price" := JNum (Num 9150) ]} |};
   {| Provider.item_symbol := None; Provider.item_company_code := Some "TLKM";
      Provider.item_rest := ∅ |}].

Definition unreachable {J} (_ : nat) (_ : Provider.Request) : result (Provider.Reply J) :=
  Throw (Exn "TypeError" "fetch failed").

Definition answers {J} (j : J) (_ : nat) (_ : Provider.Request) : result (Provider.Reply J) :=
  Return {| Provider.response := ok_200; Provider.json := Return j |}.

Definition net : Provider.network :=
  {| Provider.marketdetectors := unreachable;
     Provider.orderbook := unreachable;
     Provider.emitten_info := answers info;
     Provider.emitten_sectors := answers {| Provider.sectors_data := Some sector_items |};
     Provider.watchlist_groups := answers {| Provider.groups_data := Arr groups |};
     Provider.watchlist_detail := answers (watchlist_of raw_items);
     Provider.keystats := unreachable;
     Provider.historical_summary := unreachable |}.

(** A process that holds a token and has sent no request yet. *)
Definition client : Provider.client :=
  {| Provider.process := token_world 0;
     Provider.sectorCache := ∅;
     Provider.sectorsListCache := None;
     Provider.requests := [] |}.

(** The same process more than an hour later (the clock was read 4000
    times, once a second), with an entry of the sector cache written at
    time 0. *)
Definition stale_client : Provider.client :=
  {| Provider.process := token_world 4000;
     Provider.sectorCache := {[ "BBCA" := ("Banks", 0%Z) ]};
     Provider.sectorsListCache := None;
     Provider.requests := [] |}.

(** A backend that is down *)
Definition unavailable (data : gmap string jval) (t : list stock_query)
  : option PostgrestError :=
  Some {| code := "503"; pg_message := "Service Unavailable" |}.

End Sample.

(** * Properties *)

(** ** Strings *)

Lemma startsWith_spec (s p : string) :
  startsWith s p = true <-> exists post, s = p +:+ post.
Proof.
  revert s. induction p as [|c p IH]; intros s; simpl.
  - split; [intros _; now exists s | reflexivity].
  - destruct s as [|b s].
    + split; [discriminate | intros [post H]; discriminate].
    + destruct (Ascii.eqb c b) eqn:E.
      * apply Ascii.eqb_eq in E; subst b. rewrite IH.
        split; intros [post H]; exists post; [now rewrite H | now injection H].
      * apply Ascii.eqb_neq in E. split; [discriminate|].
        intros [post H]. injection H as H1 _. congruence.
Qed.

Lemma includes_spec (s needle : string) :
  includes s needle = true <-> occurs_in needle s.
Proof.
  unfold occurs_in. induction s as [|c s IH].
  - simpl. rewrite orb_false_r, startsWith_spec. split.
    + intros [post H]. now exists EmptyString, post.
    + intros [pre [post H]]. destruct pre; [now exists post | discriminate].
  - cbn [includes]. rewrite orb_true_iff, startsWith_spec, IH. split.
    + intros [[post H] | [pre [post H]]].
      * now exists EmptyString, post.
      * exists (String c pre), post. simpl. now rewrite H.
    + intros [pre [post H]]. destruct pre as [|c' pre].
      * left. now exists post.
      * right. injection H as _ H. now exists pre, post.
Qed.

Lemma isTokenError_spec (errorMessage : string) :
  isTokenError errorMessage = true <->
  occurs_in "401" errorMessage \/ occurs_in "unauthorized" errorMessage
  \/ occurs_in "token" errorMessage \/ occurs_in "authentication" errorMessage.
Proof.
  unfold isTokenError. rewrite !orb_true_iff, !includes_spec. tauto.
Qed.

(** ** Job logs *)

Lemma job_id_below_next (t : list job_log) (r : job_log) :
  In r t -> (job_id r < next_job_id t)%nat.
Proof.
  unfold next_job_id. induction t as [|x t IH]; simpl; [tauto|].
  intros [-> | H]; [lia | specialize (IH H); lia].
Qed.

Lemma filter_fresh_job_id (t : list job_log) :
  List.filter (has_job_id (next_job_id t)) t = [].
Proof.
  assert (H : forall l, (forall r, In r l -> (job_id r < next_job_id t)%nat) ->
                        List.filter (has_job_id (next_job_id t)) l = []).
  { induction l as [|x l IH]; simpl; [reflexivity|]. intros Hl.
    unfold has_job_id at 1. destruct (Nat.eqb_spec (job_id x) (next_job_id t)) as [E|_].
    - specialize (Hl x (or_introl eq_refl)). lia.
    - apply IH. intros r Hr. apply Hl. now right. }
  apply H. intros r. apply job_id_below_next.
Qed.

Lemma filter_alter_jobs (i : nat) (f : job_log -> job_log) (t : list job_log) :
  (forall r, job_id (f r) = job_id r) ->
  List.filter (has_job_id i) (alter_jobs i f t) = map f (List.filter (has_job_id i) t).
Proof.
  intros Hf. unfold alter_jobs. induction t as [|x t IH]; simpl; [reflexivity|].
  destruct (has_job_id i x) eqn:E; simpl.
  - unfold has_job_id in *. rewrite Hf, E. simpl. now rewrite IH.
  - rewrite E. apply IH.
Qed.

#[local] Arguments createBackgroundJobLog : simpl never.
#[local] Arguments updateBackgroundJobLog : simpl never.
#[local] Arguments appendBackgroundJobLogEntry : simpl never.
#[local] Arguments Date_now : simpl never.

Ltac run :=
  unfold mbind, mret, M_bind, M_ret, try_catch, in_world, throw, get, modify, lift_result; cbn.

Lemma append_entry_jobs (i : nat) (entry : entry_input) (w : world) :
  exists g : job_log -> job_log,
    (forall r, job_id (g r) = job_id r) /\
    (forall r, status (g r) = status r) /\
    (forall r, metadata (g r) = metadata r) /\
    (forall r, exists es, log_entries (g r) = es ++
       [{| timestamp := wall_clock w (clock_reads w); level := in_level entry;
           entry_message := in_message entry; entry_emiten := in_emiten entry;
           details := in_details entry |}]) /\
    appendBackgroundJobLogEntry i entry w =
      (Return tt,
       with_job_logs (alter_jobs i g (background_job_logs w))
         (with_clock_reads (S (clock_reads w)) w)).
Proof.
  unfold appendBackgroundJobLogEntry, rpc_append_job_log_entry, Date_now, mbind, M_bind. simpl.
  destruct (append_job_log_entry_rpc w) eqn:E.
  - eexists (fun r => set_log_entries (log_entries r ++ [_]) r). repeat split; eauto.
  - simpl. destruct (single (List.filter (has_job_id i) (background_job_logs w))) as [current e'].
    eexists (set_log_entries (_ ++ [_])). repeat split.
    intros r. eexists. reflexivity.
Qed.

Lemma update_job_of_single (i : nat) (data : job_update) (w : world) (r0 : job_log) :
  List.filter (has_job_id i) (background_job_logs w) = [r0] ->
  let now := wall_clock w (clock_reads w) in
  let t' := alter_jobs i (apply_job_update data now) (background_job_logs w) in
  updateBackgroundJobLog i data w =
    (Return (Some (apply_job_update data now r0)),
     with_job_logs t' (with_clock_reads (S (clock_reads w)) w))
  /\ In (apply_job_update data now r0) t'
  /\ List.filter (has_job_id i) t' = [apply_job_update data now r0].
Proof.
  intros Hf now t'. unfold updateBackgroundJobLog, Date_now, mbind, M_bind. simpl.
  fold now. fold t'.
  assert (Ht' : List.filter (has_job_id i) t' = [apply_job_update data now r0]).
  { unfold t'. rewrite filter_alter_jobs by reflexivity. now rewrite Hf. }
  rewrite Ht'. simpl. split; [reflexivity|]. split; [|reflexivity].
  assert (H : In (apply_job_update data now r0) (List.filter (has_job_id i) t'))
    by (rewrite Ht'; now left).
  now apply List.filter_In in H.
Qed.

Lemma create_job_log_fresh (jobName : string) (totalItems : nat) (w : world) :
  exists row,
    createBackgroundJobLog jobName totalItems w =
      (Return (Some row), with_job_logs (background_job_logs w ++ [row]) w)
    /\ job_id row = next_job_id (background_job_logs w)
    /\ status row = running
    /\ log_entries row = []
    /\ List.filter (has_job_id (job_id row)) (background_job_logs w ++ [row]) = [row].
Proof.
  eexists. split; [reflexivity|]. simpl. repeat split.
  rewrite List.filter_app, filter_fresh_job_id. simpl.
  unfold has_job_id. simpl. now rewrite Nat.eqb_refl.
Qed.

(** C7.  When the outer [catch] of the batch job runs, the job log of the
    run (or the one created for the failure) gets status failed, and its
    metadata says [isTokenError] exactly when the error message contains
    "401", "unauthorized", "token" or "authentication". *)
Theorem top_level_catch_marks_failed (startTime : Z) (error : exn) (j : job) :
  (forall i, if_jobLogId j = Some i ->
     length (List.filter (has_job_id i) (background_job_logs (the_world j))) = 1%nat) ->
  exists resp j' row md,
    on_critical_error startTime error j = (Return resp, j') /\
    In row (background_job_logs (the_world j')) /\
    job_id row = critical_log_id j /\
    status row = failed /\
    metadata row = Some md /\
    md !! "isTokenError" = Some (JBool (isTokenError (message error))) /\
    (isTokenError (message error) = true <->
       occurs_in "401" (message error) \/ occurs_in "unauthorized" (message error)
       \/ occurs_in "token" (message error) \/ occurs_in "authentication" (message error)).
Proof.
  intros Hlog. unfold on_critical_error, critical_log_id.
  destruct (if_jobLogId j) as [i|] eqn:Hid.
  - specialize (Hlog i eq_refl).
    destruct (append_entry_jobs i
      {| in_level := level_error; in_message := token_message (message error);
         in_emiten := None;
         in_details := {[ "isTokenError" := JBool (isTokenError (message error));
                          "error" := JStr (message error) ]} |} (the_world j))
      as (g & Hg & _ & _ & _ & Happ).
    destruct (List.filter (has_job_id i) (background_job_logs (the_world j)))
      as [|r0 [|? ?]] eqn:Hf; try discriminate Hlog.
    run. rewrite Hid. run. rewrite Happ. simpl.
    match goal with
    | |- context [updateBackgroundJobLog i ?d ?w] =>
        destruct (update_job_of_single i d w (g r0)) as (Hupd & Hin & _);
        [simpl; rewrite filter_alter_jobs by exact Hg; now rewrite Hf|]
    end.
    simpl in Hupd, Hin. rewrite Hupd. simpl.
    do 4 eexists. split; [reflexivity|]. simpl.
    split; [exact Hin|]. simpl. rewrite Hg.
    assert (Hr0 : In r0 (List.filter (has_job_id i) (background_job_logs (the_world j))))
      by (rewrite Hf; now left).
    apply List.filter_In in Hr0 as [_ Hr0]. unfold has_job_id in Hr0.
    apply Nat.eqb_eq in Hr0.
    repeat split; try assumption; try reflexivity; try apply isTokenError_spec.
  - destruct (create_job_log_fresh "analyze-watchlist" 0 (the_world j))
      as (row & Hcreate & Hrow & _ & _ & Hf).
    run. rewrite Hid. run. rewrite Hcreate. simpl.
    match goal with
    | |- context [updateBackgroundJobLog (job_id row) ?d ?w] =>
        destruct (update_job_of_single (job_id row) d w row) as (Hupd & Hin & _);
        [exact Hf|]
    end.
    simpl in Hupd, Hin. rewrite Hupd. simpl.
    do 4 eexists. split; [reflexivity|]. simpl.
    split; [exact Hin|]. simpl.
    repeat split; try assumption; try reflexivity; try apply isTokenError_spec.
Qed.

(** ** The token cache *)

#[local] Arguments getSessionValue : simpl never.

Lemma truthy_string_iff (s : string) : truthy_string s = true <-> s <> EmptyString.
Proof. destruct s; simpl; split; congruence. Qed.

Lemma fresh_cache_test (now : Z) (w : world) :
  truthy_token (cachedToken w) && (now - tokenLastFetched w <? TOKEN_CACHE_DURATION)%Z = true
  <-> fresh_cache now w.
Proof.
  unfold fresh_cache, truthy_token, TOKEN_CACHE_DURATION.
  rewrite andb_true_iff, Z.ltb_lt. split.
  - intros [Ht Hlt]. destruct (cachedToken w) as [tok|]; [|discriminate].
    exists tok. rewrite truthy_string_iff in Ht. auto.
  - intros (tok & -> & Hne & Hlt). rewrite truthy_string_iff. auto.
Qed.

Lemma getSessionValue_statements (k : string) (w : world) :
  exists v, getSessionValue k w = (Return v, with_session (session w) (SessionSelect k) w).
Proof.
  unfold getSessionValue.
  destruct (single (List.filter (has_key_eq k) (session w))) as [[d|] [e|]]; eauto.
Qed.

Lemma app_singleton_neq {A} (l : list A) (x : A) : l ++ [x] <> l.
Proof.
  intros H. apply (f_equal (@length A)) in H. rewrite length_app in H. simpl in H. lia.
Qed.

(** C6.  [getAuthToken] returns the cached token without a query to the
    session store exactly when a token is cached and was fetched less than
    60000 ms before; otherwise it queries the store, caches and returns the
    stored token, or returns the environment's token without caching it, or
    throws when neither has one. *)
Theorem getAuthToken_cache_or_store (w : world) :
  let now := wall_clock w (clock_reads w) in
  let w0 := with_clock_reads (S (clock_reads w)) w in
  let '(r, w') := getAuthToken w in
  (fresh_cache now w <-> session_statements w' = session_statements w)
  /\ (fresh_cache now w -> r = Return (the_token (cachedToken w)) /\ w' = w0)
  /\ (~ fresh_cache now w ->
      session_statements w' = session_statements w ++ [SessionSelect "stockbit_token"]
      /\ exists token, fst (getSessionValue "stockbit_token" w0) = Return token
         /\ if truthy_token token
            then r = Return (the_token token)
                 /\ cachedToken w' = token /\ tokenLastFetched w' = now
            else cachedToken w' = cachedToken w /\ tokenLastFetched w' = tokenLastFetched w
                 /\ if truthy_token (env_STOCKBIT_JWT_TOKEN w)
                    then r = Return (the_token (env_STOCKBIT_JWT_TOKEN w))
                    else r = Throw (Error "STOCKBIT_JWT_TOKEN not found in database or environment")).
Proof.
  intros now w0. unfold getAuthToken, Date_now. run. fold now. fold w0.
  change (cachedToken w0) with (cachedToken w).
  change (tokenLastFetched w0) with (tokenLastFetched w).
  change (env_STOCKBIT_JWT_TOKEN w0) with (env_STOCKBIT_JWT_TOKEN w).
  pose proof (fresh_cache_test now w) as Htest.
  destruct (truthy_token (cachedToken w) && (now - tokenLastFetched w <? TOKEN_CACHE_DURATION)%Z).
  - assert (Hfresh : fresh_cache now w) by now apply Htest.
    split; [tauto|]. split; [auto|]. tauto.
  - assert (Hstale : ~ fresh_cache now w) by (intros H; apply Htest in H; discriminate).
    destruct (getSessionValue_statements "stockbit_token" w0) as [token Hget].
    rewrite Hget. cbn.
    assert (Hsel : fresh_cache now w <->
               session_statements w ++ [SessionSelect "stockbit_token"] = session_statements w).
    { split; [tauto|]. intros H. now apply app_singleton_neq in H. }
    destruct (truthy_token token) eqn:Htok; cbn.
    + split; [exact Hsel|]. split; [tauto|]. intros _. split; [reflexivity|].
      exists token. rewrite Htok. auto.
    + destruct (truthy_token (env_STOCKBIT_JWT_TOKEN w)) eqn:Henv; cbn.
      * split; [exact Hsel|]. split; [tauto|]. intros _. split; [reflexivity|].
        exists token. rewrite Htok. auto.
      * split; [exact Hsel|]. split; [tauto|]. intros _. split; [reflexivity|].
        exists token. rewrite Htok. auto.
Qed.

Lemma getAuthToken_without_cache (w : world) :
  cachedToken w = None ->
  let now := wall_clock w (clock_reads w) in
  let w0 := with_clock_reads (S (clock_reads w)) w in
  let '(r, w') := getAuthToken w in
  session_statements w' = session_statements w ++ [SessionSelect "stockbit_token"]
  /\ forall t, r = Return t ->
       fst (getSessionValue "stockbit_token" w0) = Return (Some t)
       \/ env_STOCKBIT_JWT_TOKEN w = Some t.
Proof.
  intros Hnone now w0. unfold getAuthToken, Date_now. run. fold now. fold w0.
  change (cachedToken w0) with (cachedToken w).
  change (env_STOCKBIT_JWT_TOKEN w0) with (env_STOCKBIT_JWT_TOKEN w).
  rewrite Hnone. cbn.
  destruct (getSessionValue_statements "stockbit_token" w0) as [token Hget].
  rewrite Hget. cbn.
  destruct token as [t|]; cbn.
  - destruct (truthy_string t) eqn:Ht; cbn.
    + split; [reflexivity|]. intros t' [= <-]. now left.
    + destruct (env_STOCKBIT_JWT_TOKEN w) as [e|]; cbn.
      * destruct (truthy_string e); cbn; (split; [reflexivity|]); intros t' [= <-]. now right.
      * split; [reflexivity|]. discriminate.
  - destruct (env_STOCKBIT_JWT_TOKEN w) as [e|]; cbn.
    + destruct (truthy_string e); cbn; (split; [reflexivity|]); intros t' [= <-]. now right.
    + split; [reflexivity|]. discriminate.
Qed.

Lemma invalidated_rows (rows : list session_row) (row : session_row) :
  In row (map (fun r => if has_key_eq "stockbit_token" r then set_is_valid false r else r) rows) ->
  key row = "stockbit_token" -> is_valid row = Some false.
Proof.
  intros Hin Hkey. apply in_map_iff in Hin as (r & <- & _).
  destruct (has_key_eq "stockbit_token" r) eqn:E; [reflexivity|].
  unfold has_key_eq in E. rewrite Hkey in E. simpl in E. discriminate.
Qed.

(** C3.  On status 401 [handleApiResponse] marks the stored token invalid,
    clears the cached token and throws [TokenExpiredError]; whenever
    [getAuthToken] runs next it queries the session store, and a token it
    returns is the store's or the environment's.  Any other status outside
    200-299 throws an [Error] whose message carries the status code and the
    status text, and changes nothing. *)
Theorem handleApiResponse_401_or_error (response : Fetch.Response) (apiName : string) (w : world) :
  let '(r, w') := handleApiResponse response apiName w in
  (Fetch.status response = 401%Z ->
     r = Throw (TokenExpiredError (apiName +:+ ": Token expired or invalid (401)"))
     /\ cachedToken w' = None
     /\ (forall row, In row (session w') -> key row = "stockbit_token" -> is_valid row = Some false)
     /\ (forall row, In row (session w) -> key row = "stockbit_token" ->
           In (set_is_valid false row) (session w'))
     /\ forall n : nat,
          let w1 := with_clock_reads n w' in
          session_statements (snd (getAuthToken w1))
            = session_statements w1 ++ [SessionSelect "stockbit_token"]
          /\ forall t, fst (getAuthToken w1) = Return t ->
               fst (getSessionValue "stockbit_token" (with_clock_reads (S n) w1)) = Return (Some t)
               \/ env_STOCKBIT_JWT_TOKEN w = Some t)
  /\ (Fetch.status response <> 401%Z -> Fetch.ok response = false ->
     r = Throw (Error (apiName +:+ " error: " +:+ dec (Fetch.status response) +:+ " "
                       +:+ Fetch.statusText response))
     /\ w' = w).
Proof.
  unfold handleApiResponse.
  destruct (Z.eqb_spec (Fetch.status response) 401) as [E|E].
  - unfold invalidateToken, update_session. run.
    split; [|congruence]. intros _.
    split; [reflexivity|]. split; [reflexivity|].
    split; [apply invalidated_rows|].
    split.
    { intros row Hin Hkey. apply in_map_iff. exists row. split; [|assumption].
      unfold has_key_eq. rewrite Hkey. reflexivity. }
    intros n.
    match goal with |- context [getAuthToken ?x] => set (w1 := x) end.
    pose proof (getAuthToken_without_cache w1 eq_refl) as H.
    cbn zeta in H. destruct (getAuthToken w1) as [r2 w2]. simpl.
    destruct H as [H1 H2]. split; [exact H1|]. intros t Ht. apply H2 in Ht. exact Ht.
  - destruct (Fetch.ok response) eqn:Hok; cbn.
    + destruct (updateTokenLastUsed w). split; [tauto | discriminate].
    + run. split; [tauto|]. intros _ _. split; reflexivity.
Qed.

(** ** Order on date strings *)

Lemma ascii_compare_refl (a : ascii) : Ascii.compare a a = Eq.
Proof. apply N.compare_refl. Qed.

Lemma ascii_compare_lt_trans (a b c : ascii) :
  Ascii.compare a b = Lt -> Ascii.compare b c = Lt -> Ascii.compare a c = Lt.
Proof.
  unfold Ascii.compare. rewrite !N.compare_lt_iff. apply N.lt_trans.
Qed.

Lemma string_compare_refl (s : string) : String.compare s s = Eq.
Proof.
  induction s as [|a s IH]; simpl; [reflexivity|]. now rewrite ascii_compare_refl.
Qed.

Lemma string_compare_lt_trans (a b c : string) :
  String.compare a b = Lt -> String.compare b c = Lt -> String.compare a c = Lt.
Proof.
  revert b c. induction a as [|x a IH]; intros [|y b] [|z c]; simpl; try discriminate; auto.
  destruct (Ascii.compare x y) eqn:Exy; try discriminate;
    destruct (Ascii.compare y z) eqn:Eyz; try discriminate; intros H1 H2.
  - apply Ascii.compare_eq_iff in Exy, Eyz. subst. rewrite ascii_compare_refl. eauto.
  - apply Ascii.compare_eq_iff in Exy. subst. now rewrite Eyz.
  - apply Ascii.compare_eq_iff in Eyz. subst. now rewrite Exy.
  - now rewrite (ascii_compare_lt_trans x y z).
Qed.

Lemma string_ltb_trans (a b c : string) :
  String.ltb a b = true -> String.ltb b c = true -> String.ltb a c = true.
Proof.
  unfold String.ltb. intros H1 H2.
  destruct (String.compare a b) eqn:E1; try discriminate.
  destruct (String.compare b c) eqn:E2; try discriminate.
  now rewrite (string_compare_lt_trans a b c).
Qed.

Lemma string_ltb_irrefl (a : string) : String.ltb a a = false.
Proof. unfold String.ltb. now rewrite string_compare_refl. Qed.

Lemma not_after_refl (a : string) : not_after a a.
Proof. apply string_ltb_irrefl. Qed.

Lemma ltb_not_after (a b : string) : String.ltb a b = true -> not_after a b.
Proof.
  unfold not_after, String.ltb. rewrite (String.compare_antisym a b).
  destruct (String.compare b a); simpl; congruence.
Qed.

Lemma not_after_cases (a b : string) : not_after a b -> a = b \/ String.ltb a b = true.
Proof.
  unfold not_after, String.ltb. rewrite (String.compare_antisym a b).
  destruct (String.compare b a) eqn:E; simpl; try congruence; auto.
  left. symmetry. now apply String.compare_eq_iff.
Qed.

Lemma not_after_trans (a b c : string) : not_after a b -> not_after b c -> not_after a c.
Proof.
  intros H1 H2. apply not_after_cases in H1 as [->|H1]; [assumption|].
  apply not_after_cases in H2 as [<-|H2]; apply ltb_not_after; [assumption|].
  now apply (string_ltb_trans a b c).
Qed.

(** ** The head of a stable sort *)

Section HeadOfSort.
Context {A : Type} (after : A -> A -> bool) (P : A -> Prop) (R : A -> A -> Prop).
Hypothesis R_refl : forall x, P x -> R x x.
Hypothesis R_trans : forall x y z, P x -> P y -> P z -> R x y -> R y z -> R x z.
Hypothesis after_R : forall x y, P x -> P y -> after x y = true -> R x y.
Hypothesis not_after_R : forall x y, P x -> P y -> after x y = false -> R y x.

Lemma head_insert_before (x : A) (l : list A) :
  head (insert_before after x l) =
  match head l with
  | Some y => if after x y then Some y else Some x
  | None => Some x
  end.
Proof. destruct l as [|y l]; simpl; [reflexivity|]. now destruct (after x y). Qed.

Lemma head_stable_sort (l : list A) :
  Forall P l -> l <> [] ->
  exists h, head (stable_sort after l) = Some h /\ In h l /\ forall x, In x l -> R x h.
Proof.
  induction l as [|x l IH]; [congruence|]. intros HP _.
  apply Forall_cons_1 in HP as [Px HP].
  simpl. rewrite head_insert_before.
  destruct l as [|y l'].
  - simpl. exists x. split; [reflexivity|]. split; [now left|].
    intros z [<-|[]]. now apply R_refl.
  - destruct (IH HP ltac:(discriminate)) as (h & Hh & Hin & Hmax).
    rewrite Hh.
    assert (Ph : P h) by (rewrite Forall_forall in HP; now apply HP, list_elem_of_In).
    destruct (after x h) eqn:E.
    + exists h. split; [reflexivity|]. split; [now right|].
      intros z [<-|Hz]; [now apply after_R | now apply Hmax].
    + exists x. split; [reflexivity|]. split; [now left|].
      intros z [<-|Hz]; [now apply R_refl|].
      apply (R_trans z h x); auto.
      rewrite Forall_forall in HP. now apply HP, list_elem_of_In.
Qed.
End HeadOfSort.

Lemma filter_map_if {A} (sel : A -> bool) (f : A -> A) (t : list A) :
  (forall r, sel r = true -> sel (f r) = true) ->
  List.filter sel (map (fun r => if sel r then f r else r) t) = map f (List.filter sel t).
Proof.
  intros Hf. induction t as [|x t IH]; simpl; [reflexivity|].
  destruct (sel x) eqn:E; simpl.
  - rewrite (Hf x E). simpl. now rewrite IH.
  - rewrite E. apply IH.
Qed.

Lemma existsb_filter {A} (sel : A -> bool) (t : list A) :
  existsb sel t = match List.filter sel t with [] => false | _ => true end.
Proof.
  induction t as [|x t IH]; simpl; [reflexivity|]. destruct (sel x); simpl; auto.
Qed.

(** ** Table [stock_queries] *)

Lemma to_json_stored (v : jval) : to_json v = stored v.
Proof. destruct v as [| |[| |]|]; reflexivity. Qed.

Lemma to_json_str (v : jval) (s : string) : to_json v = JStr s <-> v = JStr s.
Proof. destruct v as [| |[| |]|]; cbn; split; congruence. Qed.

Lemma lookup_sent (data : gmap string jval) (c : string) :
  (to_json <$> data) !! c = to_json <$> data !! c.
Proof. apply lookup_fmap. Qed.

Lemma lookup_sent_Some (data : gmap string jval) (c : string) (v : jval) :
  data !! c = Some v -> (to_json <$> data) !! c = Some (to_json v).
Proof. intros H. now rewrite lookup_sent, H. Qed.

Lemma lookup_sent_None (data : gmap string jval) (c : string) :
  data !! c = None -> (to_json <$> data) !! c = None.
Proof. intros H. now rewrite lookup_sent, H. Qed.

Lemma conflict_key_sent (data : gmap string jval) :
  conflict_key (to_json <$> data) = conflict_key data.
Proof.
  unfold conflict_key. rewrite !lookup_sent.
  destruct (data !! "from_date") as [[| |[| |]|d]|]; cbn; try reflexivity.
  destruct (data !! "emiten") as [[| |[| |]|e]|]; reflexivity.
Qed.

Lemma conflict_key_union (data m : gmap string jval) (k : string * string) :
  conflict_key data = Some k -> conflict_key (data ∪ m) = Some k.
Proof.
  unfold conflict_key.
  destruct (data !! "from_date") as [[| | |d]|] eqn:E1; try discriminate.
  destruct (data !! "emiten") as [[| | |e]|] eqn:E2; try discriminate.
  intros [= <-].
  now rewrite (lookup_union_Some_l _ m _ _ E1), (lookup_union_Some_l _ m _ _ E2).
Qed.

Lemma has_key_overwritten (data c : gmap string jval) (k : string * string) (i : nat) :
  conflict_key data = Some k ->
  has_key k {| id := i; cols := (to_json <$> data) ∪ c |} = true.
Proof.
  intros H. unfold has_key. simpl. apply bool_decide_eq_true.
  apply conflict_key_union. now rewrite conflict_key_sent.
Qed.

Lemma upsert_same_key (defaults data : gmap string jval) (t : list stock_query)
    (k : string * string) :
  conflict_key data = Some k ->
  exists res t',
    upsert defaults data t = ((Some res, None), t')
    /\ List.filter (has_key k) t' = res
    /\ match List.filter (has_key k) t with
       | [] => res = [{| id := next_id t; cols := (to_json <$> data) ∪ defaults |}]
               /\ t' = t ++ res
       | rows => res = map (overwrite data) rows /\ length t' = length t
       end.
Proof.
  intros Hk. unfold upsert.
  rewrite (conflict_key_union _ defaults k) by now rewrite conflict_key_sent.
  rewrite existsb_filter.
  destruct (List.filter (has_key k) t) as [|r rows] eqn:Hf.
  - do 2 eexists. split; [reflexivity|].
    rewrite List.filter_app, Hf. simpl.
    rewrite (has_key_overwritten data defaults k (next_id t) Hk). auto.
  - unfold update_where. do 2 eexists. split; [reflexivity|].
    fold (overwrite data).
    rewrite filter_map_if by (intros x _; now apply has_key_overwritten).
    rewrite Hf. split; [reflexivity|]. split; [reflexivity|]. now rewrite length_map.
Qed.

(** A save is the upsert when the backend accepts it; a rejected save
    throws the error of the backend and leaves the table as it was. *)
Lemma save_cases (defaults : gmap string jval)
    (rejects : gmap string jval -> list stock_query -> option PostgrestError)
    (save : gmap string jval -> M (list stock_query) (list stock_query))
    (data : gmap string jval) (t : list stock_query) :
  In save [saveStockQuery defaults rejects; saveWatchlistAnalysis defaults rejects] ->
  save data t
  = match rejects data t with
    | Some e => (Throw (thrown e), t)
    | None =>
        match upsert defaults data t with
        | ((result, Some e), t') => (Throw (thrown e), t')
        | ((result, None), t') => (Return (default [] result), t')
        end
    end.
Proof.
  intros [<-|[<-|[]]]; unfold saveStockQuery, saveWatchlistAnalysis, upsert_select;
    destruct (rejects data t); try reflexivity;
    destruct (upsert defaults data t) as [[result [e|]] t']; reflexivity.
Qed.

(** C2, amended.  Upserting twice with the same (from_date, emiten) key,
    through [saveStockQuery] or [saveWatchlistAnalysis], overwrites: when
    the backend accepts both upserts, after the second one exactly one
    record has the key, no record was added by it, and the record holds
    every value of the second upsert, NULL standing for a number that is
    NaN or infinite. *)
Theorem upsert_twice_overwrites (defaults : gmap string jval)
    (rejects : gmap string jval -> list stock_query -> option PostgrestError)
    (save1 save2 : gmap string jval -> M (list stock_query) (list stock_query))
    (data1 data2 : gmap string jval) (k : string * string)
    (t t1 t2 r1 rows : list stock_query) :
  In save1 [saveStockQuery defaults rejects; saveWatchlistAnalysis defaults rejects] ->
  In save2 [saveStockQuery defaults rejects; saveWatchlistAnalysis defaults rejects] ->
  conflict_key data1 = Some k ->
  conflict_key data2 = Some k ->
  unique_keys t ->
  save1 data1 t = (Return r1, t1) ->
  save2 data2 t1 = (Return rows, t2) ->
  exists row,
    rows = [row]
    /\ List.filter (has_key k) t2 = [row]
    /\ length t2 = length t1
    /\ forall c v, data2 !! c = Some v -> cols row !! c = Some (stored v).
Proof.
  intros Hs1 Hs2 Hk1 Hk2 Hu Hrun1 Hrun2.
  rewrite (save_cases defaults rejects save1 data1 t Hs1) in Hrun1.
  rewrite (save_cases defaults rejects save2 data2 t1 Hs2) in Hrun2.
  destruct (rejects data1 t); [discriminate|].
  destruct (rejects data2 t1); [discriminate|].
  destruct (upsert_same_key defaults data1 t k Hk1) as (res1 & t1' & Hup1 & Hf1 & Hcase1).
  rewrite Hup1 in Hrun1. injection Hrun1 as <- <-.
  assert (Hone : exists row1, List.filter (has_key k) t1' = [row1]).
  { rewrite Hf1. specialize (Hu k).
    destruct (List.filter (has_key k) t) as [|r [|r' rs]].
    - destruct Hcase1 as [-> _]. eauto.
    - destruct Hcase1 as [-> _]. simpl. eauto.
    - simpl in Hu. lia. }
  destruct Hone as [row1 Hrow1].
  destruct (upsert_same_key defaults data2 t1' k Hk2) as (res2 & t2' & Hup2 & Hf2 & Hcase2).
  rewrite Hup2 in Hrun2. injection Hrun2 as <- <-.
  rewrite Hrow1 in Hcase2. destruct Hcase2 as [Hres2 Hlen]. simpl in Hres2.
  exists (overwrite data2 row1). cbn [default].
  split; [exact Hres2|]. split; [now rewrite Hf2|]. split; [exact Hlen|].
  intros c v Hc. simpl. apply lookup_union_Some_l.
  rewrite <- to_json_stored. now apply lookup_sent_Some.
Qed.

Lemma str_col_lookup (c : string) (r : stock_query) (s : string) :
  str_col c r = Some s <-> cols r !! c = Some (JStr s).
Proof.
  unfold str_col. destruct (cols r !! c) as [[| | |s']|]; split; congruence.
Qed.

Lemma prior_success_inv (emiten currentDate : string) (r : stock_query) :
  prior_success emiten currentDate r = true ->
  str_col "emiten" r = Some emiten /\ str_col "status" r = Some "success"
  /\ exists d, str_col "from_date" r = Some d /\ String.ltb d currentDate = true.
Proof.
  unfold prior_success. rewrite !andb_true_iff, !bool_decide_eq_true.
  intros [[He Hs] Hd]. destruct (str_col "from_date" r) as [d|]; [|discriminate]. eauto.
Qed.

Lemma ltb_before (a b : string) : String.ltb a b = true <-> before a b.
Proof.
  unfold String.ltb. revert b. induction a as [|c1 a IH]; intros [|c2 b]; cbn.
  - split; [discriminate | inversion 1].
  - split; [constructor | reflexivity].
  - split; [discriminate | inversion 1].
  - unfold Ascii.compare.
    destruct (N.compare_spec (N_of_ascii c1) (N_of_ascii c2)) as [E|L|G].
    + apply (f_equal ascii_of_N) in E. rewrite !ascii_N_embedding in E. subst c2.
      rewrite IH. split; [now constructor|].
      inversion 1; subst; [lia | assumption].
    + split; [|reflexivity]. intros _. apply before_head. unfold nat_of_ascii. lia.
    + split; [discriminate|].
      inversion 1; subst; [unfold nat_of_ascii in *; lia | lia].
Qed.

Lemma prior_success_iff (emiten currentDate : string) (r : stock_query) :
  prior_success emiten currentDate r = true <-> prior_record emiten currentDate r.
Proof.
  unfold prior_record. split.
  - intros H. apply prior_success_inv in H as (He & Hs & d & Hd & Hlt).
    apply str_col_lookup in He, Hs, Hd. apply ltb_before in Hlt. eauto.
  - intros (He & Hs & d & Hd & Hlt). apply str_col_lookup in He, Hs, Hd.
    apply ltb_before in Hlt. unfold prior_success.
    rewrite He, Hs, Hd, Hlt. now rewrite !bool_decide_eq_true_2.
Qed.

Lemma prior_success_key (emiten currentDate d : string) (r : stock_query) :
  prior_success emiten currentDate r = true -> str_col "from_date" r = Some d ->
  has_key (d, emiten) r = true.
Proof.
  intros H Hd. apply prior_success_inv in H as (He & _ & _).
  apply str_col_lookup in He, Hd. unfold has_key, conflict_key.
  rewrite He, Hd. now apply bool_decide_eq_true.
Qed.

Lemma filter_length_In {A} (sel : A -> bool) (t : list A) (x : A) :
  In x t -> sel x = true -> (1 <= length (List.filter sel t))%nat.
Proof.
  intros Hin Hsel. assert (H : In x (List.filter sel t)) by now apply List.filter_In.
  destruct (List.filter sel t); [destruct H | simpl; lia].
Qed.

Lemma filter_length_two {A} (sel : A -> bool) (t : list A) (i j : nat) (x y : A) :
  t !! i = Some x -> t !! j = Some y -> i <> j -> sel x = true -> sel y = true ->
  (2 <= length (List.filter sel t))%nat.
Proof.
  revert i j. induction t as [|z t IH]; intros i j Hi Hj Hne Hx Hy; [discriminate|].
  destruct i as [|i], j as [|j]; simpl in *; try congruence.
  - injection Hi as ->. rewrite Hx. simpl.
    apply list_elem_of_lookup_2, list_elem_of_In in Hj.
    pose proof (filter_length_In sel t y Hj Hy). lia.
  - injection Hj as ->. rewrite Hy. simpl.
    apply list_elem_of_lookup_2, list_elem_of_In in Hi.
    pose proof (filter_length_In sel t x Hi Hx). lia.
  - assert (Hij : i <> j) by congruence.
    specialize (IH i j Hi Hj Hij Hx Hy). destruct (sel z); simpl; lia.
Qed.

Lemma map_if_id_unique (f : stock_query -> stock_query) (t : list stock_query) (i : nat)
    (rec : stock_query) :
  unique_ids t -> t !! i = Some rec ->
  map (fun r => if (id r =? id rec)%nat then f r else r) t = <[i := f rec]> t.
Proof.
  unfold unique_ids. revert i. induction t as [|x t IH]; intros i Hnd Hi; [discriminate|].
  simpl in Hnd. apply NoDup_cons in Hnd as [Hx Hnd].
  destruct i as [|i]; simpl in *.
  - injection Hi as ->. rewrite Nat.eqb_refl. f_equal.
    clear IH.
    induction t as [|y t IHt]; simpl; [reflexivity|].
    simpl in Hx, Hnd. rewrite not_elem_of_cons in Hx. destruct Hx as [Hne Hx].
    apply NoDup_cons in Hnd as [_ Hnd].
    destruct (Nat.eqb_spec (id y) (id rec)) as [E|_]; [congruence|].
    f_equal. now apply IHt.
  - destruct (Nat.eqb_spec (id x) (id rec)) as [E|_].
    + exfalso. apply Hx. rewrite E. apply list_elem_of_fmap. exists rec. split; [reflexivity|].
      now apply list_elem_of_lookup_2 in Hi.
    + f_equal. now apply IH.
Qed.

Lemma filter_id_unique (t : list stock_query) (i : nat) (rec : stock_query) :
  unique_ids t -> t !! i = Some rec ->
  List.filter (fun r => (id r =? id rec)%nat) t = [rec].
Proof.
  unfold unique_ids. revert i. induction t as [|x t IH]; intros i Hnd Hi; [discriminate|].
  simpl in Hnd. apply NoDup_cons in Hnd as [Hx Hnd].
  destruct i as [|i]; simpl in *.
  - injection Hi as ->. rewrite Nat.eqb_refl. f_equal.
    clear IH. induction t as [|y t IHt]; simpl; [reflexivity|].
    simpl in Hx, Hnd. rewrite not_elem_of_cons in Hx. destruct Hx as [Hne Hx].
    apply NoDup_cons in Hnd as [_ Hnd].
    destruct (Nat.eqb_spec (id y) (id rec)) as [E|_]; [congruence|]. now apply IHt.
  - destruct (Nat.eqb_spec (id x) (id rec)) as [E|_].
    + exfalso. apply Hx. rewrite E. apply list_elem_of_fmap. exists rec. split; [reflexivity|].
      now apply list_elem_of_lookup_2 in Hi.
    + now apply (IH i).
Qed.

Lemma latest_of_dated (rows : list stock_query) :
  Forall dated rows -> rows <> [] ->
  exists h, head (order_by_from_date_desc rows) = Some h /\ In h rows
            /\ forall x, In x rows -> not_later x h.
Proof.
  apply (head_stable_sort older dated not_later).
  - intros x [d Hd]. exists d, d. auto using not_after_refl.
  - intros x y z _ _ _ (dx & dy & Hx & Hy & Hxy) (dy' & dz & Hy' & Hz & Hyz).
    rewrite Hy in Hy'. injection Hy' as <-. exists dx, dz. eauto using not_after_trans.
  - intros x y [dx Hx] [dy Hy]. unfold older. rewrite Hx, Hy. intros H.
    exists dx, dy. auto using ltb_not_after.
  - intros x y [dx Hx] [dy Hy]. unfold older. rewrite Hx, Hy. intros H.
    exists dy, dx. auto.
Qed.

Lemma real_price_update_lookup (price : number) (maxPrice : option number) (c : gmap string jval) :
  let cols' := (to_json <$> real_price_update price maxPrice) ∪ c in
  cols' !! "real_harga" = Some (stored (JNum price))
  /\ cols' !! "max_harga" =
       match maxPrice with Some m => Some (stored (JNum m)) | None => c !! "max_harga" end
  /\ forall col, col <> "real_harga" -> col <> "max_harga" -> cols' !! col = c !! col.
Proof.
  unfold real_price_update. destruct maxPrice as [m|]; cbv zeta.
  - split.
    { apply lookup_union_Some_l. rewrite <- to_json_stored. apply lookup_sent_Some.
      now rewrite lookup_insert_ne, lookup_singleton_eq. }
    split.
    { apply lookup_union_Some_l. rewrite <- to_json_stored. apply lookup_sent_Some.
      now rewrite lookup_insert_eq. }
    intros col H1 H2. apply lookup_union_r. apply lookup_sent_None.
    now rewrite lookup_insert_ne, lookup_singleton_ne.
  - split.
    { apply lookup_union_Some_l. rewrite <- to_json_stored. apply lookup_sent_Some.
      now rewrite lookup_singleton_eq. }
    split.
    { apply lookup_union_r. apply lookup_sent_None. now rewrite lookup_singleton_ne. }
    intros col H1 H2. apply lookup_union_r. apply lookup_sent_None.
    now rewrite lookup_singleton_ne.
Qed.

(** C4.  [updatePreviousDayRealPrice] amends exactly one record, the most
    recent one of the symbol with status success dated strictly before
    [currentDate]: it sets [real_harga], and [max_harga] when a maximum is
    given, to the price as the table stores it, and leaves every other
    column of that record and every other record as they were; when the
    table has no such record it returns [null] and the table is unchanged. *)
Theorem updatePreviousDayRealPrice_frame (emiten currentDate : string) (price : number)
    (maxPrice : option number) (t : list stock_query) :
  unique_ids t ->
  unique_keys t ->
  let '(r, t') := updatePreviousDayRealPrice emiten currentDate price maxPrice t in
  (Forall (fun x => ~ prior_record emiten currentDate x) t -> r = Return None /\ t' = t)
  /\ (Exists (prior_record emiten currentDate) t ->
      exists i rec amended,
        t !! i = Some rec
        /\ prior_record emiten currentDate rec
        /\ (forall j x, t !! j = Some x -> prior_record emiten currentDate x ->
              j <> i -> dated_before x rec)
        /\ t' = <[i := amended]> t
        /\ r = Return (Some [amended])
        /\ id amended = id rec
        /\ cols amended !! "real_harga" = Some (stored (JNum price))
        /\ cols amended !! "max_harga" =
             match maxPrice with
             | Some m => Some (stored (JNum m))
             | None => cols rec !! "max_harga"
             end
        /\ forall c, c <> "real_harga" -> c <> "max_harga" ->
             cols amended !! c = cols rec !! c).
Proof.
  intros Hids Hkeys. unfold updatePreviousDayRealPrice.
  destruct (List.filter (prior_success emiten currentDate) t) as [|c0 cs] eqn:Hf.
  - simpl. split; [auto|]. intros Hex. exfalso.
    apply List.Exists_exists in Hex as (x & Hx & Hp). apply prior_success_iff in Hp.
    assert (Hin : In x (List.filter (prior_success emiten currentDate) t))
      by now apply List.filter_In.
    now rewrite Hf in Hin.
  - assert (Hcand : forall x, In x (c0 :: cs) ->
                      In x t /\ prior_success emiten currentDate x = true).
    { intros x Hx. rewrite <- Hf in Hx. now apply List.filter_In in Hx. }
    assert (Hdated : Forall dated (c0 :: cs)).
    { apply Forall_forall. intros x Hx%list_elem_of_In. apply Hcand in Hx as [_ Hx].
      apply prior_success_inv in Hx as (_ & _ & d & Hd & _). now exists d. }
    destruct (latest_of_dated (c0 :: cs) Hdated ltac:(discriminate))
      as (rec & Hhead & Hin & Hmax).
    destruct (order_by_from_date_desc (c0 :: cs)) as [|h sorted]; [discriminate|].
    injection Hhead as ->. simpl.
    destruct (Hcand rec Hin) as [Hrec_t Hrec].
    apply list_elem_of_In, list_elem_of_lookup in Hrec_t as [i Hi].
    unfold update_where.
    rewrite filter_map_if by (simpl; auto).
    rewrite (filter_id_unique t i rec Hids Hi), (map_if_id_unique _ t i rec Hids Hi).
    simpl. split.
    { intros Hnone. exfalso. destruct (Hcand c0 (or_introl eq_refl)) as [Hc0 Hp0].
      apply prior_success_iff in Hp0.
      rewrite List.Forall_forall in Hnone. exact (Hnone c0 Hc0 Hp0). }
    intros _.
    exists i, rec,
      {| id := id rec; cols := (to_json <$> real_price_update price maxPrice) ∪ cols rec |}.
    split; [assumption|]. split; [now apply prior_success_iff|].
    split.
    { intros j x Hj Hx Hne. apply prior_success_iff in Hx.
      assert (Hxin : In x (c0 :: cs)).
      { rewrite <- Hf. apply List.filter_In. split; [|assumption].
        apply list_elem_of_In. eapply list_elem_of_lookup_2; eassumption. }
      destruct (Hmax x Hxin) as (dx & dr & Hdx & Hdr & Hle).
      exists dx, dr. split; [now apply str_col_lookup|]. split; [now apply str_col_lookup|].
      apply ltb_before.
      apply not_after_cases in Hle as [->|Hlt]; [exfalso|assumption].
      pose proof (filter_length_two (has_key (dr, emiten)) t j i x rec Hj Hi Hne
                    (prior_success_key _ _ _ _ Hx Hdx) (prior_success_key _ _ _ _ Hrec Hdr)).
      specialize (Hkeys (dr, emiten)). lia. }
    split; [reflexivity|]. split; [reflexivity|]. split; [reflexivity|].
    apply real_price_update_lookup.
Qed.

(** ** Broker data *)

Lemma num_le_refl (a : number) : numeric a -> num_le a a.
Proof.
  unfold numeric. destruct a as [|[]|q]; simpl; try tauto; try congruence.
  intros _. apply Qle_refl.
Qed.

Lemma num_le_trans (a b c : number) : num_le a b -> num_le b c -> num_le a c.
Proof.
  destruct a as [|[]|x], b as [|[]|y], c as [|[]|z]; simpl; try tauto. apply Qle_trans.
Qed.

Lemma positive_sub (a b : number) :
  numeric a -> numeric b -> is_positive (sub b a) = true -> num_le a b.
Proof.
  unfold is_positive, numeric.
  destruct a as [|[]|x], b as [|[]|y]; simpl; try congruence; try tauto.
  intros _ _. destruct (y - x ?= 0)%Q eqn:E; try discriminate. intros _.
  apply Qgt_alt in E. lra.
Qed.

Lemma not_positive_sub (a b : number) :
  numeric a -> numeric b -> is_positive (sub b a) = false -> num_le b a.
Proof.
  unfold is_positive, numeric.
  destruct a as [|[]|x], b as [|[]|y]; simpl; try congruence; try tauto.
  intros _ _. destruct (y - x ?= 0)%Q eqn:E; try discriminate; intros _.
  - apply Qeq_alt in E. lra.
  - apply Qlt_alt in E. lra.
Qed.

Section TopBroker.
Variable Number : string -> number.

Lemma top_of_sort (brokers : list BrokerBuyItem) :
  Forall (numeric_bval Number) brokers -> brokers <> [] ->
  exists top, head (sort (by_bval_desc Number) brokers) = Some top /\ In top brokers
              /\ forall x, In x brokers -> bval_le Number x top.
Proof.
  unfold sort. apply (head_stable_sort _ (numeric_bval Number) (bval_le Number)).
  - intros x. apply num_le_refl.
  - intros x y z _ _ _. apply num_le_trans.
  - intros x y Hx Hy. now apply positive_sub.
  - intros x y Hx Hy. now apply not_positive_sub.
Qed.

Lemma head_lookup {A} (l : list A) : l !! 0%nat = head l.
Proof. now destruct l. Qed.

(** The sorted copy lives at a fresh location: the array that was passed
    and every other array stay as they were. *)
Lemma top_of_sorted_copy_spec (h : gmap loc (list BrokerBuyItem)) (a : loc)
    (brokers : list BrokerBuyItem) (top : BrokerBuyItem) :
  h !! a = Some brokers ->
  head (sort (by_bval_desc Number) brokers) = Some top ->
  exists h', top_of_sorted_copy Number a h = (Return (to_BrokerData Number top), h')
             /\ forall l x, h !! l = Some x -> h' !! l = Some x.
Proof.
  intros Ha Htop. unfold top_of_sorted_copy, array_spread, array_sort, array_at.
  unfold mbind, M_bind, mret, M_ret. simpl.
  rewrite lookup_total_insert_eq, (lookup_total_correct h a brokers Ha).
  rewrite lookup_total_insert_eq, head_lookup, Htop.
  eexists. split; [reflexivity|].
  intros l x Hl.
  assert (Hne : fresh (dom h) <> l).
  { intros <-. apply (is_fresh (dom h)). apply elem_of_dom. eauto. }
  now rewrite !lookup_insert_ne.
Qed.

(** C9, amended.  For a non-empty [brokers_buy] list whose [bval] strings
    are all numbers, [getTopBroker] returns the broker code, the rounded
    [blot] and the rounded [netbs_buy_avg_price] of an element whose
    numeric [bval] is maximal, and the list it was given, like every other
    array, is unchanged. *)
Theorem getTopBroker_maximal_bval (h : gmap loc (list BrokerBuyItem))
    (m : option (MarketDetectorResponse loc)) (a : loc) (brokers : list BrokerBuyItem) :
  brokers_buy_of m = Arr a ->
  h !! a = Some brokers ->
  brokers <> [] ->
  Forall (numeric_bval Number) brokers ->
  exists top h',
    getTopBroker Number m h =
      (Return (Some {| bandar := netbs_broker_code top;
                       barangBandar := Math_round (Number (blot top));
                       rataRataBandar := Math_round (Number (netbs_buy_avg_price top)) |}), h')
    /\ In top brokers
    /\ (forall x, In x brokers -> bval_le Number x top)
    /\ h' !! a = Some brokers
    /\ forall l x, h !! l = Some x -> h' !! l = Some x.
Proof.
  intros Hm Ha Hne Hnum.
  destruct (top_of_sort brokers Hnum Hne) as (top & Hhead & Hin & Hmax).
  destruct (top_of_sorted_copy_spec h a brokers top Ha Hhead) as (h' & Hrun & Hframe).
  exists top, h'. unfold getTopBroker, array_length. rewrite Hm.
  unfold mbind, M_bind, mret, M_ret.
  rewrite (lookup_total_correct h a brokers Ha).
  destruct brokers as [|b bs]; [congruence|]. simpl.
  rewrite Hrun.
  split; [reflexivity|]. split; [exact Hin|]. split; [exact Hmax|].
  split; [now apply Hframe | exact Hframe].
Qed.
End TopBroker.

(** ** Broker summary *)

Lemma slice_or_empty_array {A B} (contents : A -> list B) (x : field A) (what : string) :
  array_or_absent x ->
  exists l, slice_or_empty contents x what = Return (SlicedArray l)
            /\ (length l <= 4)%nat
            /\ (x = Absent -> l = []).
Proof.
  destruct x as [|v|a]; simpl; [| tauto |]; intros _.
  - exists []. simpl. repeat split. lia.
  - exists (take 4 (contents a)). split; [reflexivity|]. split; [|discriminate].
    rewrite length_take. lia.
Qed.

(** C10, amended.  For a response whose [brokers_buy] and [brokers_sell]
    are each missing or an array, also when [data], [broker_summary] or
    [bandar_detector] is missing, [getBrokerSummary] returns without
    throwing: the detector falls back to the zero and "-" defaults, and
    [topBuyers] and [topSellers] hold at most 4 elements each. *)
Theorem getBrokerSummary_total_on_arrays (m : option (MarketDetectorResponse loc))
    (h : gmap loc (list BrokerBuyItem)) :
  array_or_absent (buy_field m) ->
  array_or_absent (sell_field m) ->
  exists d buyers sellers,
    getBrokerSummary m h = (Return d, h)
    /\ topBuyers d = SlicedArray buyers /\ (length buyers <= 4)%nat
    /\ topSellers d = SlicedArray sellers /\ (length sellers <= 4)%nat
    /\ (bandar_detector_of m = None -> detector d = default_detector)
    /\ (broker_summary_of m = None -> buyers = [] /\ sellers = []).
Proof.
  intros Hbuy Hsell. unfold getBrokerSummary.
  fold (buy_field m). fold (sell_field m).
  destruct (slice_or_empty_array (fun a => h !!! a) (buy_field m)
              "brokerSummary?.brokers_buy?" Hbuy) as (buyers & -> & Hb & Hb0).
  destruct (slice_or_empty_array (fun l => l) (sell_field m)
              "brokerSummary?.brokers_sell?" Hsell) as (sellers & -> & Hs & Hs0).
  do 3 eexists. split; [reflexivity|]. simpl.
  repeat split; try assumption.
  - intros ->. reflexivity.
  - apply Hb0. unfold buy_field. now rewrite H.
  - apply Hs0. unfold sell_field. now rewrite H.
Qed.

(** ** No broker dataset *)

Lemma getTopBroker_no_dataset (Number : string -> number) (h : gmap loc (list BrokerBuyItem))
    (m : option (MarketDetectorResponse loc)) :
  no_broker_dataset h m ->
  getTopBroker Number m h = (Return None, h)
  /\ getTopBroker_old Number m h =
       (Throw (Error "No broker data found in data.broker_summary.brokers_buy"), h).
Proof.
  unfold no_broker_dataset, getTopBroker, getTopBroker_old, array_length.
  destruct (brokers_buy_of m) as [|v|a]; try (intros _; split; reflexivity).
  intros Hempty. unfold mbind, M_bind. rewrite Hempty. split; reflexivity.
Qed.

Lemma json_alloc_spec (m : option (MarketDetectorResponse (list BrokerBuyItem))) :
  exists m' h,
    json_alloc m (∅ : gmap loc (list BrokerBuyItem)) = (Return m', h)
    /\ match brokers_buy_of m with
       | Absent => brokers_buy_of m' = Absent
       | NotArray v => brokers_buy_of m' = NotArray v
       | Arr l => exists a, brokers_buy_of m' = Arr a /\ h !! a = Some l
       end
    /\ bandar_detector_of m' = bandar_detector_of m
    /\ sell_field m' =
         match broker_summary_of m with Some bs => brokers_sell bs | None => Absent end.
Proof.
  unfold json_alloc, brokers_buy_of, bandar_detector_of, sell_field, broker_summary_of.
  destruct m as [[[[[[buy sell]|] det]|]]|]; simpl; try (do 2 eexists; repeat split; fail).
  destruct buy as [|v|l]; simpl; do 2 eexists; repeat split.
  eexists. split; [reflexivity|]. apply lookup_insert_eq.
Qed.

Lemma top_broker_of_no_dataset (env : environment)
    (m : option (MarketDetectorResponse (list BrokerBuyItem))) :
  no_broker_dataset_json m -> top_broker_of env m = Return None.
Proof.
  intros Hm. unfold top_broker_of.
  destruct (json_alloc_spec m) as (m' & h & -> & Hbuy & _).
  simpl. unfold mbind, result_bind.
  assert (Hno : no_broker_dataset h m').
  { unfold no_broker_dataset, no_broker_dataset_json in *.
    destruct (brokers_buy_of m) as [|v|l].
    - now rewrite Hbuy.
    - now rewrite Hbuy.
    - destruct Hbuy as (a & -> & Ha). subst l. now apply lookup_total_correct. }
  now rewrite (proj1 (getTopBroker_no_dataset (Number env) h m' Hno)).
Qed.

(** ** The batch job *)

Lemma conflict_key_cols (r : stock_query) (d e : string) :
  conflict_key (cols r) = Some (d, e) <->
  str_col "from_date" r = Some d /\ str_col "emiten" r = Some e.
Proof.
  unfold conflict_key, str_col.
  destruct (cols r !! "from_date") as [[| | |d']|]; destruct (cols r !! "emiten") as [[| | |e']|];
    split; intros H; try discriminate; try (destruct H; discriminate).
  - injection H as -> ->. now split.
  - destruct H as [[= ->] [= ->]]. reflexivity.
Qed.

Lemma str_col_overwrite_l (data : gmap string jval) (r : stock_query) (c s : string) :
  data !! c = Some (JStr s) -> str_col c (overwrite data r) = Some s.
Proof.
  intros H. apply str_col_lookup. simpl. apply lookup_union_Some_l.
  exact (lookup_sent_Some data c (JStr s) H).
Qed.

Lemma upsert_establishes_row (defaults data : gmap string jval) (t : list stock_query)
    (d e : string) :
  data !! "from_date" = Some (JStr d) -> data !! "emiten" = Some (JStr e) ->
  data !! "status" = Some (JStr "success") ->
  has_success_row d e (snd (upsert defaults data t)).
Proof.
  intros Hd He Hs.
  assert (Hk : conflict_key data = Some (d, e)) by (unfold conflict_key; now rewrite Hd, He).
  destruct (upsert_same_key defaults data t (d, e) Hk) as (res & t' & -> & Hf & Hcase).
  simpl.
  assert (Hres : exists r c, In r res /\ cols r = (to_json <$> data) ∪ c).
  { destruct (List.filter (has_key (d, e)) t) as [|r0 rows].
    - destruct Hcase as [-> _]. eexists _, _. split; [now left | reflexivity].
    - destruct Hcase as [-> _]. exists (overwrite data r0), (cols r0). split; [now left | reflexivity]. }
  destruct Hres as (r & c & Hin & Hcols).
  exists r. rewrite <- Hf in Hin. apply List.filter_In in Hin as [Hin _].
  split; [assumption|].
  repeat split; apply str_col_lookup; rewrite Hcols; apply lookup_union_Some_l;
    [exact (lookup_sent_Some _ _ _ Hd) | exact (lookup_sent_Some _ _ _ He)
    | exact (lookup_sent_Some _ _ _ Hs)].
Qed.

Lemma upsert_preserves_row (defaults data : gmap string jval) (t : list stock_query)
    (k : string * string) (d e : string) :
  conflict_key data = Some k -> data !! "status" = Some (JStr "success") ->
  has_success_row d e t -> has_success_row d e (snd (upsert defaults data t)).
Proof.
  intros Hk Hs (r & Hin & Hd & He & Hst). unfold upsert.
  rewrite (conflict_key_union _ defaults k) by now rewrite conflict_key_sent.
  destruct (existsb (has_key k) t); simpl.
  - destruct (has_key k r) eqn:Hr.
    + exists (overwrite data r). split.
      { apply in_map_iff. exists r. now rewrite Hr. }
      apply bool_decide_eq_true in Hr. destruct k as [kd ke].
      apply conflict_key_cols in Hr as [Hd' He'].
      rewrite Hd in Hd'. rewrite He in He'. injection Hd' as <-. injection He' as <-.
      unfold conflict_key in Hk.
      destruct (data !! "from_date") as [[| | |d']|] eqn:E1; try discriminate.
      destruct (data !! "emiten") as [[| | |e']|] eqn:E2; try discriminate.
      injection Hk as -> ->.
      auto using str_col_overwrite_l.
    + exists r. split; [|auto]. apply in_map_iff. exists r. now rewrite Hr.
  - exists r. split; [|auto]. apply in_or_app. now left.
Qed.

Lemma real_price_update_keeps (price : number) (maxPrice : option number) (r : stock_query)
    (c : string) :
  c <> "real_harga" -> c <> "max_harga" ->
  str_col c {| id := id r; cols := (to_json <$> real_price_update price maxPrice) ∪ cols r |}
  = str_col c r.
Proof.
  intros H1 H2. unfold str_col. simpl.
  now rewrite (proj2 (proj2 (real_price_update_lookup price maxPrice (cols r))) c H1 H2).
Qed.

Lemma backfill_preserves_row (emiten currentDate : string) (price : number)
    (maxPrice : option number) (t : list stock_query) (d e : string) :
  has_success_row d e t ->
  exists r, updatePreviousDayRealPrice emiten currentDate price maxPrice t = (Return r, snd
              (updatePreviousDayRealPrice emiten currentDate price maxPrice t))
  /\ has_success_row d e (snd (updatePreviousDayRealPrice emiten currentDate price maxPrice t)).
Proof.
  intros (r & Hin & Hd & He & Hs). unfold updatePreviousDayRealPrice.
  destruct (single _) as [[record|] [findError|]]; simpl; try (eexists; split; [reflexivity|]; exists r; auto; fail).
  eexists. split; [reflexivity|].
  destruct (id r =? id record)%nat eqn:E.
  - exists {| id := id r; cols := (to_json <$> real_price_update price maxPrice) ∪ cols r |}.
    split.
    { apply in_map_iff. exists r. now rewrite E. }
    rewrite !real_price_update_keeps by discriminate. auto.
  - exists r. split; [|auto]. apply in_map_iff. exists r. now rewrite E.
Qed.

Lemma updatePreviousDayRealPrice_returns (emiten currentDate : string) (price : number)
    (maxPrice : option number) (t : list stock_query) :
  exists r t', updatePreviousDayRealPrice emiten currentDate price maxPrice t = (Return r, t').
Proof.
  unfold updatePreviousDayRealPrice.
  destruct (single _) as [[record|] [findError|]]; simpl; eauto.
Qed.

#[local] Arguments saveWatchlistAnalysis : simpl never.
#[local] Arguments updatePreviousDayRealPrice : simpl never.
#[local] Arguments analyse : simpl never.
#[local] Arguments backfill : simpl never.
#[local] Arguments log_when_job : simpl never.
#[local] Arguments watchlist_row : simpl never.
#[local] Arguments isTokenError : simpl never.

Lemma watchlist_row_key (today emiten : string) (sector : option string) (b : BrokerData)
    (m : MarketData) (c : Targets) :
  watchlist_row today emiten sector b m c !! "from_date" = Some (JStr today)
  /\ watchlist_row today emiten sector b m c !! "emiten" = Some (JStr emiten)
  /\ watchlist_row today emiten sector b m c !! "status" = Some (JStr "success").
Proof.
  unfold watchlist_row, analysis_columns. destruct sector; repeat split;
    repeat first [rewrite lookup_insert_eq; reflexivity | rewrite lookup_insert_ne by discriminate].
Qed.

Lemma upsert_no_error (defaults data : gmap string jval) (t : list stock_query) :
  exists res, upsert defaults data t = ((Some res, None), snd (upsert defaults data t)).
Proof.
  unfold upsert, update_where.
  destruct (conflict_key ((to_json <$> data) ∪ defaults)); [destruct (existsb _ t)|];
    simpl; eauto.
Qed.

Lemma saveWatchlistAnalysis_returns (defaults data : gmap string jval) (t : list stock_query) :
  exists res,
    saveWatchlistAnalysis defaults accepts data t = (Return res, snd (upsert defaults data t)).
Proof.
  unfold saveWatchlistAnalysis, upsert_select, accepts.
  destruct (upsert_no_error defaults data t) as [res ->]. eauto.
Qed.

Lemma append_entry_spec (i : nat) (entry : entry_input) (w : world) :
  exists w',
    appendBackgroundJobLogEntry i entry w = (Return tt, w')
    /\ stock_queries w' = stock_queries w
    /\ forall r0, List.filter (has_job_id i) (background_job_logs w) = [r0] ->
         List.filter (has_job_id i) (background_job_logs w')
         = [set_log_entries (log_entries r0 ++ [stamp (wall_clock w (clock_reads w)) entry]) r0].
Proof.
  unfold appendBackgroundJobLogEntry, rpc_append_job_log_entry, Date_now, mbind, M_bind. simpl.
  fold (stamp (wall_clock w (clock_reads w)) entry).
  destruct (append_job_log_entry_rpc w) eqn:E; simpl.
  - eexists. split; [reflexivity|]. split; [reflexivity|]. intros r0 Hf. simpl.
    rewrite filter_alter_jobs by reflexivity. now rewrite Hf.
  - destruct (single (List.filter (has_job_id i) (background_job_logs w))) as [current e'] eqn:Hs.
    eexists. split; [reflexivity|]. split; [reflexivity|]. intros r0 Hf. simpl.
    rewrite filter_alter_jobs by reflexivity. rewrite Hf in *. simpl in Hs.
    injection Hs as <- _. reflexivity.
Qed.

Lemma log_entry_when_job (j : job) (entry : entry_input) :
  exists j',
    log_when_job j (fun i => appendBackgroundJobLogEntry i entry) j = (Return tt, j')
    /\ jobLogId j' = jobLogId j /\ results j' = results j /\ errors j' = errors j
    /\ stock_queries (the_world j') = stock_queries (the_world j)
    /\ forall r0, the_job_row j = Some r0 ->
         exists ts, the_job_row j' = Some (set_log_entries (log_entries r0 ++ [stamp ts entry]) r0).
Proof.
  unfold log_when_job, the_job_row, if_jobLogId.
  destruct (jobLogId j) as [[|n]|] eqn:Hid; cbn.
  - exists j. do 5 (split; [reflexivity || assumption|]). intros r0 H0. discriminate H0.
  - destruct (append_entry_spec (S n) entry (the_world j)) as (w' & Happ & Hsq & Hrow).
    unfold mbind, M_bind, in_world. rewrite Happ. cbn.
    eexists. split; [reflexivity|]. cbn. do 4 (split; [reflexivity || assumption|]).
    rewrite Hid. intros r0 Hr0.
    destruct (List.filter (has_job_id (S n)) (background_job_logs (the_world j)))
      as [|r [|? ?]] eqn:Hf; try discriminate.
    injection Hr0 as ->. eexists. now rewrite (Hrow r0 eq_refl).
  - exists j. do 5 (split; [reflexivity || assumption|]). intros r0 H0. discriminate H0.
Qed.

(** *** Rows that hold an analysis *)








Section Batch.
Variable env : environment.

Lemma backfill_spec (today emiten : string) (j : job) :
  exists j',
    backfill env today emiten j = (Return tt, j')
    /\ jobLogId j' = jobLogId j /\ results j' = results j /\ errors j' = errors j
    /\ background_job_logs (the_world j') = background_job_logs (the_world j)
    /\ forall d e, has_success_row d e (stock_queries (the_world j)) ->
                   has_success_row d e (stock_queries (the_world j')).
Proof.
  unfold backfill, Date_now. run.
  destruct (fetchHistoricalSummary env emiten _ today 5) as [[|latestData rest]|e]; cbn;
    try (eexists; repeat split; try reflexivity; auto; fail).
  unfold on_stock_queries. cbn.
  destruct (updatePreviousDayRealPrice_returns emiten today (hist_close latestData)
              (Some (hist_high latestData)) (stock_queries (the_world j))) as (r & t' & Hupd).
  rewrite Hupd. cbn. eexists. repeat split; try reflexivity.
  intros d e Hrow. cbn.
  destruct (backfill_preserves_row emiten today (hist_close latestData)
              (Some (hist_high latestData)) _ d e Hrow) as (_ & _ & H).
  now rewrite Hupd in H.
Qed.

Lemma analyze_item_spec (today : string) (item : WatchlistItem) (j : job) :
  let emiten := emiten_of item in
  let o := analyse env today emiten in
  exists j',
    analyze_item env today item j = (Return tt, j')
    /\ jobLogId j' = jobLogId j
    /\ lists_record emiten "No broker data available" o j j'
    /\ (forall r0, the_job_row j = Some r0 ->
          exists e, the_job_row j' = Some (set_log_entries (log_entries r0 ++ [e]) r0)
                    /\ entry_records emiten o e)
    /\ (forall d e, has_success_row d e (stock_queries (the_world j)) ->
                    has_success_row d e (stock_queries (the_world j')))
    /\ match o with
       | Return (Some _) => has_success_row today emiten (stock_queries (the_world j'))
       | _ => stock_queries (the_world j') = stock_queries (the_world j)
       end.
Proof.
  intros emiten o. unfold analyze_item. fold emiten. fold o.
  destruct o as [[an|]|err] eqn:Ho; run.
  - (* analysed: saved, amended, logged *)
    unfold on_stock_queries. cbn.
    destruct (saveWatchlistAnalysis_returns (column_defaults env)
                (watchlist_row today emiten (an_sector an) (an_brokerData an)
                   (an_marketData an) (an_calculated an))
                (stock_queries (the_world j))) as [res ->].
    cbn.
    match goal with |- context [backfill env today emiten ?j1] =>
      destruct (backfill_spec today emiten j1) as (j2 & -> & Hid2 & Hres2 & Herr2 & Hlogs2 & Hsq2)
    end.
    cbn.
    match goal with |- context [log_when_job ?j3 (fun i => appendBackgroundJobLogEntry i ?en) ?j3] =>
      destruct (log_entry_when_job j3 en) as (j4 & -> & Hid4 & Hres4 & Herr4 & Hsq4 & Hrow4)
    end.
    cbn in *. exists j4.
    destruct (watchlist_row_key today emiten (an_sector an) (an_brokerData an)
                (an_marketData an) (an_calculated an)) as (Kd & Ke & Ks).
    assert (Kk : conflict_key (watchlist_row today emiten (an_sector an) (an_brokerData an)
                (an_marketData an) (an_calculated an)) = Some (today, emiten))
      by (unfold conflict_key; now rewrite Kd, Ke).
    split; [reflexivity|]. split; [congruence|].
    split; [split; congruence|].
    split.
    { intros r0 Hr0. destruct (Hrow4 r0) as [ts Hts].
      - unfold the_job_row, if_jobLogId in *. cbn. now rewrite Hid2, Hlogs2.
      - eexists. split; [exact Hts|]. repeat split. }
    split.
    { intros d e Hrow. rewrite Hsq4. cbn. apply Hsq2. cbn.
      now apply (upsert_preserves_row _ _ _ (today, emiten)). }
    rewrite Hsq4. cbn. apply Hsq2. cbn. now apply upsert_establishes_row.
  - (* no broker data: recorded as an error and skipped *)
    match goal with |- context [log_when_job ?j3 (fun i => appendBackgroundJobLogEntry i ?en) ?j3] =>
      destruct (log_entry_when_job j3 en) as (j4 & -> & Hid4 & Hres4 & Herr4 & Hsq4 & Hrow4)
    end.
    cbn in *. exists j4. split; [reflexivity|]. split; [assumption|].
    split; [split; assumption|].
    split.
    { intros r0 Hr0. destruct (Hrow4 r0 Hr0) as [ts Hts].
      eexists. split; [exact Hts|]. repeat split. }
    split; [now rewrite Hsq4 | assumption].
  - (* thrown: caught, recorded and logged *)
    match goal with |- context [log_when_job ?j3 (fun i => appendBackgroundJobLogEntry i ?en) ?j3] =>
      destruct (log_entry_when_job j3 en) as (j4 & -> & Hid4 & Hres4 & Herr4 & Hsq4 & Hrow4)
    end.
    cbn in *. exists j4. split; [reflexivity|]. split; [assumption|].
    split; [split; assumption|].
    split.
    { intros r0 Hr0. destruct (Hrow4 r0 Hr0) as [ts Hts].
      eexists. split; [exact Hts|]. repeat split. }
    split; [now rewrite Hsq4 | assumption].
Qed.


End Batch.

Section BatchLoop.
Variable env : environment.
Variable today : string.


Lemma set_log_entries_twice (r0 : job_log) (es es' : list log_entry) :
  set_log_entries (log_entries (set_log_entries (log_entries r0 ++ es) r0) ++ es')
    (set_log_entries (log_entries r0 ++ es) r0)
  = set_log_entries (log_entries r0 ++ es ++ es') r0.
Proof. unfold set_log_entries. simpl. now rewrite app_assoc. Qed.

Lemma set_log_entries_same (r0 : job_log) :
  set_log_entries (log_entries r0 ++ []) r0 = r0.
Proof. destruct r0. unfold set_log_entries. simpl. now rewrite app_nil_r. Qed.

Lemma analyze_items_spec (watchlistItems : list WatchlistItem) (j : job) :
  exists j' rs es,
    analyze_items env today watchlistItems j = (Return tt, j')
    /\ jobLogId j' = jobLogId j
    /\ results j' = results j ++ rs /\ errors j' = errors j ++ es
    /\ (length rs + length es = length watchlistItems)%nat
    /\ (forall item, In item watchlistItems -> listed env today "No broker data available" item rs es)
    /\ (forall r0, the_job_row j = Some r0 ->
          exists entries,
            the_job_row j' = Some (set_log_entries (log_entries r0 ++ entries) r0)
            /\ forall item, In item watchlistItems ->
                 exists e, In e entries
                           /\ entry_records (emiten_of item) (analyse env today (emiten_of item)) e)
    /\ (forall d e, has_success_row d e (stock_queries (the_world j)) ->
                    has_success_row d e (stock_queries (the_world j')))
    /\ forall item, In item watchlistItems -> upserted env today item (stock_queries (the_world j')).
Proof.
  revert j. induction watchlistItems as [|item rest IH]; intros j.
  - exists j, [], []. cbn. rewrite !app_nil_r.
    do 5 (split; [reflexivity|]). split; [intros ? []|].
    split.
    { intros r0 Hr0. exists []. rewrite set_log_entries_same. split; [assumption | intros ? []]. }
    split; [auto | intros ? []].
  - destruct (analyze_item_spec env today item j)
      as (j1 & Hrun1 & Hid1 & Hlists1 & Hrow1 & Hkeep1 & Hsq1).
    destruct (IH j1) as (j' & rs & es & Hrun & Hid & Hres & Herr & Hlen & Hlisted & Hrow & Hkeep & Hups).
    cbn [analyze_items]. unfold mbind, M_bind. rewrite Hrun1, Hrun.
    assert (Hhead : exists rs1 es1,
               results j1 = results j ++ rs1 /\ errors j1 = errors j ++ es1
               /\ (length rs1 + length es1 = 1)%nat /\ listed env today "No broker data available" item rs1 es1).
    { unfold lists_record, listed in *.
      destruct (analyse env today (emiten_of item)) as [[an|]|err]; destruct Hlists1 as [H1 H2].
      - exists [(emiten_of item, "success")], []. rewrite app_nil_r. repeat split; auto. now left.
      - exists [], [(emiten_of item, "No broker data available")]. rewrite app_nil_r.
        repeat split; auto. now left.
      - exists [], [(emiten_of item, message err)]. rewrite app_nil_r. repeat split; auto. now left. }
    destruct Hhead as (rs1 & es1 & Hres1 & Herr1 & Hlen1 & Hlisted1).
    exists j', (rs1 ++ rs), (es1 ++ es).
    split; [reflexivity|]. split; [congruence|].
    split; [rewrite Hres, Hres1; now rewrite app_assoc|].
    split; [rewrite Herr, Herr1; now rewrite app_assoc|].
    split; [rewrite !length_app; simpl; lia|].
    split.
    { intros x [<-|Hx].
      - unfold listed in *. destruct (analyse env today (emiten_of item)) as [[an|]|err];
          apply in_or_app; now left.
      - specialize (Hlisted x Hx). unfold listed in *.
        destruct (analyse env today (emiten_of x)) as [[an|]|err]; apply in_or_app; now right. }
    split.
    { intros r0 Hr0. destruct (Hrow1 r0 Hr0) as (e1 & Hr1 & Hrec1).
      destruct (Hrow _ Hr1) as (entries & Hr' & Hrec).
      exists (e1 :: entries). rewrite Hr', set_log_entries_twice. split; [reflexivity|].
      intros x [<-|Hx].
      - exists e1. split; [now left | assumption].
      - destruct (Hrec x Hx) as (e & He & Hre). exists e. split; [now right | assumption]. }
    split; [auto|].
    intros x [<-|Hx]; [|now apply Hups].
    unfold upserted. destruct (analyse env today (emiten_of item)) as [[an|]|err]; auto.
Qed.

Lemma analyze_items_survives (watchlistItems : list WatchlistItem) (j : job) :
  (forall i, if_jobLogId j = Some i ->
     exists r0, List.filter (has_job_id i) (background_job_logs (the_world j)) = [r0]) ->
  exists j',
    analyze_items env today watchlistItems j = (Return tt, j')
    /\ (length (results j') + length (errors j')
        = length (results j) + length (errors j) + length watchlistItems)%nat
    /\ forall item, In item watchlistItems ->
         let emiten := emiten_of item in
         match analyse env today emiten with
         | Throw err => In (emiten, message err) (errors j')
         | Return None => In (emiten, "No broker data available") (errors j')
         | Return (Some _) =>
             In (emiten, "success") (results j')
             /\ has_success_row today emiten (stock_queries (the_world j'))
         end
         /\ forall i, if_jobLogId j = Some i ->
              exists r e,
                List.filter (has_job_id i) (background_job_logs (the_world j')) = [r]
                /\ In e (log_entries r)
                /\ entry_records emiten (analyse env today emiten) e.
Proof.
  intros Hlog.
  destruct (analyze_items_spec watchlistItems j)
    as (j' & rs & es & Hrun & Hid & Hres & Herr & Hlen & Hlisted & Hrow & _ & Hups).
  exists j'. split; [assumption|].
  split; [rewrite Hres, Herr, !length_app; lia|].
  intros item Hin emiten. split.
  - specialize (Hlisted item Hin). specialize (Hups item Hin).
    unfold listed, upserted in *. fold emiten in Hlisted, Hups.
    destruct (analyse env today emiten) as [[an|]|err].
    + split; [rewrite Hres; apply in_or_app; now right | assumption].
    + rewrite Herr. apply in_or_app. now right.
    + rewrite Herr. apply in_or_app. now right.
  - intros i Hi. destruct (Hlog i Hi) as [r0 Hr0].
    assert (Hjob : the_job_row j = Some r0) by (unfold the_job_row; now rewrite Hi, Hr0).
    destruct (Hrow r0 Hjob) as (entries & Hr' & Hrec).
    destruct (Hrec item Hin) as (e & He & Hre).
    exists (set_log_entries (log_entries r0 ++ entries) r0), e.
    split.
    { unfold the_job_row, if_jobLogId in Hr', Hi. rewrite Hid in Hr'. unfold if_jobLogId in Hr'.
      destruct (jobLogId j) as [[|n]|]; try discriminate. injection Hi as <-.
      destruct (List.filter (has_job_id (S n)) (background_job_logs (the_world j')))
        as [|r [|? ?]]; try discriminate. now injection Hr' as ->. }
    split; [|assumption]. simpl. apply in_or_app. now right.
Qed.
End BatchLoop.

(** *** The POST route runs the same loop, without a job log *)

Section RouteLoop.
Variable env : environment.
Variable today : string.

Lemma route_analyze_item_spec (item : WatchlistItem) (j : job) :
  let emiten := emiten_of item in
  let o := analyse env today emiten in
  exists j',
    WatchlistRoute.analyze_item env today item j = (Return tt, j')
    /\ lists_record emiten "No broker data" o j j'
    /\ background_job_logs (the_world j') = background_job_logs (the_world j)
    /\ (forall d e, has_success_row d e (stock_queries (the_world j)) ->
                    has_success_row d e (stock_queries (the_world j')))
    /\ match o with
       | Return (Some _) => has_success_row today emiten (stock_queries (the_world j'))
       | _ => stock_queries (the_world j') = stock_queries (the_world j)
       end.
Proof.
  intros emiten o. unfold WatchlistRoute.analyze_item. fold emiten. fold o.
  destruct o as [[an|]|err] eqn:Ho; run.
  - unfold on_stock_queries. cbn.
    destruct (saveWatchlistAnalysis_returns (column_defaults env)
                (watchlist_row today emiten (an_sector an) (an_brokerData an)
                   (an_marketData an) (an_calculated an))
                (stock_queries (the_world j))) as [res ->].
    cbn.
    match goal with |- context [backfill env today emiten ?j1] =>
      destruct (backfill_spec env today emiten j1)
        as (j2 & -> & Hid2 & Hres2 & Herr2 & Hlogs2 & Hsq2)
    end.
    cbn in *. eexists. split; [reflexivity|]. cbn.
    destruct (watchlist_row_key today emiten (an_sector an) (an_brokerData an)
                (an_marketData an) (an_calculated an)) as (Kd & Ke & Ks).
    assert (Kk : conflict_key (watchlist_row today emiten (an_sector an) (an_brokerData an)
                (an_marketData an) (an_calculated an)) = Some (today, emiten))
      by (unfold conflict_key; now rewrite Kd, Ke).
    split; [split; congruence|].
    split; [assumption|].
    split.
    { intros d e Hrow. apply Hsq2. cbn.
      now apply (upsert_preserves_row _ _ _ (today, emiten)). }
    apply Hsq2. cbn. now apply upsert_establishes_row.
  - eexists. split; [reflexivity|]. cbn. repeat split; auto.
  - eexists. split; [reflexivity|]. cbn. repeat split; auto.
Qed.

Lemma route_analyze_items_spec (watchlistItems : list WatchlistItem) (j : job) :
  exists j' rs es,
    WatchlistRoute.analyze_items env today watchlistItems j = (Return tt, j')
    /\ results j' = results j ++ rs /\ errors j' = errors j ++ es
    /\ (length rs + length es = length watchlistItems)%nat
    /\ background_job_logs (the_world j') = background_job_logs (the_world j)
    /\ (forall item, In item watchlistItems -> listed env today "No broker data" item rs es)
    /\ (forall d e, has_success_row d e (stock_queries (the_world j)) ->
                    has_success_row d e (stock_queries (the_world j')))
    /\ forall item, In item watchlistItems -> upserted env today item (stock_queries (the_world j')).
Proof.
  revert j. induction watchlistItems as [|item rest IH]; intros j.
  - exists j, [], []. cbn. rewrite !app_nil_r.
    do 5 (split; [reflexivity|]). split; [intros ? []|]. split; [auto | intros ? []].
  - destruct (route_analyze_item_spec item j) as (j1 & Hrun1 & Hlists1 & Hlogs1 & Hkeep1 & Hsq1).
    destruct (IH j1) as (j' & rs & es & Hrun & Hres & Herr & Hlen & Hlogs & Hlisted & Hkeep & Hups).
    cbn [WatchlistRoute.analyze_items]. unfold mbind, M_bind. rewrite Hrun1, Hrun.
    assert (Hhead : exists rs1 es1,
               results j1 = results j ++ rs1 /\ errors j1 = errors j ++ es1
               /\ (length rs1 + length es1 = 1)%nat
               /\ listed env today "No broker data" item rs1 es1).
    { unfold lists_record, listed in *.
      destruct (analyse env today (emiten_of item)) as [[an|]|err]; destruct Hlists1 as [H1 H2].
      - exists [(emiten_of item, "success")], []. rewrite app_nil_r. repeat split; auto. now left.
      - exists [], [(emiten_of item, "No broker data")]. rewrite app_nil_r.
        repeat split; auto. now left.
      - exists [], [(emiten_of item, message err)]. rewrite app_nil_r. repeat split; auto. now left. }
    destruct Hhead as (rs1 & es1 & Hres1 & Herr1 & Hlen1 & Hlisted1).
    exists j', (rs1 ++ rs), (es1 ++ es).
    split; [reflexivity|].
    split; [rewrite Hres, Hres1; now rewrite app_assoc|].
    split; [rewrite Herr, Herr1; now rewrite app_assoc|].
    split; [rewrite !length_app; simpl; lia|].
    split; [congruence|].
    split.
    { intros x [<-|Hx].
      - unfold listed in *. destruct (analyse env today (emiten_of item)) as [[an|]|err];
          apply in_or_app; now left.
      - specialize (Hlisted x Hx). unfold listed in *.
        destruct (analyse env today (emiten_of x)) as [[an|]|err]; apply in_or_app; now right. }
    split; [auto|].
    intros x [<-|Hx]; [|now apply Hups].
    unfold upserted. destruct (analyse env today (emiten_of item)) as [[an|]|err]; auto.
Qed.
End RouteLoop.


(** ** The two variants of [getTopBroker] at their call sites *)

Section NoDataset.
Variable env : environment.

Lemma analyse_no_dataset (today emiten : string)
    (marketDetectorData : option (MarketDetectorResponse (list BrokerBuyItem)))
    (orderbookData : OrderbookResponse) :
  fetchMarketDetector env emiten today today = Return marketDetectorData ->
  fetchOrderbook env emiten = Return orderbookData ->
  no_broker_dataset_json marketDetectorData ->
  analyse env today emiten = Return None.
Proof.
  intros Hmd Hob Hno. unfold analyse, fetch_all. rewrite Hmd, Hob.
  unfold mbind, result_bind. now rewrite (top_broker_of_no_dataset env _ Hno).
Qed.

Lemma stock_analyse_current_throws
    (marketDetectorData : option (MarketDetectorResponse (list BrokerBuyItem)))
    (orderbookData : OrderbookResponse) :
  no_broker_dataset_json marketDetectorData ->
  exists e, fst (StockRoute.analyse env (getTopBroker (Number env)) marketDetectorData
                   orderbookData (∅ : gmap loc (list BrokerBuyItem))) = Throw e.
Proof.
  intros Hno. unfold StockRoute.analyse.
  destruct (json_alloc_spec marketDetectorData) as (m' & h & Halloc & Hbuy & _).
  unfold mbind, M_bind. rewrite Halloc.
  assert (Hno' : no_broker_dataset h m').
  { unfold no_broker_dataset, no_broker_dataset_json in *.
    destruct (brokers_buy_of marketDetectorData) as [|v|l].
    - now rewrite Hbuy.
    - now rewrite Hbuy.
    - destruct Hbuy as (a & -> & Ha). subst l. now apply lookup_total_correct. }
  rewrite (proj1 (getTopBroker_no_dataset (Number env) h m' Hno')).
  destruct (getBrokerSummary m' h) as [[d|e] h']; [|eauto].
  destruct (total_bid_offer (obData_of orderbookData)), (close (obData_of orderbookData));
    cbn; eauto.
Qed.

Lemma stock_analyse_older_throws
    (marketDetectorData : option (MarketDetectorResponse (list BrokerBuyItem)))
    (orderbookData : OrderbookResponse) :
  no_broker_dataset_json marketDetectorData ->
  fst (StockRoute.analyse env (StockRoute.older_getTopBroker (Number env)) marketDetectorData
         orderbookData (∅ : gmap loc (list BrokerBuyItem)))
  = Throw (Error "No broker data found in data.broker_summary.brokers_buy").
Proof.
  intros Hno. unfold StockRoute.analyse, StockRoute.older_getTopBroker.
  destruct (json_alloc_spec marketDetectorData) as (m' & h & Halloc & Hbuy & _).
  unfold mbind, M_bind. rewrite Halloc.
  assert (Hno' : no_broker_dataset h m').
  { unfold no_broker_dataset, no_broker_dataset_json in *.
    destruct (brokers_buy_of marketDetectorData) as [|v|l].
    - now rewrite Hbuy.
    - now rewrite Hbuy.
    - destruct Hbuy as (a & -> & Ha). subst l. now apply lookup_total_correct. }
  now rewrite (proj2 (getTopBroker_no_dataset (Number env) h m' Hno')).
Qed.

(** C5.  With a missing, non-array or empty [brokers_buy] dataset the
    current [getTopBroker] returns [null] while the older copy throws; at
    the call sites, the batch job records the symbol as an error and goes
    on without writing, and the single-stock path answers 500 with either
    copy. *)
Theorem no_broker_dataset_null_or_throw
    (h : gmap loc (list BrokerBuyItem)) (m : option (MarketDetectorResponse loc))
    (today : string) (item : WatchlistItem) (j : job) (table : list stock_query)
    (marketDetectorData : option (MarketDetectorResponse (list BrokerBuyItem)))
    (orderbookData : OrderbookResponse)
    (rejects : gmap string jval -> list stock_query -> option PostgrestError) :
  no_broker_dataset h m ->
  fetchMarketDetector env (emiten_of item) today today = Return marketDetectorData ->
  fetchOrderbook env (emiten_of item) = Return orderbookData ->
  no_broker_dataset_json marketDetectorData ->
  emiten_of item <> EmptyString ->
  today <> EmptyString ->
  let body := {| StockRoute.emiten := Some (emiten_of item);
                 StockRoute.fromDate := Some today;
                 StockRoute.toDate := Some today |} in
  (* the two variants *)
  getTopBroker (Number env) m h = (Return None, h)
  /\ getTopBroker_old (Number env) m h
     = (Throw (Error "No broker data found in data.broker_summary.brokers_buy"), h)
  (* the batch job skips the symbol and goes on *)
  /\ (exists j',
        analyze_item env today item j = (Return tt, j')
        /\ errors j' = errors j ++ [(emiten_of item, "No broker data available")]
        /\ results j' = results j
        /\ stock_queries (the_world j') = stock_queries (the_world j))
  (* the single-stock path fails with either variant *)
  /\ (exists msg,
        StockRoute.POST env (getTopBroker (Number env)) rejects body table
        = (Return (StockRoute.failure 500 msg), table))
  /\ StockRoute.POST env (StockRoute.older_getTopBroker (Number env)) rejects body table
     = (Return (StockRoute.failure 500
                  "No broker data found in data.broker_summary.brokers_buy"), table).
Proof.
  intros Hno Hmd Hob Hjson Hemiten Htoday body.
  split; [apply (getTopBroker_no_dataset _ _ _ Hno)|].
  split; [apply (getTopBroker_no_dataset _ _ _ Hno)|].
  split.
  { destruct (analyze_item_spec env today item j)
      as (j' & Hrun & _ & Hlists & _ & _ & Hsq).
    cbn zeta in Hlists, Hsq.
    rewrite (analyse_no_dataset today (emiten_of item) _ _ Hmd Hob Hjson) in Hlists, Hsq.
    destruct Hlists as [Herr Hres]. exists j'. auto. }
  assert (Hvalid : truthy_string (emiten_of item) && truthy_string today && truthy_string today
                   = true).
  { rewrite !andb_true_iff, !truthy_string_iff. auto. }
  unfold StockRoute.POST, StockRoute.fetch_both. cbn [body StockRoute.emiten StockRoute.fromDate
    StockRoute.toDate]. rewrite Hvalid, Hmd, Hob.
  split.
  - destruct (stock_analyse_current_throws marketDetectorData orderbookData Hjson) as [e He].
    exists (message e). unfold try_catch, mbind, M_bind, lift_result. now rewrite He.
  - unfold try_catch, mbind, M_bind, lift_result.
    now rewrite (stock_analyse_older_throws marketDetectorData orderbookData Hjson).
Qed.
End NoDataset.

(** * Instances *)

(** The cache answers within the minute and the store after it; a 401
    sends the next call to the store at once. *)
Lemma sample_token_cache :
  fst (getAuthToken (Sample.token_world 59)) = Return "jwt-0"
  /\ session_statements (snd (getAuthToken (Sample.token_world 59))) = []
  /\ fst (getAuthToken (Sample.token_world 60)) = Return "jwt-1"
  /\ session_statements (snd (getAuthToken (Sample.token_world 60)))
     = [SessionSelect "stockbit_token"].
Proof. vm_compute. auto. Qed.

Lemma sample_token_expired :
  let '(r, w') :=
    handleApiResponse {| Fetch.status := 401; Fetch.statusText := "Unauthorized" |}
      "Orderbook API" (Sample.token_world 5) in
  r = Throw (TokenExpiredError "Orderbook API: Token expired or invalid (401)")
  /\ map is_valid (session w') = [Some false]
  /\ cachedToken w' = None
  /\ fst (getAuthToken w') = Return "jwt-1"
  /\ fst (handleApiResponse {| Fetch.status := 503; Fetch.statusText := "Service Unavailable" |}
            "Orderbook API" (Sample.token_world 5))
     = Throw (Error "Orderbook API error: 503 Service Unavailable").
Proof. vm_compute. auto. Qed.

Lemma sample_queries_unique_ids : unique_ids Sample.queries.
Proof.
  unfold unique_ids. cbn.
  repeat (apply NoDup_cons_2; [rewrite ?elem_of_cons, elem_of_nil; lia|]).
  apply NoDup_nil_2.
Qed.

Lemma sample_row_key (i : nat) (date emiten : string) :
  conflict_key (cols (Sample.row i date emiten)) = Some (date, emiten).
Proof.
  unfold conflict_key, Sample.row. cbn [cols].
  rewrite lookup_insert_eq, lookup_insert_ne, lookup_insert_eq by discriminate. reflexivity.
Qed.

Lemma sample_queries_unique_keys : unique_keys Sample.queries.
Proof.
  intros k. unfold Sample.queries. cbn [List.filter]. unfold has_key.
  rewrite !sample_row_key.
  repeat case_bool_decide; cbn [length]; try lia; congruence.
Qed.

Lemma top_level_catch_marks_failed_witness :
  (forall i, if_jobLogId Sample.failed_job = Some i ->
     length (List.filter (has_job_id i) (background_job_logs (the_world Sample.failed_job)))
     = 1%nat)
  /\ exists resp j' row md,
       on_critical_error 0 Sample.token_error Sample.failed_job = (Return resp, j')
       /\ In row (background_job_logs (the_world j'))
       /\ job_id row = critical_log_id Sample.failed_job
       /\ status row = failed
       /\ metadata row = Some md
       /\ md !! "isTokenError" = Some (JBool (isTokenError (message Sample.token_error)))
       /\ (isTokenError (message Sample.token_error) = true <->
             occurs_in "401" (message Sample.token_error)
             \/ occurs_in "unauthorized" (message Sample.token_error)
             \/ occurs_in "token" (message Sample.token_error)
             \/ occurs_in "authentication" (message Sample.token_error)).
Proof.
  assert (H : forall i, if_jobLogId Sample.failed_job = Some i ->
     length (List.filter (has_job_id i) (background_job_logs (the_world Sample.failed_job)))
     = 1%nat).
  { intros i Hi. vm_compute in Hi. injection Hi as <-. reflexivity. }
  split; [exact H|]. apply (top_level_catch_marks_failed 0 Sample.token_error Sample.failed_job H).
Defined.

Lemma upsert_twice_overwrites_witness :
  let save1 := saveWatchlistAnalysis ∅ accepts in
  let save2 := saveStockQuery ∅ accepts in
  let t1 := snd (save1 Sample.first_save Sample.queries) in
  let t2 := snd (save2 Sample.second_save t1) in
  let r1 := [{| id := 4; cols := Sample.first_save |}] in
  let rows := [{| id := 4; cols := Sample.second_save |}] in
  (In save1 [saveStockQuery ∅ accepts; saveWatchlistAnalysis ∅ accepts]
   /\ In save2 [saveStockQuery ∅ accepts; saveWatchlistAnalysis ∅ accepts]
   /\ conflict_key Sample.first_save = Some ("2026-01-05", "BBCA")
   /\ conflict_key Sample.second_save = Some ("2026-01-05", "BBCA")
   /\ unique_keys Sample.queries
   /\ save1 Sample.first_save Sample.queries = (Return r1, t1)
   /\ save2 Sample.second_save t1 = (Return rows, t2))
  /\ exists row,
       rows = [row]
       /\ List.filter (has_key ("2026-01-05", "BBCA")) t2 = [row]
       /\ length t2 = length t1
       /\ forall c v, Sample.second_save !! c = Some v -> cols row !! c = Some (stored v).
Proof.
  cbv zeta.
  assert (H1 : In (saveWatchlistAnalysis ∅ accepts)
                 [saveStockQuery ∅ accepts; saveWatchlistAnalysis ∅ accepts])
    by (right; left; reflexivity).
  assert (H2 : In (saveStockQuery ∅ accepts)
                 [saveStockQuery ∅ accepts; saveWatchlistAnalysis ∅ accepts])
    by (left; reflexivity).
  assert (H3 : conflict_key Sample.first_save = Some ("2026-01-05", "BBCA"))
    by (vm_compute; reflexivity).
  assert (H4 : conflict_key Sample.second_save = Some ("2026-01-05", "BBCA"))
    by (vm_compute; reflexivity).
  assert (H5 : saveWatchlistAnalysis ∅ accepts Sample.first_save Sample.queries
               = (Return [{| id := 4; cols := Sample.first_save |}],
                  snd (saveWatchlistAnalysis ∅ accepts Sample.first_save Sample.queries)))
    by (vm_compute; reflexivity).
  assert (H6 : saveStockQuery ∅ accepts Sample.second_save
                 (snd (saveWatchlistAnalysis ∅ accepts Sample.first_save Sample.queries))
               = (Return [{| id := 4; cols := Sample.second_save |}],
                  snd (saveStockQuery ∅ accepts Sample.second_save
                         (snd (saveWatchlistAnalysis ∅ accepts Sample.first_save
                                 Sample.queries)))))
    by (vm_compute; reflexivity).
  split; [repeat split; try assumption; apply sample_queries_unique_keys|].
  apply (upsert_twice_overwrites ∅ accepts _ _ _ _ _ _ _ _ _ _ H1 H2 H3 H4
           sample_queries_unique_keys H5 H6).
Defined.

(** C2, as first stated, fails: the second upsert sends NaN for [harga]
    (what the batch job sends for an order book without [close]); the one
    record of the key then holds NULL, not the value that was sent. *)
Lemma upsert_NaN_held_as_null :
  let t1 := snd (saveWatchlistAnalysis ∅ accepts Sample.first_save Sample.queries) in
  let row := {| id := 4;
                cols := {[ "from_date" := JStr "2026-01-05"; "emiten" := JStr "BBCA";
                           "harga" := JNull; "status" := JStr "success" ]} |} in
  exists t2,
    saveWatchlistAnalysis ∅ accepts Sample.nan_save t1 = (Return [row], t2)
    /\ List.filter (has_key ("2026-01-05", "BBCA")) t2 = [row]
    /\ Sample.nan_save !! "harga" = Some (JNum NaN)
    /\ cols row !! "harga" = Some JNull
    /\ ~ (forall c v, Sample.nan_save !! c = Some v -> cols row !! c = Some v).
Proof.
  cbv zeta. eexists. split; [vm_compute; reflexivity|].
  split; [vm_compute; reflexivity|].
  split; [vm_compute; reflexivity|].
  split; [vm_compute; reflexivity|].
  intros H. specialize (H "harga" (JNum NaN) ltac:(vm_compute; reflexivity)).
  vm_compute in H. discriminate H.
Qed.

Lemma updatePreviousDayRealPrice_frame_witness :
  (unique_ids Sample.queries /\ unique_keys Sample.queries)
  /\ let '(r, t') :=
       updatePreviousDayRealPrice "BBCA" "2026-01-05" (Num 9150) (Some (Num 9200))
         Sample.queries in
     (Forall (fun x => ~ prior_record "BBCA" "2026-01-05" x) Sample.queries ->
        r = Return None /\ t' = Sample.queries)
     /\ (Exists (prior_record "BBCA" "2026-01-05") Sample.queries ->
         exists i rec amended,
           Sample.queries !! i = Some rec
           /\ prior_record "BBCA" "2026-01-05" rec
           /\ (forall j x, Sample.queries !! j = Some x ->
                 prior_record "BBCA" "2026-01-05" x -> j <> i -> dated_before x rec)
           /\ t' = <[i := amended]> Sample.queries
           /\ r = Return (Some [amended])
           /\ id amended = id rec
           /\ cols amended !! "real_harga" = Some (stored (JNum (Num 9150)))
           /\ cols amended !! "max_harga" = Some (stored (JNum (Num 9200)))
           /\ forall c, c <> "real_harga" -> c <> "max_harga" ->
                cols amended !! c = cols rec !! c).
Proof.
  split; [split; [apply sample_queries_unique_ids | apply sample_queries_unique_keys]|].
  apply (updatePreviousDayRealPrice_frame "BBCA" "2026-01-05" (Num 9150) (Some (Num 9200))
           Sample.queries sample_queries_unique_ids sample_queries_unique_keys).
Defined.

(** In the sample table the record of BBCA of 2026-01-03 is the one
    amended: it is dated before 2026-01-05 and after the one of 2026-01-02;
    the record of GOTO is left alone. *)
Lemma sample_prior_record :
  Exists (prior_record "BBCA" "2026-01-05") Sample.queries
  /\ snd (updatePreviousDayRealPrice "BBCA" "2026-01-05" NaN None Sample.queries)
     = [Sample.row 1 "2026-01-02" "BBCA";
        {| id := 2; cols := <["real_harga" := JNull]> (cols (Sample.row 2 "2026-01-03" "BBCA")) |};
        Sample.row 3 "2026-01-03" "GOTO"].
Proof.
  split.
  - apply Exists_cons_hd. repeat split; try reflexivity.
    exists "2026-01-02". split; [reflexivity|].
    do 9 apply before_tail. apply before_head. vm_compute. lia.
  - vm_compute. reflexivity.
Qed.

Lemma getTopBroker_maximal_bval_witness :
  (brokers_buy_of (Sample.response (Arr 1%nat)) = Arr 1%nat
   /\ Sample.heap_of Sample.brokers !! 1%nat = Some Sample.brokers
   /\ Sample.brokers <> []
   /\ Forall (numeric_bval Sample.decimal) Sample.brokers)
  /\ exists top h',
       getTopBroker Sample.decimal (Sample.response (Arr 1%nat)) (Sample.heap_of Sample.brokers) =
         (Return (Some {| bandar := netbs_broker_code top;
                          barangBandar := Math_round (Sample.decimal (blot top));
                          rataRataBandar :=
                            Math_round (Sample.decimal (netbs_buy_avg_price top)) |}), h')
       /\ In top Sample.brokers
       /\ (forall x, In x Sample.brokers -> bval_le Sample.decimal x top)
       /\ h' !! 1%nat = Some Sample.brokers
       /\ forall l x, Sample.heap_of Sample.brokers !! l = Some x -> h' !! l = Some x.
Proof.
  assert (H1 : brokers_buy_of (Sample.response (Arr 1%nat)) = Arr 1%nat) by reflexivity.
  assert (H2 : Sample.heap_of Sample.brokers !! 1%nat = Some Sample.brokers)
    by apply lookup_singleton_eq.
  assert (H3 : Sample.brokers <> []) by discriminate.
  assert (H4 : Forall (numeric_bval Sample.decimal) Sample.brokers)
    by (repeat constructor; unfold numeric_bval, numeric; vm_compute; discriminate).
  split; [auto|].
  apply (getTopBroker_maximal_bval Sample.decimal _ _ 1%nat Sample.brokers H1 H2 H3 H4).
Defined.

(** C9, as first stated, fails: with a [bval] that is no number the
    comparator is NaN on every pair, the order is kept, and the first
    element is returned although another one has a number for [bval]. *)
Lemma getTopBroker_not_maximal_with_NaN :
  fst (getTopBroker Sample.decimal (Sample.response (Arr 1%nat))
         (Sample.heap_of Sample.brokers_nan))
  = Return (Some {| bandar := "AA"; barangBandar := Num 10; rataRataBandar := Num 100 |})
  /\ ~ top_broker_is_maximal Sample.decimal (Sample.heap_of Sample.brokers_nan)
         (Sample.response (Arr 1%nat)) Sample.brokers_nan.
Proof.
  assert (Hrun : fst (getTopBroker Sample.decimal (Sample.response (Arr 1%nat))
                        (Sample.heap_of Sample.brokers_nan))
                 = Return (Some {| bandar := "AA"; barangBandar := Num 10;
                                   rataRataBandar := Num 100 |}))
    by (vm_compute; reflexivity).
  split; [exact Hrun|].
  intros (top & h' & Htop & Hin & Hmax & _). rewrite Htop in Hrun. simpl in Hrun.
  destruct Hin as [<-|[<-|[]]].
  - specialize (Hmax (Sample.buy "BB" "5" "20" "200") (or_intror (or_introl eq_refl))).
    vm_compute in Hmax. exact Hmax.
  - vm_compute in Hrun. discriminate Hrun.
Qed.

Lemma getBrokerSummary_total_on_arrays_witness :
  (array_or_absent (buy_field (Sample.response (Arr 1%nat)))
   /\ array_or_absent (sell_field (Sample.response (Arr 1%nat))))
  /\ exists d buyers sellers,
       getBrokerSummary (Sample.response (Arr 1%nat)) (Sample.heap_of Sample.brokers)
       = (Return d, Sample.heap_of Sample.brokers)
       /\ topBuyers d = SlicedArray buyers /\ (length buyers <= 4)%nat
       /\ topSellers d = SlicedArray sellers /\ (length sellers <= 4)%nat
       /\ (bandar_detector_of (Sample.response (Arr 1%nat)) = None ->
           detector d = default_detector)
       /\ (broker_summary_of (Sample.response (Arr 1%nat)) = None ->
           buyers = [] /\ sellers = []).
Proof.
  assert (H1 : array_or_absent (buy_field (Sample.response (Arr 1%nat)))) by exact I.
  assert (H2 : array_or_absent (sell_field (Sample.response (Arr 1%nat)))) by exact I.
  split; [auto|].
  apply (getBrokerSummary_total_on_arrays _ (Sample.heap_of Sample.brokers) H1 H2).
Defined.

(** C10, as first stated, fails: a [brokers_buy] that is neither missing
    nor an array has no [slice], and the call throws. *)
Lemma getBrokerSummary_throws_on_non_array :
  getBrokerSummary (Sample.response (NotArray (NANumber (Num 5))))
    (∅ : gmap loc (list BrokerBuyItem))
  = (Throw (TypeError "brokerSummary?.brokers_buy?.slice is not a function"), ∅).
Proof. reflexivity. Qed.

Lemma sample_batch_outcome :
  let '(r, j') := handler Sample.env (start (Sample.world_with [] [])) in
  errors j' = [("FAIL", "Market Detector API error: 500 Internal Server Error");
               ("NONE", "No broker data available")]
  /\ results j' = [("BBCA", "success")]
  /\ map id (stock_queries (the_world j')) = [1%nat]
  /\ map (fun r => (status r, length (log_entries r), error_message r))
       (background_job_logs (the_world j'))
     = [(completed, 3%nat, Some "2 items failed")].
Proof. vm_compute. auto. Qed.

Lemma sample_route_outcome :
  let '(r, j') :=
    WatchlistRoute.POST Sample.env None {| WatchlistRoute.authorization := None |}
      (start (Sample.world_with [] [])) in
  option_map WatchlistRoute.route_status (match r with Return x => Some x | Throw _ => None end)
  = Some 200%Z
  /\ errors j' = [("FAIL", "Market Detector API error: 500 Internal Server Error");
                  ("NONE", "No broker data")]
  /\ results j' = [("BBCA", "success")]
  /\ map id (stock_queries (the_world j')) = [1%nat]
  /\ background_job_logs (the_world j') = [].
Proof. vm_compute. auto. Qed.

Lemma sample_route_unauthorized :
  fst (WatchlistRoute.POST Sample.env (Some "s3cret")
         {| WatchlistRoute.authorization := Some "Bearer other" |}
         (start (Sample.world_with [] [])))
  = Return {| WatchlistRoute.route_status := 401;
              WatchlistRoute.route_body :=
                {[ "success" := JBool false; "error" := JStr "Unauthorized" ]};
              WatchlistRoute.route_results := [];
              WatchlistRoute.route_errorDetails := [] |}.
Proof. reflexivity. Qed.

Lemma sample_top_broker :
  fst (getTopBroker Sample.decimal (Sample.response (Arr 1%nat)) (Sample.heap_of Sample.brokers))
  = Return (Some {| bandar := "AK"; barangBandar := Num 160; rataRataBandar := Num 9125 |}).
Proof. vm_compute. reflexivity. Qed.


Lemma no_broker_dataset_null_or_throw_witness :
  (no_broker_dataset (Sample.heap_of []) (Sample.response (Arr 1%nat))
   /\ fetchMarketDetector Sample.env (emiten_of (Sample.item "NONE")) "2026-01-05" "2026-01-05"
      = Return (Sample.response (Arr []))
   /\ fetchOrderbook Sample.env (emiten_of (Sample.item "NONE")) = Return Sample.orderbook
   /\ no_broker_dataset_json (Sample.response (Arr []))
   /\ emiten_of (Sample.item "NONE") <> EmptyString
   /\ "2026-01-05" <> EmptyString)
  /\ (getTopBroker (Number Sample.env) (Sample.response (Arr 1%nat)) (Sample.heap_of [])
      = (Return None, Sample.heap_of [])
      /\ getTopBroker_old (Number Sample.env) (Sample.response (Arr 1%nat)) (Sample.heap_of [])
         = (Throw (Error "No broker data found in data.broker_summary.brokers_buy"),
            Sample.heap_of [])
      /\ (exists j',
            analyze_item Sample.env "2026-01-05" (Sample.item "NONE")
              (start (Sample.world_with [] [])) = (Return tt, j')
            /\ errors j' = errors (start (Sample.world_with [] []))
                           ++ [(emiten_of (Sample.item "NONE"), "No broker data available")]
            /\ results j' = results (start (Sample.world_with [] []))
            /\ stock_queries (the_world j')
               = stock_queries (the_world (start (Sample.world_with [] []))))
      /\ (exists msg,
            StockRoute.POST Sample.env (getTopBroker (Number Sample.env)) accepts
              {| StockRoute.emiten := Some (emiten_of (Sample.item "NONE"));
                 StockRoute.fromDate := Some "2026-01-05";
                 StockRoute.toDate := Some "2026-01-05" |} []
            = (Return (StockRoute.failure 500 msg), []))
      /\ StockRoute.POST Sample.env (StockRoute.older_getTopBroker (Number Sample.env)) accepts
           {| StockRoute.emiten := Some (emiten_of (Sample.item "NONE"));
              StockRoute.fromDate := Some "2026-01-05";
              StockRoute.toDate := Some "2026-01-05" |} []
         = (Return (StockRoute.failure 500
                      "No broker data found in data.broker_summary.brokers_buy"), [])).
Proof.
  assert (H1 : no_broker_dataset (Sample.heap_of []) (Sample.response (Arr 1%nat)))
    by (vm_compute; reflexivity).
  assert (H2 : fetchMarketDetector Sample.env (emiten_of (Sample.item "NONE"))
                 "2026-01-05" "2026-01-05" = Return (Sample.response (Arr [])))
    by reflexivity.
  assert (H3 : fetchOrderbook Sample.env (emiten_of (Sample.item "NONE"))
               = Return Sample.orderbook) by reflexivity.
  assert (H4 : no_broker_dataset_json (Sample.response (Arr []))) by reflexivity.
  assert (H5 : emiten_of (Sample.item "NONE") <> EmptyString) by discriminate.
  assert (H6 : "2026-01-05" <> EmptyString) by discriminate.
  split; [repeat split; assumption|].
  apply (no_broker_dataset_null_or_throw Sample.env (Sample.heap_of [])
           (Sample.response (Arr 1%nat)) "2026-01-05" (Sample.item "NONE")
           (start (Sample.world_with [] [])) [] (Sample.response (Arr [])) Sample.orderbook
           accepts H1 H2 H3 H4 H5 H6).
Defined.

Lemma sample_stock_failures :
  fst (StockRoute.POST Sample.env (getTopBroker (Number Sample.env)) accepts
         {| StockRoute.emiten := Some "NONE"; StockRoute.fromDate := Some "2026-01-05";
            StockRoute.toDate := Some "2026-01-05" |} [])
  = Return (StockRoute.failure 500 "Cannot read properties of null (reading 'rataRataBandar')")
  /\ StockRoute.http_status
       (match fst (StockRoute.POST Sample.env (getTopBroker (Number Sample.env)) accepts
                     {| StockRoute.emiten := Some "BBCA"; StockRoute.fromDate := Some "2026-01-05";
                        StockRoute.toDate := Some "2026-01-05" |} []) with
        | Return r => r
        | Throw _ => StockRoute.failure 0 ""
        end) = 200%Z.
Proof. vm_compute. auto. Qed.

(** * Further properties of the code *)

(** ** Writes to [stock_queries] keep its constraints *)

Lemma id_below_next (t : list stock_query) (r : stock_query) :
  In r t -> (id r < next_id t)%nat.
Proof.
  unfold next_id. induction t as [|x t IH]; simpl; [tauto|].
  intros [-> | H]; [lia | specialize (IH H); lia].
Qed.

Lemma next_id_fresh (t : list stock_query) : ~ In (next_id t) (map id t).
Proof.
  intros H. apply in_map_iff in H as (r & Hr & Hin). apply id_below_next in Hin. lia.
Qed.

Lemma conflict_key_lookup (c : gmap string jval) (d e : string) :
  conflict_key c = Some (d, e) <->
  c !! "from_date" = Some (JStr d) /\ c !! "emiten" = Some (JStr e).
Proof.
  unfold conflict_key.
  destruct (c !! "from_date") as [[| | |d']|], (c !! "emiten") as [[| | |e']|];
    split; intros H; try discriminate; try (destruct H; discriminate).
  - now injection H as -> ->.
  - destruct H as [[= ->] [= ->]]. reflexivity.
Qed.

Lemma lookup_overwrite (data defaults c : gmap string jval) (col : string) (v : jval) :
  (data ∪ defaults) !! col = Some v -> c !! col = Some v -> (data ∪ c) !! col = Some v.
Proof.
  rewrite !lookup_union. destruct (data !! col), (defaults !! col), (c !! col); cbn; congruence.
Qed.

Lemma conflict_key_overwrite (data defaults c : gmap string jval) (k : string * string) :
  conflict_key (data ∪ defaults) = Some k -> conflict_key c = Some k ->
  conflict_key (data ∪ c) = Some k.
Proof.
  destruct k as [d e]. rewrite !conflict_key_lookup.
  intros [H1 H2] [H3 H4]. eauto using lookup_overwrite.
Qed.

Lemma conflict_key_real_price (price : number) (maxPrice : option number) (c : gmap string jval) :
  conflict_key ((to_json <$> real_price_update price maxPrice) ∪ c) = conflict_key c.
Proof.
  unfold conflict_key.
  destruct (real_price_update_lookup price maxPrice c) as (_ & _ & H).
  now rewrite !H by discriminate.
Qed.

Lemma filter_ext_map {A} (sel : A -> bool) (f : A -> A) (t : list A) :
  (forall r, sel (f r) = sel r) ->
  length (List.filter sel (map f t)) = length (List.filter sel t).
Proof.
  intros H. induction t as [|x t IH]; simpl; [reflexivity|].
  rewrite H. destruct (sel x); simpl; now rewrite IH.
Qed.

Lemma update_where_ids (sel : stock_query -> bool) (changes : gmap string jval)
    (t : list stock_query) :
  map id (snd (update_where sel changes t)) = map id t.
Proof.
  unfold update_where. simpl. rewrite map_map. apply map_ext. intros r. now destruct (sel r).
Qed.

Lemma table_kept_refl (t : list stock_query) : table_kept t t.
Proof. repeat split; auto. exists []. now rewrite app_nil_r. Qed.

Lemma table_kept_trans (t1 t2 t3 : list stock_query) :
  table_kept t1 t2 -> table_kept t2 t3 -> table_kept t1 t3.
Proof.
  intros (K1 & I1 & a1 & E1) (K2 & I2 & a2 & E2). repeat split; auto.
  exists (a1 ++ a2). now rewrite E2, E1, app_assoc.
Qed.

Lemma table_kept_same_keys (f : stock_query -> stock_query) (t : list stock_query) :
  (forall r, id (f r) = id r) ->
  (forall r, conflict_key (cols (f r)) = conflict_key (cols r)) ->
  table_kept t (map f t).
Proof.
  intros Hid Hkey. split; [|split].
  - intros Hu k. specialize (Hu k).
    rewrite filter_ext_map; [exact Hu|].
    intros r. unfold has_key. now rewrite Hkey.
  - unfold unique_ids. rewrite map_map.
    now rewrite (map_ext (fun x => id (f x)) id Hid).
  - exists []. rewrite app_nil_r, map_map. now apply map_ext.
Qed.

Lemma upsert_kept (defaults data : gmap string jval) (t : list stock_query) :
  table_kept t (snd (upsert defaults data t))
  /\ (length (snd (upsert defaults data t)) <= S (length t))%nat.
Proof.
  unfold upsert.
  assert (Happ : forall tuple,
             (match conflict_key tuple with
              | Some k => List.filter (has_key k) t = []
              | None => True
              end) ->
             table_kept t (t ++ [{| id := next_id t; cols := tuple |}])).
  { intros tuple Hnew. split; [|split].
    - intros Hu k. rewrite List.filter_app, length_app. simpl.
      unfold has_key at 2. simpl.
      destruct (bool_decide_reflect (conflict_key tuple = Some k)) as [E|_]; simpl.
      + rewrite E in Hnew. now rewrite Hnew.
      + specialize (Hu k). lia.
    - unfold unique_ids. rewrite map_app. simpl. intros Hnd.
      apply NoDup_app. split; [assumption|]. split; [|apply NoDup_singleton].
      intros x Hx Hx'. apply list_elem_of_singleton in Hx'. subst x.
      apply list_elem_of_In in Hx. now apply next_id_fresh in Hx.
    - eexists. now rewrite map_app. }
  destruct (conflict_key ((to_json <$> data) ∪ defaults)) as [k|] eqn:Hk.
  - rewrite existsb_filter.
    destruct (List.filter (has_key k) t) as [|r rows] eqn:Hf; simpl.
    + split; [apply Happ; now rewrite Hk | rewrite length_app; simpl; lia].
    + split; [|rewrite length_map; lia].
      apply (table_kept_same_keys
               (fun r => if has_key k r
                         then {| id := id r; cols := (to_json <$> data) ∪ cols r |} else r)).
      * intros x. now destruct (has_key k x).
      * intros x. destruct (has_key k x) eqn:E; [|reflexivity]. simpl.
        apply bool_decide_eq_true in E. rewrite E.
        now apply (conflict_key_overwrite (to_json <$> data) defaults).
  - simpl. split; [apply Happ; now rewrite Hk | rewrite length_app; simpl; lia].
Qed.

Lemma update_price_kept (emiten currentDate : string) (price : number)
    (maxPrice : option number) (t : list stock_query) :
  let t' := snd (updatePreviousDayRealPrice emiten currentDate price maxPrice t) in
  table_kept t t' /\ length t' = length t
  /\ map (fun r => conflict_key (cols r)) t' = map (fun r => conflict_key (cols r)) t.
Proof.
  unfold updatePreviousDayRealPrice.
  destruct (single _) as [[record|] [findError|]]; simpl;
    try (split; [apply table_kept_refl | split; reflexivity]).
  split; [|split].
  - apply (table_kept_same_keys
             (fun r => if (id r =? id record)%nat
                       then {| id := id r;
                               cols := (to_json <$> real_price_update price maxPrice) ∪ cols r |}
                       else r)).
    + intros x. now destruct (id x =? id record)%nat.
    + intros x. destruct (id x =? id record)%nat; [|reflexivity]. simpl.
      apply conflict_key_real_price.
  - now rewrite length_map.
  - rewrite map_map. apply map_ext. intros x.
    destruct (id x =? id record)%nat; [|reflexivity]. simpl. apply conflict_key_real_price.
Qed.

(** ** The backfill can be repeated *)

Lemma insert_before_map {A} (after : A -> A -> bool) (g : A -> A) (x : A) (l : list A) :
  (forall a b, after (g a) (g b) = after a b) ->
  insert_before after (g x) (map g l) = map g (insert_before after x l).
Proof.
  intros H. induction l as [|y l IH]; simpl; [reflexivity|].
  rewrite H. destruct (after x y); simpl; [now rewrite IH | reflexivity].
Qed.

Lemma stable_sort_map {A} (after : A -> A -> bool) (g : A -> A) (l : list A) :
  (forall a b, after (g a) (g b) = after a b) ->
  stable_sort after (map g l) = map g (stable_sort after l).
Proof.
  intros H. induction l as [|x l IH]; simpl; [reflexivity|].
  unfold stable_sort in *. rewrite IH. now apply insert_before_map.
Qed.

Lemma filter_map_commute {A} (sel : A -> bool) (g : A -> A) (t : list A) :
  (forall r, sel (g r) = sel r) ->
  List.filter sel (map g t) = map g (List.filter sel t).
Proof.
  intros H. induction t as [|x t IH]; simpl; [reflexivity|].
  rewrite H. destruct (sel x); simpl; now rewrite IH.
Qed.

Lemma amend_id (price : number) (maxPrice : option number) (i : nat) (r : stock_query) :
  id (amend price maxPrice i r) = id r.
Proof. unfold amend. now destruct (id r =? i)%nat. Qed.

Lemma amend_str_col (price : number) (maxPrice : option number) (i : nat) (r : stock_query)
    (c : string) :
  c <> "real_harga" -> c <> "max_harga" ->
  str_col c (amend price maxPrice i r) = str_col c r.
Proof.
  intros H1 H2. unfold amend. destruct (id r =? i)%nat; [|reflexivity].
  now apply real_price_update_keeps.
Qed.

Lemma amend_twice (price : number) (maxPrice : option number) (i : nat) (r : stock_query) :
  amend price maxPrice i (amend price maxPrice i r) = amend price maxPrice i r.
Proof.
  unfold amend. destruct (id r =? i)%nat eqn:E; simpl; rewrite E; [|reflexivity].
  f_equal. apply map_eq. intros c. rewrite !lookup_union.
  destruct ((to_json <$> real_price_update price maxPrice) !! c), (cols r !! c); reflexivity.
Qed.

Lemma amend_prior_success (price : number) (maxPrice : option number) (i : nat)
    (emiten currentDate : string) (r : stock_query) :
  prior_success emiten currentDate (amend price maxPrice i r) = prior_success emiten currentDate r.
Proof. unfold prior_success. now rewrite !amend_str_col by discriminate. Qed.

Lemma amend_older (price : number) (maxPrice : option number) (i : nat) (x y : stock_query) :
  older (amend price maxPrice i x) (amend price maxPrice i y) = older x y.
Proof. unfold older. now rewrite !amend_str_col by discriminate. Qed.

Lemma updatePreviousDayRealPrice_amends (emiten currentDate : string) (price : number)
    (maxPrice : option number) (t : list stock_query) :
  updatePreviousDayRealPrice emiten currentDate price maxPrice t =
  match order_by_from_date_desc (List.filter (prior_success emiten currentDate) t) with
  | [] => (Return None, t)
  | record :: _ =>
      let t' := map (amend price maxPrice (id record)) t in
      (Return (Some (List.filter (fun r => (id r =? id record)%nat) t')), t')
  end.
Proof.
  unfold updatePreviousDayRealPrice.
  destruct (order_by_from_date_desc _) as [|record rest]; [reflexivity|].
  reflexivity.
Qed.

(** X2.  [updatePreviousDayRealPrice] is idempotent: run again with the
    same arguments it finds the same record, writes the same values and
    returns the same rows, so that a batch run twice on a day leaves the
    table as one run does. *)
Theorem updatePreviousDayRealPrice_idempotent (emiten currentDate : string) (price : number)
    (maxPrice : option number) (t : list stock_query) :
  let '(r, t') := updatePreviousDayRealPrice emiten currentDate price maxPrice t in
  updatePreviousDayRealPrice emiten currentDate price maxPrice t' = (r, t').
Proof.
  rewrite (updatePreviousDayRealPrice_amends emiten currentDate price maxPrice t).
  destruct (order_by_from_date_desc (List.filter (prior_success emiten currentDate) t))
    as [|record rest] eqn:Hsorted.
  - rewrite updatePreviousDayRealPrice_amends, Hsorted. reflexivity.
  - cbv beta iota zeta. rewrite updatePreviousDayRealPrice_amends.
    rewrite filter_map_commute by (intros r; apply amend_prior_success).
    unfold order_by_from_date_desc in *.
    rewrite stable_sort_map by (intros a b; apply amend_older).
    rewrite Hsorted. simpl. rewrite amend_id.
    rewrite map_map.
    rewrite (map_ext _ _ (amend_twice price maxPrice (id record))).
    reflexivity.
Qed.

(** ** Job logs: a missing row *)

Lemma alter_jobs_none (i : nat) (f : job_log -> job_log) (t : list job_log) :
  List.filter (has_job_id i) t = [] -> alter_jobs i f t = t.
Proof.
  unfold alter_jobs. induction t as [|x t IH]; simpl; [reflexivity|].
  destruct (has_job_id i x); [discriminate|]. intros H. now rewrite IH.
Qed.

Lemma alter_jobs_ext (i : nat) (f g : job_log -> job_log) (t : list job_log) :
  (forall r, In r t -> has_job_id i r = true -> f r = g r) ->
  alter_jobs i f t = alter_jobs i g t.
Proof.
  intros H. unfold alter_jobs. apply map_ext_in. intros r Hr.
  destruct (has_job_id i r) eqn:E; [now apply H | reflexivity].
Qed.

(** X4.  [updateBackgroundJobLog] on an id that no row has throws the
    error of [.single()] and leaves the table as it was; on the row of an
    id it sets the status and [completed_at], writes the counters, message
    and metadata that were passed, and keeps the stored value of each one
    that was not, as well as the log entries. *)
Theorem updateBackgroundJobLog_missing_or_kept (jobId : nat) (data : job_update) (w : world) :
  let now := wall_clock w (clock_reads w) in
  let '(r, w') := updateBackgroundJobLog jobId data w in
  match List.filter (has_job_id jobId) (background_job_logs w) with
  | [] => r = Throw (thrown PGRST116) /\ background_job_logs w' = background_job_logs w
  | [row] =>
      exists row',
        r = Return (Some row')
        /\ List.filter (has_job_id jobId) (background_job_logs w') = [row']
        /\ status row' = u_status data /\ completed_at row' = Some now
        /\ job_name row' = job_name row /\ total_items row' = total_items row
        /\ log_entries row' = log_entries row
        /\ success_count row' = from_option Some (success_count row) (u_success_count data)
        /\ error_count row' = from_option Some (error_count row) (u_error_count data)
        /\ error_message row' = from_option Some (error_message row) (u_error_message data)
        /\ metadata row' = from_option Some (metadata row) (u_metadata data)
  | _ :: _ :: _ => r = Throw (thrown PGRST116)
  end.
Proof.
  intros now. unfold updateBackgroundJobLog, Date_now, mbind, M_bind. simpl. fold now.
  rewrite filter_alter_jobs by reflexivity.
  destruct (List.filter (has_job_id jobId) (background_job_logs w)) as [|row [|row2 rest]] eqn:Hf;
    simpl.
  - split; [reflexivity|]. now apply alter_jobs_none.
  - eexists. split; [reflexivity|].
    split; [rewrite filter_alter_jobs by reflexivity; now rewrite Hf|]. simpl.
    repeat split;
      first [ now destruct (u_success_count data) | now destruct (u_error_count data)
            | now destruct (u_error_message data) | now destruct (u_metadata data) ].
  - reflexivity.
Qed.

(** ** The batch job, step by step *)

Lemma append_entry_alter (i : nat) (entry : entry_input) (w : world) :
  (length (List.filter (has_job_id i) (background_job_logs w)) <= 1)%nat ->
  appendBackgroundJobLogEntry i entry w =
    (Return tt,
     with_job_logs
       (alter_jobs i (logged (stamp (wall_clock w (clock_reads w)) entry)) (background_job_logs w))
       (with_clock_reads (S (clock_reads w)) w)).
Proof.
  intros Hlen.
  unfold appendBackgroundJobLogEntry, rpc_append_job_log_entry, Date_now, mbind, M_bind. simpl.
  fold (stamp (wall_clock w (clock_reads w)) entry).
  destruct (append_job_log_entry_rpc w); simpl; [reflexivity|].
  destruct (List.filter (has_job_id i) (background_job_logs w)) as [|r0 [|r1 rest]] eqn:Hf;
    simpl in *; try lia.
  - rewrite !alter_jobs_none by assumption. reflexivity.
  - do 2 f_equal. apply alter_jobs_ext. intros r Hin Hr.
    assert (H : In r (List.filter (has_job_id i) (background_job_logs w)))
      by now apply List.filter_In.
    rewrite Hf in H. destruct H as [<-|[]]. reflexivity.
Qed.

Lemma alter_jobs_last (old : list job_log) (row : job_log) (f : job_log -> job_log) :
  job_id row = next_job_id old ->
  alter_jobs (job_id row) f (old ++ [row]) = old ++ [f row].
Proof.
  intros Hid. unfold alter_jobs. rewrite map_app. simpl.
  unfold has_job_id at 2. rewrite Nat.eqb_refl. f_equal.
  rewrite <- (map_id old) at 2. apply map_ext_in. intros r Hr.
  unfold has_job_id. destruct (Nat.eqb_spec (job_id r) (job_id row)) as [E|_]; [|reflexivity].
  apply job_id_below_next in Hr. lia.
Qed.

Lemma map_if_job_last (old : list job_log) (row : job_log) (f : job_log -> job_log) (i : nat) :
  i = next_job_id old -> job_id row = i ->
  map (fun r => if has_job_id i r then f r else r) (old ++ [row]) = old ++ [f row].
Proof. intros -> H. rewrite <- H. now apply alter_jobs_last. Qed.

Lemma filter_job_last (old : list job_log) (row : job_log) :
  job_id row = next_job_id old ->
  List.filter (has_job_id (job_id row)) (old ++ [row]) = [row].
Proof.
  intros Hid. rewrite List.filter_app. rewrite Hid at 1. rewrite filter_fresh_job_id. simpl.
  unfold has_job_id. now rewrite Nat.eqb_refl.
Qed.

Lemma job_tail_id (old : list job_log) (row : job_log) (j : job) :
  job_tail old row j -> if_jobLogId j = Some (job_id row).
Proof.
  intros (_ & Hid & Hnext). unfold if_jobLogId. rewrite Hid, Hnext. reflexivity.
Qed.

Lemma logged_id (e : log_entry) (row : job_log) : job_id (logged e row) = job_id row.
Proof. reflexivity. Qed.

Lemma log_when_job_tail (old : list job_log) (row : job_log) (j : job) (entry : entry_input) :
  job_tail old row j ->
  exists j',
    log_when_job j (fun i => appendBackgroundJobLogEntry i entry) j = (Return tt, j')
    /\ results j' = results j /\ errors j' = errors j
    /\ stock_queries (the_world j') = stock_queries (the_world j)
    /\ job_tail old
         (logged (stamp (wall_clock (the_world j) (clock_reads (the_world j))) entry) row) j'.
Proof.
  intros Htail. pose proof (job_tail_id _ _ _ Htail) as Hif.
  destruct Htail as (Hlogs & Hid & Hnext).
  unfold log_when_job. rewrite Hif. unfold mbind, M_bind, in_world.
  rewrite append_entry_alter
    by (rewrite Hlogs, filter_job_last by assumption; simpl; lia).
  cbn. eexists. split; [reflexivity|]. cbn. repeat split; try assumption.
  rewrite Hlogs. now apply alter_jobs_last.
Qed.

Section BatchExact.
Variable env : environment.
Variable today : string.

Lemma backfill_table_kept (emiten : string) (j : job) :
  table_kept (stock_queries (the_world j))
    (stock_queries (the_world (snd (backfill env today emiten j)))).
Proof.
  unfold backfill, Date_now. run.
  destruct (fetchHistoricalSummary env emiten _ today 5) as [[|latestData rest]|e]; cbn;
    try apply table_kept_refl.
  unfold on_stock_queries. cbn.
  pose proof (update_price_kept emiten today (hist_close latestData)
                (Some (hist_high latestData)) (stock_queries (the_world j))) as (Hk & _).
  destruct (updatePreviousDayRealPrice emiten today (hist_close latestData)
              (Some (hist_high latestData)) (stock_queries (the_world j))) as [[r|e] t'];
    cbn in *; exact Hk.
Qed.

Lemma analyze_item_exact (item : WatchlistItem) (old : list job_log) (row : job_log) (j : job) :
  job_tail old row j ->
  let emiten := emiten_of item in
  let o := analyse env today emiten in
  exists j' e,
    analyze_item env today item j = (Return tt, j')
    /\ lists_record emiten "No broker data available" o j j'
    /\ job_tail old (logged e row) j'
    /\ entry_records emiten o e
    /\ table_kept (stock_queries (the_world j)) (stock_queries (the_world j')).
Proof.
  intros Htail emiten o. unfold analyze_item. fold emiten. fold o.
  destruct o as [[an|]|err] eqn:Ho; run.
  - unfold on_stock_queries. cbn.
    pose proof (upsert_kept (column_defaults env)
                  (watchlist_row today emiten (an_sector an) (an_brokerData an)
                     (an_marketData an) (an_calculated an))
                  (stock_queries (the_world j))) as [Hk1 _].
    destruct (saveWatchlistAnalysis_returns (column_defaults env)
                (watchlist_row today emiten (an_sector an) (an_brokerData an)
                   (an_marketData an) (an_calculated an))
                (stock_queries (the_world j))) as [res ->].
    cbn.
    match goal with |- context [backfill env today emiten ?j1] =>
      pose proof (backfill_table_kept emiten j1) as Hk2;
      destruct (backfill_spec env today emiten j1)
        as (j2 & Hrun2 & Hid2 & Hres2 & Herr2 & Hlogs2 & _)
    end.
    rewrite Hrun2 in *. cbn in *.
    destruct Htail as (Hlogs & Hid & Hnext).
    match goal with |- context [log_when_job ?j3 (fun i => appendBackgroundJobLogEntry i ?en) ?j3] =>
      destruct (log_when_job_tail old row j3 en) as (j4 & -> & Hres4 & Herr4 & Hsq4 & Htail4)
    end.
    { repeat split; cbn; congruence. }
    cbn in *. eexists j4, _. split; [reflexivity|].
    split; [split; congruence|].
    split; [exact Htail4|].
    split; [repeat split|].
    rewrite Hsq4. eapply table_kept_trans; eauto.
  - match goal with |- context [log_when_job ?j3 (fun i => appendBackgroundJobLogEntry i ?en) ?j3] =>
      destruct (log_when_job_tail old row j3 en) as (j4 & -> & Hres4 & Herr4 & Hsq4 & Htail4)
    end.
    { destruct Htail as (Hlogs & Hid & Hnext). repeat split; cbn; congruence. }
    cbn in *. eexists j4, _. split; [reflexivity|].
    split; [split; assumption|]. split; [exact Htail4|].
    split; [repeat split|]. rewrite Hsq4. apply table_kept_refl.
  - match goal with |- context [log_when_job ?j3 (fun i => appendBackgroundJobLogEntry i ?en) ?j3] =>
      destruct (log_when_job_tail old row j3 en) as (j4 & -> & Hres4 & Herr4 & Hsq4 & Htail4)
    end.
    { destruct Htail as (Hlogs & Hid & Hnext). repeat split; cbn; congruence. }
    cbn in *. eexists j4, _. split; [reflexivity|].
    split; [split; assumption|]. split; [exact Htail4|].
    split; [repeat split|]. rewrite Hsq4. apply table_kept_refl.
Qed.

Lemma logged_twice (row : job_log) (es : list log_entry) (e : log_entry) :
  logged e (set_log_entries (log_entries row ++ es) row)
  = set_log_entries (log_entries row ++ es ++ [e]) row.
Proof. unfold logged, set_log_entries. simpl. now rewrite app_assoc. Qed.

Lemma analyze_items_exact (items : list WatchlistItem) (old : list job_log) (row : job_log)
    (j : job) :
  job_tail old row j ->
  exists j' entries,
    analyze_items env today items j = (Return tt, j')
    /\ results j' = results j ++ successes env today items
    /\ errors j' = errors j ++ failures env today "No broker data available" items
    /\ job_tail old (set_log_entries (log_entries row ++ entries) row) j'
    /\ Forall2 (fun item e => entry_records (emiten_of item)
                                (analyse env today (emiten_of item)) e) items entries
    /\ table_kept (stock_queries (the_world j)) (stock_queries (the_world j')).
Proof.
  revert row j. induction items as [|item rest IH]; intros row j Htail.
  - exists j, []. split; [reflexivity|].
    split; [unfold successes; simpl; now rewrite app_nil_r|].
    split; [unfold failures; simpl; now rewrite app_nil_r|].
    split; [now rewrite set_log_entries_same|]. split; [constructor | apply table_kept_refl].
  - destruct (analyze_item_exact item old row j Htail)
      as (j1 & e & Hrun1 & Hlists1 & Htail1 & Hrec1 & Hk1).
    destruct (IH (logged e row) j1 Htail1)
      as (j' & entries & Hrun & Hres & Herr & Htail' & Hrecs & Hk).
    cbn [analyze_items]. unfold mbind, M_bind. rewrite Hrun1, Hrun.
    exists j', (e :: entries). split; [reflexivity|].
    unfold successes, failures in *. cbn [flat_map].
    unfold lists_record in Hlists1.
    split; [|split; [|split; [|split]]].
    + rewrite Hres. destruct (analyse env today (emiten_of item)) as [[an|]|err];
        destruct Hlists1 as [H1 H2]; rewrite ?H1, ?H2; now rewrite <- ?app_assoc.
    + rewrite Herr. destruct (analyse env today (emiten_of item)) as [[an|]|err];
        destruct Hlists1 as [H1 H2]; rewrite ?H1, ?H2; now rewrite <- ?app_assoc.
    + replace (set_log_entries (log_entries row ++ e :: entries) row)
        with (set_log_entries (log_entries (logged e row) ++ entries) (logged e row));
        [exact Htail'|].
      unfold logged, set_log_entries. simpl. now rewrite <- app_assoc.
    + constructor; assumption.
    + eapply table_kept_trans; eauto.
Qed.
End BatchExact.

(** ** The batch job as a whole *)

Section HandlerRun.
Variable env : environment.
Variable w : world.

Let today : string := toISODate env (wall_clock w (S (clock_reads w))).
Let old : list job_log := background_job_logs w.

Lemma handler_fetch_fails (e : exn) :
  fetchWatchlist env = Throw e ->
  exists j' row,
    handler env (start w) =
      (Return {| http_status := 500;
                 body := {[ "success" := JBool false;
                            "error" := JStr (message e);
                            "isTokenError" := JBool (isTokenError (message e)) ]} |}, j')
    /\ results j' = [] /\ errors j' = []
    /\ stock_queries (the_world j') = stock_queries w
    /\ background_job_logs (the_world j') = old ++ [row]
    /\ job_id row = next_job_id old
    /\ status row = failed /\ total_items row = 0%nat /\ log_entries row = []
    /\ error_message row = Some (token_message (message e))
    /\ metadata row = Some {[ "isTokenError" := JBool (isTokenError (message e)) ]}.
Proof.
  intros Hfetch. unfold handler, job_body, Date_now. run. rewrite Hfetch. cbn.
  unfold on_critical_error. run.
  match goal with |- context [createBackgroundJobLog ?n ?k ?w0] =>
    destruct (create_job_log_fresh n k w0) as (row0 & Hcreate & Hrow0 & Hst0 & Hnil & Hf0);
    pose proof Hcreate as Hshape
  end.
  rewrite Hcreate. cbn. cbn in Hrow0, Hf0.
  match goal with |- context [updateBackgroundJobLog (job_id row0) ?d ?w1] =>
    destruct (update_job_of_single (job_id row0) d w1 row0) as (Hupd & _ & _); [exact Hf0|]
  end.
  cbn in Hupd. rewrite Hupd. cbn.
  unfold createBackgroundJobLog in Hshape. cbn in Hshape. injection Hshape as Hshape.
  eexists _, _. split; [reflexivity|]. cbn.
  split; [reflexivity|]. split; [reflexivity|]. split; [reflexivity|].
  split; [apply alter_jobs_last; exact Hrow0|].
  subst row0. cbn. repeat split.
Qed.

Lemma handler_no_items (watchlistResponse : WatchlistResponse) :
  fetchWatchlist env = Return watchlistResponse ->
  default [] (watchlist_result watchlistResponse) = [] ->
  exists j',
    handler env (start w) =
      (Return {| http_status := 200;
                 body := {[ "success" := JBool true; "message" := JStr "No items" ]} |}, j')
    /\ results j' = [] /\ errors j' = [] /\ jobLogId j' = None
    /\ stock_queries (the_world j') = stock_queries w
    /\ background_job_logs (the_world j') = old.
Proof.
  intros Hfetch Hitems. unfold handler, job_body, Date_now. run. rewrite Hfetch. cbn.
  rewrite Hitems. cbn. eexists. split; [reflexivity|]. cbn. repeat split.
Qed.

Lemma handler_some_items (watchlistResponse : WatchlistResponse) (items : list WatchlistItem) :
  fetchWatchlist env = Return watchlistResponse ->
  default [] (watchlist_result watchlistResponse) = items ->
  items <> [] ->
  exists j' row,
    handler env (start w) =
      (Return {| http_status := 200;
                 body := {[ "success" := JBool true;
                            "results" := count (length (results j'));
                            "errors" := count (length (errors j'));
                            "jobLogId" := count (next_job_id old) ]} |}, j')
    /\ results j' = successes env today items
    /\ errors j' = failures env today "No broker data available" items
    /\ background_job_logs (the_world j') = old ++ [row]
    /\ job_id row = next_job_id old
    /\ job_name row = "analyze-watchlist"
    /\ total_items row = length items
    /\ status row = final_status (results j') (errors j')
    /\ success_count row = Some (length (results j'))
    /\ error_count row = Some (length (errors j'))
    /\ error_message row =
         (if (0 <? length (errors j'))%nat
          then Some (dec (Z.of_nat (length (errors j'))) +:+ " items failed") else None)
    /\ Forall2 (fun item e => entry_records (emiten_of item)
                                (analyse env today (emiten_of item)) e) items (log_entries row)
    /\ table_kept (stock_queries w) (stock_queries (the_world j')).
Proof.
  intros Hfetch Hitems Hne.
  unfold handler, job_body, Date_now. run. rewrite Hfetch. cbn. rewrite Hitems.
  destruct items as [|item0 rest] eqn:Hlist; [congruence|]. rewrite <- Hlist in *.
  replace (length items =? 0)%nat with false by (rewrite Hlist; reflexivity).
  match goal with |- context [createBackgroundJobLog ?n ?k ?w0] =>
    destruct (create_job_log_fresh n k w0) as (row0 & Hcreate & Hrow0 & Hst0 & Hnil & Hf0);
    pose proof Hcreate as Hshape
  end.
  rewrite Hcreate. cbn. cbn in Hrow0, Hf0. fold today.
  unfold createBackgroundJobLog in Hshape. cbn in Hshape. injection Hshape as Hshape.
  match goal with |- context [analyze_items env today items ?j0] =>
    destruct (analyze_items_exact env today items old row0 j0)
      as (j1 & entries & Hrun & Hres & Herr & Htail & Hrecs & Hk)
  end.
  { repeat split; cbn; auto. }
  rewrite Hrun. cbn. cbn in Hres, Herr, Hk.
  pose proof (job_tail_id _ _ _ Htail) as Hif.
  destruct Htail as (Hlogs & Hid & Hnext). cbn in Hid, Hnext.
  unfold log_when_job.
  assert (Hif' : forall w' : world,
             if_jobLogId {| the_world := w'; jobLogId := jobLogId j1;
                            results := results j1; errors := errors j1 |}
             = Some (job_id row0)).
  { intros w'. unfold if_jobLogId in *. exact Hif. }
  rewrite Hif'. unfold mbind, M_bind, in_world. cbn.
  match goal with |- context [updateBackgroundJobLog (job_id row0) ?d ?w1] =>
    destruct (update_job_of_single (job_id row0) d w1
                (set_log_entries (log_entries row0 ++ entries) row0)) as (Hupd & _ & _)
  end.
  { cbn. rewrite Hlogs. now apply (filter_job_last old (set_log_entries _ row0)). }
  cbn in Hupd. rewrite Hupd. cbn. rewrite Hid, Hrow0.
  lazymatch goal with |- context [(Return _, ?s)] => exists s end.
  eexists. split.
  { cbn. reflexivity. }
  cbn. split; [exact Hres|]. split; [exact Herr|].
  split.
  { rewrite Hlogs. apply map_if_job_last; [reflexivity | exact Hrow0]. }
  subst row0. cbn. repeat split; try assumption; try apply Hk.
  destruct (length (errors j1)); reflexivity.
Qed.
End HandlerRun.


(** X5.  The batch handler always answers and never lets an exception
    escape: 500 with the error message when the watchlist request fails,
    200 otherwise, whatever happens to the symbols. *)
Theorem handler_always_answers (env : environment) (w : world) :
  exists resp j',
    handler env (start w) = (Return resp, j')
    /\ match fetchWatchlist env with
       | Throw e =>
           http_status resp = 500%Z
           /\ body resp !! "success" = Some (JBool false)
           /\ body resp !! "error" = Some (JStr (message e))
       | Return _ =>
           http_status resp = 200%Z /\ body resp !! "success" = Some (JBool true)
       end.
Proof.
  destruct (fetchWatchlist env) as [wr|e] eqn:Hfetch.
  - destruct (default [] (watchlist_result wr)) as [|item rest] eqn:Hitems.
    + destruct (handler_no_items env w wr Hfetch Hitems) as (j' & Hrun & _).
      eexists _, j'. split; [exact Hrun|]. split; reflexivity.
    + destruct (handler_some_items env w wr (item :: rest) Hfetch Hitems ltac:(discriminate))
        as (j' & row & Hrun & _).
      eexists _, j'. split; [exact Hrun|]. split; reflexivity.
  - destruct (handler_fetch_fails env w e Hfetch) as (j' & row & Hrun & _).
    eexists _, j'. split; [exact Hrun|]. cbn [http_status body].
    split; [reflexivity|]. split; [reflexivity|].
    rewrite lookup_insert_ne by discriminate. apply lookup_insert_eq.
Qed.

(** X6.  With an empty or missing watchlist the batch handler answers 200
    "No items" and does nothing else: no job log is created and no
    analysis record is written. *)
Theorem handler_empty_watchlist (env : environment) (w : world)
    (watchlistResponse : WatchlistResponse) :
  fetchWatchlist env = Return watchlistResponse ->
  default [] (watchlist_result watchlistResponse) = [] ->
  exists j',
    handler env (start w) =
      (Return {| http_status := 200;
                 body := {[ "success" := JBool true; "message" := JStr "No items" ]} |}, j')
    /\ jobLogId j' = None
    /\ background_job_logs (the_world j') = background_job_logs w
    /\ stock_queries (the_world j') = stock_queries w.
Proof.
  intros Hfetch Hitems.
  destruct (handler_no_items env w watchlistResponse Hfetch Hitems)
    as (j' & Hrun & _ & _ & Hid & Hsq & Hlogs).
  exists j'. auto.
Qed.



(** X9.  Whatever the provider answers, a run of the batch handler keeps
    [stock_queries] well-formed: (from_date, emiten) and the ids stay
    unique, and no row is deleted or moved. *)
Theorem handler_keeps_table (env : environment) (w : world) :
  unique_keys (stock_queries w) -> unique_ids (stock_queries w) ->
  let t' := stock_queries (the_world (snd (handler env (start w)))) in
  unique_keys t' /\ unique_ids t' /\ ids_kept (stock_queries w) t'.
Proof.
  intros Hk Hi t'.
  assert (H : table_kept (stock_queries w) t').
  { unfold t'. destruct (fetchWatchlist env) as [wr|e] eqn:Hfetch.
    - destruct (default [] (watchlist_result wr)) as [|item rest] eqn:Hitems.
      + destruct (handler_no_items env w wr Hfetch Hitems) as (j' & -> & _ & _ & _ & Hsq & _).
        simpl. rewrite Hsq. apply table_kept_refl.
      + destruct (handler_some_items env w wr (item :: rest) Hfetch Hitems ltac:(discriminate))
          as (j' & row & -> & H).
        simpl. apply H.
    - destruct (handler_fetch_fails env w e Hfetch) as (j' & row & -> & _ & _ & Hsq & _).
      simpl. rewrite Hsq. apply table_kept_refl. }
  destruct H as (K & I & Hids). auto.
Qed.

(** ** The POST route of the watchlist analysis *)

Section RouteExact.
Variable env : environment.
Variable today : string.


End RouteExact.

Lemma unauthorized_spec (secret : option string) (request : WatchlistRoute.Request) :
  WatchlistRoute.unauthorized secret request = true <->
  exists s, secret = Some s /\ s <> EmptyString
            /\ WatchlistRoute.authorization request <> Some ("Bearer " +:+ s).
Proof.
  unfold WatchlistRoute.unauthorized. destruct secret as [s|].
  - rewrite andb_true_iff, negb_true_iff, bool_decide_eq_false, truthy_string_iff. split.
    + intros [H1 H2]. eauto.
    + intros (s' & [= <-] & H1 & H2). auto.
  - split; [discriminate | intros (s & H & _); discriminate].
Qed.

(** X10.  The POST route checks the [authorization] header only when
    CRON_SECRET is a non-empty string: a request whose header is not
    ["Bearer " + secret] is answered 401 and nothing happens, not even a
    reading of the clock; with no secret, or an empty one, any header is
    let through. *)
Theorem watchlist_route_guard (env : environment) (request : WatchlistRoute.Request) (j : job) :
  (forall secret, secret <> EmptyString ->
     WatchlistRoute.authorization request <> Some ("Bearer " +:+ secret) ->
     WatchlistRoute.POST env (Some secret) request j =
       (Return {| WatchlistRoute.route_status := 401;
                  WatchlistRoute.route_body :=
                    {[ "success" := JBool false; "error" := JStr "Unauthorized" ]};
                  WatchlistRoute.route_results := [];
                  WatchlistRoute.route_errorDetails := [] |}, j))
  /\ (forall secret, WatchlistRoute.authorization request = Some ("Bearer " +:+ secret) ->
        WatchlistRoute.POST env (Some secret) request j = WatchlistRoute.POST env None request j)
  /\ WatchlistRoute.POST env (Some EmptyString) request j
     = WatchlistRoute.POST env None request j.
Proof.
  split; [|split].
  - intros secret Hs Hh. unfold WatchlistRoute.POST.
    assert (H : WatchlistRoute.unauthorized (Some secret) request = true)
      by (apply unauthorized_spec; eauto).
    unfold try_catch. rewrite H. reflexivity.
  - intros secret Hh. unfold WatchlistRoute.POST.
    assert (H : WatchlistRoute.unauthorized (Some secret) request = false).
    { unfold WatchlistRoute.unauthorized. rewrite Hh, bool_decide_true by reflexivity.
      now rewrite andb_false_r. }
    now rewrite H.
  - reflexivity.
Qed.


(** ** The single-stock route *)



#[local] Arguments analysis_columns : simpl never.

(** X12.  The single-stock route answers 400 as soon as [emiten],
    [fromDate] or [toDate] is missing or empty: nothing is requested from
    the provider and nothing is written. *)
Theorem stock_route_missing_field (env : environment)
    (imported : option (MarketDetectorResponse loc) -> M heap (option BrokerData))
    (rejects : gmap string jval -> list stock_query -> option PostgrestError)
    (body : StockRoute.StockInput) (table : list stock_query) :
  blank (StockRoute.emiten body) \/ blank (StockRoute.fromDate body)
  \/ blank (StockRoute.toDate body) ->
  StockRoute.POST env imported rejects body table =
    (Return {| StockRoute.http_status := 400; StockRoute.success := false;
               StockRoute.data := None;
               StockRoute.error := Some "Missing required fields: emiten, fromDate, toDate" |},
     table).
Proof.
  unfold blank, StockRoute.POST, StockRoute.failure.
  destruct (StockRoute.emiten body) as [[|a e]|], (StockRoute.fromDate body) as [[|b f]|],
    (StockRoute.toDate body) as [[|c t]|]; simpl; try reflexivity.
  intros [[H|H]|[[H|H]|[H|H]]]; discriminate.
Qed.


(** X14.  The batch job and the single-stock route read the order book
    alike when it has [close] and both lot totals are non-empty strings.
    They part on an order book without [close], where the route throws
    'Invalid Orderbook API response structure' and the batch job goes on
    with NaN for [harga]; on a missing lot, where the batch job's inline
    [replace] throws a TypeError and [parseLot] of the route counts 0; and
    on an empty lot string, which the route counts as 0 without asking
    [Number]. *)
Theorem market_data_of_both_paths (env : environment)
    (imported : option (MarketDetectorResponse loc) -> M heap (option BrokerData))
    (marketDetectorJson : option (MarketDetectorResponse (list BrokerBuyItem)))
    (orderbookData : OrderbookResponse) (h : gmap loc (list BrokerBuyItem)) :
  let obData := obData_of orderbookData in
  let route := StockRoute.analyse env imported marketDetectorJson orderbookData h in
  (* what the route has computed when it returns *)
  (forall result h', route = (Return result, h') ->
     exists tbo c,
       total_bid_offer obData = Some tbo /\ close obData = Some c
       /\ harga (StockRoute.marketData result) = c
       /\ match bid_lot tbo, offer_lot tbo with
          | Some b, Some o =>
              exists batch,
                marketData_of env orderbookData = Return batch
                /\ harga batch = harga (StockRoute.marketData result)
                /\ offerTeratas batch = offerTeratas (StockRoute.marketData result)
                /\ bidTerbawah batch = bidTerbawah (StockRoute.marketData result)
                /\ (b <> EmptyString ->
                    totalBid batch = totalBid (StockRoute.marketData result))
                /\ (o <> EmptyString ->
                    totalOffer batch = totalOffer (StockRoute.marketData result))
                /\ (b = EmptyString ->
                    totalBid (StockRoute.marketData result) = Num 0
                    /\ totalBid batch = Number env EmptyString)
                /\ (o = EmptyString ->
                    totalOffer (StockRoute.marketData result) = Num 0
                    /\ totalOffer batch = Number env EmptyString)
          | _, _ =>
              marketData_of env orderbookData
              = Throw (TypeError "Cannot read properties of undefined (reading 'replace')")
              /\ (bid_lot tbo = None -> totalBid (StockRoute.marketData result) = Num 0)
              /\ (offer_lot tbo = None -> totalOffer (StockRoute.marketData result) = Num 0)
          end)
  (* an order book without [close] *)
  /\ (close obData = None ->
      (forall result h', route <> (Return result, h'))
      /\ (forall marketDetectorData h1 brokerData h2 brokerSummary h3,
            json_alloc marketDetectorJson h = (Return marketDetectorData, h1) ->
            imported marketDetectorData h1 = (Return brokerData, h2) ->
            getBrokerSummary marketDetectorData h2 = (Return brokerSummary, h3) ->
            route = (Throw (Error "Invalid Orderbook API response structure"), h3))
      /\ forall tbo b o,
           total_bid_offer obData = Some tbo -> bid_lot tbo = Some b -> offer_lot tbo = Some o ->
           exists batch, marketData_of env orderbookData = Return batch /\ harga batch = NaN).
Proof.
  cbv zeta. split.
  - intros result h'. unfold StockRoute.analyse, mbind, M_bind.
    destruct (json_alloc marketDetectorJson h) as [[m'|e] h1]; [|discriminate].
    destruct (imported m' h1) as [[bd|e] h2]; [|discriminate].
    destruct (getBrokerSummary m' h2) as [[bs|e] h3]; [|discriminate].
    destruct (total_bid_offer (obData_of orderbookData)) as [tbo|] eqn:Htbo; [|discriminate].
    destruct (close (obData_of orderbookData)) as [c|] eqn:Hclose; [|discriminate].
    destruct bd as [bd|]; [|discriminate].
    intros [= <- <-]. exists tbo, c. split; [reflexivity|]. split; [reflexivity|].
    cbn [StockRoute.marketData].
    unfold marketData_of, StockRoute.marketData_of, lot_number, parseLot.
    rewrite Htbo, Hclose. unfold mbind, result_bind, mret, result_ret.
    split; [reflexivity|].
    destruct (bid_lot tbo) as [b|], (offer_lot tbo) as [o|]; cbn.
    + eexists. split; [reflexivity|]. cbn.
      repeat split; try (intros H; apply truthy_string_iff in H; now rewrite H);
        try (subst; reflexivity).
    + repeat split; try discriminate.
    + repeat split; try discriminate.
    + repeat split.
  - intros Hclose. split; [|split].
    + intros result h'. unfold StockRoute.analyse, mbind, M_bind.
      destruct (json_alloc marketDetectorJson h) as [[m'|e] h1]; [|discriminate].
      destruct (imported m' h1) as [[bd|e] h2]; [|discriminate].
      destruct (getBrokerSummary m' h2) as [[bs|e] h3]; [|discriminate].
      rewrite Hclose. destruct (total_bid_offer (obData_of orderbookData)); discriminate.
    + intros m' h1 bd h2 bs h3 H1 H2 H3. unfold StockRoute.analyse, mbind, M_bind.
      rewrite H1, H2, H3, Hclose.
      destruct (total_bid_offer (obData_of orderbookData)); reflexivity.
    + intros tbo b o Htbo Hb Ho. unfold marketData_of, lot_number.
      rewrite Htbo, Hb, Ho, Hclose. unfold mbind, result_bind, mret, result_ret.
      eexists. split; reflexivity.
Qed.

(** ** The token: the cache between calls, and after a 401 *)

Lemma getAuthToken_from_store (w : world) (tok : string) :
  let n := clock_reads w in
  ~ fresh_cache (wall_clock w n) w ->
  fst (getSessionValue "stockbit_token" (with_clock_reads (S n) w)) = Return (Some tok) ->
  tok <> EmptyString ->
  getAuthToken w =
    (Return tok,
     with_token_cache (Some tok) (wall_clock w n)
       (with_session (session w) (SessionSelect "stockbit_token") (with_clock_reads (S n) w))).
Proof.
  intros n Hstale Hstore Htok.
  unfold getAuthToken, Date_now. run. fold n.
  pose proof (fresh_cache_test (wall_clock w n) w) as Htest.
  change (cachedToken (with_clock_reads (S n) w)) with (cachedToken w).
  change (tokenLastFetched (with_clock_reads (S n) w)) with (tokenLastFetched w).
  destruct (truthy_token (cachedToken w)
            && (wall_clock w n - tokenLastFetched w <? TOKEN_CACHE_DURATION)%Z);
    [exfalso; now apply Hstale, Htest|].
  destruct (getSessionValue_statements "stockbit_token" (with_clock_reads (S n) w))
    as [token Hget].
  rewrite Hget in Hstore |- *. cbn in Hstore. injection Hstore as ->. cbn.
  apply truthy_string_iff in Htok. rewrite Htok. reflexivity.
Qed.

(** X15.  Once [getAuthToken] has fetched a token from the session store,
    a second call less than 60000 ms later returns the same token from the
    cache and sends no query to the store. *)
Theorem getAuthToken_second_call_cached (w : world) (tok : string) :
  let n := clock_reads w in
  ~ fresh_cache (wall_clock w n) w ->
  fst (getSessionValue "stockbit_token" (with_clock_reads (S n) w)) = Return (Some tok) ->
  tok <> EmptyString ->
  (wall_clock w (S n) - wall_clock w n < 60000)%Z ->
  let '(r1, w1) := getAuthToken w in
  let '(r2, w2) := getAuthToken w1 in
  r1 = Return tok /\ r2 = Return tok
  /\ session_statements w1 = session_statements w ++ [SessionSelect "stockbit_token"]
  /\ session_statements w2 = session_statements w1.
Proof.
  intros n Hstale Hstore Htok Hsoon.
  rewrite (getAuthToken_from_store w tok Hstale Hstore Htok). fold n.
  unfold getAuthToken, Date_now. run.
  apply truthy_string_iff in Htok. rewrite Htok. cbn.
  unfold TOKEN_CACHE_DURATION.
  replace (wall_clock w (S n) - wall_clock w n <? 60000)%Z with true
    by (symmetry; now apply Z.ltb_lt).
  cbn. repeat split.
Qed.

Lemma filter_session_key (f : session_row -> session_row) (rows : list session_row) :
  (forall r, key (f r) = key r) ->
  List.filter (has_key_eq "stockbit_token")
    (map (fun r => if has_key_eq "stockbit_token" r then f r else r) rows)
  = map f (List.filter (has_key_eq "stockbit_token") rows).
Proof.
  intros Hf. apply filter_map_if. intros r Hr. unfold has_key_eq in *. now rewrite Hf.
Qed.

(** X16.  Marking the token invalid does not keep it from being used:
    [getSessionValue] does not read [is_valid], so after a 401 the next
    [getAuthToken] returns the very token that the store still holds, now
    marked invalid, and caches it again. *)
Theorem rejected_token_handed_out_again (response : Fetch.Response) (apiName : string)
    (w : world) (row : session_row) (tok : string) :
  Fetch.status response = 401%Z ->
  List.filter (has_key_eq "stockbit_token") (session w) = [row] ->
  session_value row = Some tok ->
  tok <> EmptyString ->
  let '(r, w1) := handleApiResponse response apiName w in
  let '(r2, w2) := getAuthToken w1 in
  r = Throw (TokenExpiredError (apiName +:+ ": Token expired or invalid (401)"))
  /\ cachedToken w1 = None
  /\ r2 = Return tok
  /\ cachedToken w2 = Some tok
  /\ List.filter (has_key_eq "stockbit_token") (session w2) = [set_is_valid false row].
Proof.
  intros Hst Hrow Hval Htok. unfold handleApiResponse. rewrite Hst. cbn [Z.eqb Pos.eqb].
  unfold invalidateToken, update_session. run.
  unfold getAuthToken, Date_now, getSessionValue. run.
  rewrite filter_session_key by reflexivity. rewrite Hrow. cbn. rewrite Hval. cbn.
  apply truthy_string_iff in Htok. rewrite Htok. cbn.
  repeat split. rewrite filter_session_key by reflexivity. now rewrite Hrow.
Qed.

(** X17.  [handleApiResponse] never changes a stored token: whatever the
    status, the keys and the values of the session rows, the analysis
    table and the job logs are as before.  On a status in 200-299 it
    returns; the cache and the validity marks are untouched and only
    [last_used_at] of the token row is set, to the time of the call. *)
Theorem handleApiResponse_keeps_token (response : Fetch.Response) (apiName : string)
    (w : world) :
  let now := wall_clock w (clock_reads w) in
  let '(r, w') := handleApiResponse response apiName w in
  map key (session w') = map key (session w)
  /\ map session_value (session w') = map session_value (session w)
  /\ stock_queries w' = stock_queries w
  /\ background_job_logs w' = background_job_logs w
  /\ tokenLastFetched w' = tokenLastFetched w
  /\ (Fetch.ok response = true ->
      r = Return tt
      /\ cachedToken w' = cachedToken w
      /\ map is_valid (session w') = map is_valid (session w)
      /\ session w' =
           map (fun row => if has_key_eq "stockbit_token" row
                           then set_last_used_at now row else row) (session w)).
Proof.
  intros now. unfold handleApiResponse.
  assert (Hmap : forall (A : Type) (p : session_row -> A) (f : session_row -> session_row),
             (forall r, p (f r) = p r) ->
             map p (map (fun r => if has_key_eq "stockbit_token" r then f r else r) (session w))
             = map p (session w)).
  { intros A p f Hf. rewrite map_map. apply map_ext. intros r.
    now destruct (has_key_eq "stockbit_token" r). }
  destruct (Z.eqb_spec (Fetch.status response) 401) as [E|E].
  - unfold invalidateToken, update_session. run.
    rewrite !Hmap by reflexivity. repeat split.
    all: unfold Fetch.ok in *; rewrite E in *; discriminate.
  - destruct (Fetch.ok response) eqn:Hok; cbn.
    + unfold updateTokenLastUsed, update_session, Date_now. run. fold now.
      rewrite !Hmap by reflexivity. repeat split.
    + run. repeat split; discriminate.
Qed.

Lemma string_append_assoc (a b c : string) : (a +:+ b) +:+ c = a +:+ (b +:+ c).
Proof.
  induction a as [|x a IH]; [reflexivity|].
  change (String x ((a +:+ b) +:+ c) = String x (a +:+ (b +:+ c))). now rewrite IH.
Qed.

(** X18.  A 401 from any endpoint is always classified as a token
    problem: the message of the [TokenExpiredError] that
    [handleApiResponse] throws passes the substring test, so that a batch
    whose watchlist request meets it ends with a failed job log saying
    that the token expired, and answers 500 with [isTokenError].  The
    error that [getAuthToken] throws when no token is configured does not
    pass the test, which looks for the lower-case word. *)
Theorem expired_token_fails_job (env : environment) (w w0 w1 : world)
    (response : Fetch.Response) (apiName : string) (e e1 : exn) :
  Fetch.status response = 401%Z ->
  fst (handleApiResponse response apiName w0) = Throw e ->
  fetchWatchlist env = Throw e ->
  fst (getAuthToken w1) = Throw e1 ->
  isTokenError (message e) = true
  /\ isTokenError (message e1) = false
  /\ exists resp j' row,
       handler env (start w) = (Return resp, j')
       /\ http_status resp = 500%Z
       /\ body resp !! "isTokenError" = Some (JBool true)
       /\ background_job_logs (the_world j') = background_job_logs w ++ [row]
       /\ status row = failed
       /\ error_message row
          = Some "Stockbit token expired or invalid. Please refresh your token.".
Proof.
  intros Hst Hthrow Hfetch Hnone.
  assert (He : e = TokenExpiredError (apiName +:+ ": Token expired or invalid (401)")).
  { unfold handleApiResponse in Hthrow. rewrite Hst in Hthrow. cbn [Z.eqb Pos.eqb] in Hthrow.
    unfold invalidateToken, update_session in Hthrow. revert Hthrow. run. congruence. }
  assert (Hflag : isTokenError (message e) = true).
  { rewrite He. apply isTokenError_spec. left.
    exists (apiName +:+ ": Token expired or invalid ("), ")". cbn.
    now rewrite string_append_assoc. }
  assert (He1 : e1 = Error "STOCKBIT_JWT_TOKEN not found in database or environment").
  { revert Hnone. unfold getAuthToken, Date_now. run.
    destruct (truthy_token (cachedToken w1) && _); cbn; [discriminate|].
    destruct (getSessionValue_statements "stockbit_token"
                (with_clock_reads (S (clock_reads w1)) w1)) as [token ->]. cbn.
    destruct (truthy_token token); cbn; [discriminate|].
    destruct (truthy_token (env_STOCKBIT_JWT_TOKEN w1)); cbn; [discriminate | congruence]. }
  split; [exact Hflag|]. split; [rewrite He1; vm_compute; reflexivity|].
  destruct (handler_fetch_fails env w e Hfetch)
    as (j' & row & Hrun & _ & _ & _ & Hlogs & _ & Hstatus & _ & _ & Hmsg & _).
  eexists _, j', row. split; [exact Hrun|]. split; [reflexivity|].
  split.
  { cbn [body]. do 2 rewrite lookup_insert_ne by discriminate.
    rewrite lookup_singleton_eq. now rewrite Hflag. }
  split; [exact Hlogs|]. split; [exact Hstatus|].
  rewrite Hmsg. unfold token_message. now rewrite Hflag.
Qed.

(** ** Broker data: ties, totality and the older copies *)

Section FirstOfSort.
Context {A : Type} (after : A -> A -> bool) (P : A -> Prop).
Hypothesis not_after_trans' : forall x y z, P x -> P y -> P z ->
  after x y = false -> after y z = false -> after x z = false.
Hypothesis after_asym : forall x y, P x -> P y -> after x y = true -> after y x = false.

Lemma head_stable_sort_first (l : list A) :
  Forall P l -> l <> [] ->
  exists pre h post,
    l = pre ++ h :: post
    /\ head (stable_sort after l) = Some h
    /\ (forall x, In x pre -> after x h = true)
    /\ (forall x, In x post -> after h x = false).
Proof.
  induction l as [|x l IH]; [congruence|]. intros HP _.
  apply Forall_cons_1 in HP as [Px HP].
  simpl. rewrite head_insert_before.
  destruct l as [|y l'].
  - exists [], x, []. simpl. repeat split; intros z [].
  - destruct (IH HP ltac:(discriminate)) as (pre & h & post & Hl & Hh & Hpre & Hpost).
    rewrite Hh.
    assert (Pall : forall z, In z (y :: l') -> P z).
    { intros z Hz. rewrite Forall_forall in HP. now apply HP, list_elem_of_In. }
    assert (Ph : P h) by (apply Pall; rewrite Hl; apply in_or_app; right; now left).
    destruct (after x h) eqn:E.
    + exists (x :: pre), h, post. rewrite Hl. split; [reflexivity|]. split; [reflexivity|].
      split; [|exact Hpost]. intros z [<-|Hz]; auto.
    + exists [], x, (y :: l'). split; [reflexivity|]. split; [reflexivity|].
      split; [intros z []|]. intros z Hz.
      assert (Pz : P z) by now apply Pall.
      apply (not_after_trans' x h z); auto.
      rewrite Hl in Hz. apply in_app_or in Hz as [Hz|[<-|Hz]].
      * apply after_asym; auto.
      * destruct (after h h) eqn:Ehh; [|reflexivity].
        now rewrite (after_asym h h Ph Ph Ehh) in Ehh.
      * now apply Hpost.
Qed.
End FirstOfSort.

Lemma num_le_not_positive (a b : number) :
  numeric a -> numeric b -> num_le b a -> is_positive (sub b a) = false.
Proof.
  unfold is_positive, numeric.
  destruct a as [|[]|x], b as [|[]|y]; simpl; try congruence; try tauto.
  intros _ _ H. destruct (y - x ?= 0)%Q eqn:E; try reflexivity.
  apply Qgt_alt in E. lra.
Qed.

Lemma positive_sub_strict (a b : number) :
  numeric a -> numeric b -> is_positive (sub b a) = true -> ~ num_le b a.
Proof.
  intros Ha Hb H Hle. rewrite (num_le_not_positive a b Ha Hb Hle) in H. discriminate.
Qed.

Lemma length_insert_before {A} (after : A -> A -> bool) (x : A) (l : list A) :
  length (insert_before after x l) = S (length l).
Proof.
  induction l as [|y l IH]; simpl; [reflexivity|]. destruct (after x y); simpl; now rewrite ?IH.
Qed.

Lemma length_stable_sort {A} (after : A -> A -> bool) (l : list A) :
  length (stable_sort after l) = length l.
Proof.
  induction l as [|x l IH]; simpl; [reflexivity|].
  unfold stable_sort in *. now rewrite length_insert_before, IH.
Qed.

Section TopBrokerMore.
Variable Number : string -> number.

Lemma first_of_sort (brokers : list BrokerBuyItem) :
  Forall (numeric_bval Number) brokers -> brokers <> [] ->
  exists earlier top later,
    brokers = earlier ++ top :: later
    /\ head (sort (by_bval_desc Number) brokers) = Some top
    /\ (forall x, In x earlier -> bval_lt Number x top)
    /\ (forall x, In x later -> bval_le Number x top).
Proof.
  intros Hnum Hne.
  destruct (head_stable_sort_first
              (fun x y => is_positive (by_bval_desc Number x y)) (numeric_bval Number))
    with (l := brokers) as (pre & h & post & Hl & Hh & Hpre & Hpost); try assumption.
  - intros x y z Hx Hy Hz Hxy Hyz. unfold by_bval_desc in *.
    apply num_le_not_positive; try assumption.
    apply (num_le_trans _ (Number (bval y))); now apply not_positive_sub.
  - intros x y Hx Hy Hxy. unfold by_bval_desc in *.
    apply num_le_not_positive; try assumption. now apply positive_sub.
  - assert (Pall : forall z, In z brokers -> numeric_bval Number z).
    { intros z Hz. rewrite Forall_forall in Hnum. now apply Hnum, list_elem_of_In. }
    assert (Ph : numeric_bval Number h) by (apply Pall; rewrite Hl; apply in_or_app; right; now left).
    exists pre, h, post. split; [exact Hl|]. split; [exact Hh|]. split.
    + intros x Hx. specialize (Hpre x Hx).
      assert (Px : numeric_bval Number x) by (apply Pall; rewrite Hl; apply in_or_app; now left).
      unfold bval_lt, bval_le, by_bval_desc in *. split.
      * now apply positive_sub.
      * now apply positive_sub_strict.
    + intros x Hx. specialize (Hpost x Hx).
      assert (Px : numeric_bval Number x)
        by (apply Pall; rewrite Hl; apply in_or_app; right; now right).
      unfold bval_le, by_bval_desc in *. now apply not_positive_sub.
Qed.

(** X19.  Among brokers with the same, largest [bval] the one that stands
    first in [brokers_buy] is returned: the sort is stable, so every
    element before the returned one has a strictly smaller [bval], and
    none after it has a larger one. *)
Theorem getTopBroker_first_of_the_largest (h : gmap loc (list BrokerBuyItem))
    (m : option (MarketDetectorResponse loc)) (a : loc) (brokers : list BrokerBuyItem) :
  brokers_buy_of m = Arr a ->
  h !! a = Some brokers ->
  brokers <> [] ->
  Forall (numeric_bval Number) brokers ->
  exists earlier top later h',
    brokers = earlier ++ top :: later
    /\ getTopBroker Number m h = (Return (Some (to_BrokerData Number top)), h')
    /\ (forall x, In x earlier -> bval_lt Number x top)
    /\ (forall x, In x later -> bval_le Number x top).
Proof.
  intros Hm Ha Hne Hnum.
  destruct (first_of_sort brokers Hnum Hne) as (pre & top & post & Hl & Hhead & Hpre & Hpost).
  destruct (top_of_sorted_copy_spec Number h a brokers top Ha Hhead) as (h' & Hrun & _).
  exists pre, top, post, h'. split; [exact Hl|]. split; [|split; assumption].
  unfold getTopBroker, array_length. rewrite Hm.
  unfold mbind, M_bind, mret, M_ret.
  rewrite (lookup_total_correct h a brokers Ha).
  destruct brokers as [|b bs]; [congruence|]. simpl. now rewrite Hrun.
Qed.

Lemma top_of_sorted_copy_returns (h : gmap loc (list BrokerBuyItem)) (a : loc) :
  h !!! a <> [] ->
  exists b h', top_of_sorted_copy Number a h = (Return b, h').
Proof.
  intros Hne. unfold top_of_sorted_copy, array_spread, array_sort, array_at.
  unfold mbind, M_bind, mret, M_ret. simpl.
  rewrite !lookup_total_insert_eq, head_lookup.
  destruct (sort (by_bval_desc Number) (h !!! a)) as [|top rest] eqn:Hs.
  - apply (f_equal (@length _)) in Hs. unfold sort in Hs. rewrite length_stable_sort in Hs.
    destruct (h !!! a); [congruence | discriminate].
  - simpl. eauto.
Qed.

(** X20.  On a dataset whose elements are broker objects of the declared
    type, the current [getTopBroker] does not throw.  It returns [null]
    exactly when the dataset is missing, no array or empty, which is when
    the older copy throws; on every other such dataset the two copies
    return the same broker. *)
Theorem getTopBroker_total (m : option (MarketDetectorResponse loc))
    (h : gmap loc (list BrokerBuyItem)) :
  exists r h',
    getTopBroker Number m h = (Return r, h')
    /\ (r = None <-> no_broker_dataset h m)
    /\ getTopBroker_old Number m h =
       match r with
       | Some b => (Return b, h')
       | None => (Throw (Error "No broker data found in data.broker_summary.brokers_buy"), h')
       end.
Proof.
  unfold getTopBroker, getTopBroker_old, no_broker_dataset, array_length.
  destruct (brokers_buy_of m) as [|v|a]; unfold mbind, M_bind, mret, M_ret, throw.
  - exists None, h. repeat split.
  - exists None, h. repeat split.
  - destruct (h !!! a) as [|b bs] eqn:Ha; simpl.
    + exists None, h. repeat split.
    + destruct (top_of_sorted_copy_returns h a) as (top & h' & Hrun); [now rewrite Ha|].
      rewrite Hrun. exists (Some top), h'. split; [reflexivity|].
      split; [split; discriminate | reflexivity].
Qed.
End TopBrokerMore.

(** X21.  The two copies of [getBrokerSummary] part only on a missing
    [bandar_detector]: the older one throws "No bandar_detector data found
    in response" where the current one goes on with the defaults.  With a
    detector both return the same slices or throw the same error, the
    older one handing the received fields on as they are and the current
    one filling each missing or falsy field with its default. *)
Theorem getBrokerSummary_older_and_current (m : option (MarketDetectorResponse loc))
    (h : gmap loc (list BrokerBuyItem)) :
  match bandar_detector_of m with
  | None =>
      StockbitOlder.getBrokerSummary m h
      = (Throw (Error "No bandar_detector data found in response"), h)
      /\ forall s h', getBrokerSummary m h = (Return s, h') -> detector s = default_detector
  | Some d =>
      match getBrokerSummary m h with
      | (Return s, h') =>
          StockbitOlder.getBrokerSummary m h
          = (Return {| StockbitOlder.detector := d;
                       StockbitOlder.topBuyers := topBuyers s;
                       StockbitOlder.topSellers := topSellers s |}, h')
          /\ detector s = with_defaults d
      | (Throw e, h') => StockbitOlder.getBrokerSummary m h = (Throw e, h')
      end
  end.
Proof.
  unfold getBrokerSummary, StockbitOlder.getBrokerSummary.
  destruct (bandar_detector_of m) as [d|].
  - destruct (slice_or_empty _ _ _) as [buyers|e]; [|reflexivity].
    destruct (slice_or_empty _ _ _) as [sellers|e]; [|reflexivity].
    split; [|reflexivity]. now destruct d.
  - split; [reflexivity|].
    intros s h'.
    destruct (slice_or_empty _ _ _) as [buyers|e]; [|discriminate].
    destruct (slice_or_empty _ _ _) as [sellers|e]; [|discriminate].
    intros [= <- _]. reflexivity.
Qed.

Lemma remove_commas_app (a b : string) :
  remove_commas (a +:+ b) = remove_commas a +:+ remove_commas b.
Proof.
  induction a as [|c a IH]; [reflexivity|].
  change (remove_commas (String c (a +:+ b))
          = remove_commas (String c a) +:+ remove_commas b).
  simpl. rewrite IH. now destruct (Ascii.eqb c ",").
Qed.

Lemma remove_commas_clean (s : string) : includes (remove_commas s) "," = false.
Proof.
  induction s as [|c s IH]; [reflexivity|]. simpl.
  destruct (Ascii.eqb c ",") eqn:E; [exact IH|].
  change (includes (String c (remove_commas s)) ",")
    with ((if Ascii.eqb "," c then true else false) || includes (remove_commas s) ",").
  rewrite (Ascii.eqb_sym "," c), E. exact IH.
Qed.

(** X22.  [parseLot] ignores thousands separators wherever they stand: a
    comma may be added to or taken from a lot string that has other
    characters without changing the result, the string handed to [Number]
    holds no comma, and a missing or empty lot counts 0 without asking
    [Number]. *)
Theorem parseLot_ignores_commas (Number : string -> number) (a b : string) :
  a +:+ b <> EmptyString ->
  parseLot Number (Some (a +:+ "," +:+ b)) = parseLot Number (Some (a +:+ b))
  /\ parseLot Number (Some (a +:+ b)) = Number (remove_commas a +:+ remove_commas b)
  /\ includes (remove_commas a +:+ remove_commas b) "," = false
  /\ parseLot Number None = Num 0
  /\ parseLot Number (Some EmptyString) = Num 0.
Proof.
  intros Hne. unfold parseLot.
  assert (H1 : truthy_string (a +:+ b) = true) by now apply truthy_string_iff.
  assert (H2 : truthy_string (a +:+ "," +:+ b) = true).
  { apply truthy_string_iff. destruct a; discriminate. }
  rewrite H1, H2, !remove_commas_app. split; [reflexivity|]. split; [reflexivity|].
  split; [|split; reflexivity].
  rewrite <- remove_commas_app. apply remove_commas_clean.
Qed.

(** ** Reading a saved analysis back *)

Lemma filter_nil_false {A} (sel : A -> bool) (l : list A) (x : A) :
  List.filter sel l = [] -> In x l -> sel x = false.
Proof.
  intros Hf Hin. destruct (sel x) eqn:E; [|reflexivity].
  assert (H : In x (List.filter sel l)) by now apply List.filter_In.
  rewrite Hf in H. destruct H.
Qed.

Lemma filter_filter_implied {A} (p q : A -> bool) (l : list A) :
  (forall x, p x = true -> q x = true) ->
  List.filter p l = List.filter p (List.filter q l).
Proof.
  intros H. induction l as [|x l IH]; simpl; [reflexivity|].
  destruct (p x) eqn:Ep.
  - rewrite (H x Ep). simpl. rewrite Ep. now rewrite IH.
  - destruct (q x); simpl; rewrite ?Ep; exact IH.
Qed.

(** After an upsert with key [k] exactly one row has the key, it holds
    every value that was sent, and every other row is a row of before. *)
Lemma upsert_one_row (defaults data : gmap string jval) (t : list stock_query)
    (k : string * string) :
  conflict_key data = Some k -> unique_keys t ->
  exists row,
    List.filter (has_key k) (snd (upsert defaults data t)) = [row]
    /\ (forall c v, data !! c = Some v -> cols row !! c = Some (stored v))
    /\ forall r, In r (snd (upsert defaults data t)) ->
         r = row \/ (In r t /\ has_key k r = false).
Proof.
  intros Hk Hu. unfold upsert.
  rewrite (conflict_key_union _ defaults k) by now rewrite conflict_key_sent.
  rewrite existsb_filter. specialize (Hu k).
  destruct (List.filter (has_key k) t) as [|r0 [|r1 rest]] eqn:Hf; simpl in Hu; try lia.
  - simpl. eexists. split.
    { rewrite List.filter_app, Hf. simpl.
      now rewrite (has_key_overwritten data defaults k (next_id t) Hk). }
    split.
    { intros c v Hv. simpl. apply lookup_union_Some_l. rewrite <- to_json_stored.
      now apply lookup_sent_Some. }
    intros r Hr. apply in_app_or in Hr as [Hr|[<-|[]]]; [right | now left].
    split; [assumption | now apply (filter_nil_false _ t)].
  - unfold update_where. simpl. exists (overwrite data r0). split.
    { fold (overwrite data).
      rewrite filter_map_if by (intros x _; now apply has_key_overwritten).
      now rewrite Hf. }
    split.
    { intros c v Hv. simpl. apply lookup_union_Some_l. rewrite <- to_json_stored.
      now apply lookup_sent_Some. }
    intros r Hr. apply in_map_iff in Hr as (r1 & <- & Hr1).
    destruct (has_key k r1) eqn:E.
    + left. assert (H : In r1 (List.filter (has_key k) t)) by now apply List.filter_In.
      rewrite Hf in H. destruct H as [<-|[]]. reflexivity.
    + right. auto.
Qed.

Lemma save_returned (defaults : gmap string jval)
    (rejects : gmap string jval -> list stock_query -> option PostgrestError)
    (data : gmap string jval) (t rows t1 : list stock_query) :
  saveWatchlistAnalysis defaults rejects data t = (Return rows, t1) ->
  rejects data t = None /\ t1 = snd (upsert defaults data t).
Proof.
  unfold saveWatchlistAnalysis, upsert_select.
  destruct (rejects data t); [discriminate|].
  destruct (upsert_no_error defaults data t) as [res ->]. cbn. now intros [= _ <-].
Qed.

Lemma not_after_antisym (a b : string) : not_after a b -> not_after b a -> a = b.
Proof.
  intros Hab Hba. destruct (not_after_cases a b Hab) as [E|E]; [exact E|].
  unfold not_after in Hba. congruence.
Qed.

Lemma newest_of_dated (rows : list stock_query) :
  Forall dated rows -> rows <> [] ->
  exists h, head (stable_sort Queries.newer_first rows) = Some h /\ In h rows
            /\ forall x, In x rows -> not_later x h.
Proof.
  apply (head_stable_sort Queries.newer_first dated not_later).
  - intros x [d Hd]. exists d, d. auto using not_after_refl.
  - intros x y z _ _ _ (dx & dy & Hx & Hy & Hxy) (dy' & dz & Hy' & Hz & Hyz).
    rewrite Hy in Hy'. injection Hy' as <-. exists dx, dz. eauto using not_after_trans.
  - intros x y [dx Hx] [dy Hy]. unfold Queries.newer_first. rewrite Hx, Hy. intros H.
    exists dx, dy. auto using ltb_not_after.
  - intros x y [dx Hx] [dy Hy]. unfold Queries.newer_first. rewrite Hx, Hy. intros H.
    exists dy, dx. auto.
Qed.

Lemma first_or_null_head (rows : list stock_query) :
  Queries.first_or_null rows = head rows.
Proof. destruct rows as [|x rest]; reflexivity. Qed.

Lemma watchlist_row_to_date (today emiten : string) (sector : option string) (b : BrokerData)
    (m : MarketData) (c : Targets) :
  watchlist_row today emiten sector b m c !! "to_date" = Some (JStr today).
Proof.
  unfold watchlist_row, analysis_columns. destruct sector;
    repeat first [rewrite lookup_insert_eq; reflexivity | rewrite lookup_insert_ne by discriminate].
Qed.

(** X23.  What the batch saves for a symbol can be read back: when no
    successful record of the symbol is dated after [today] (and each has a
    date), [getLatestStockQuery] after a [saveWatchlistAnalysis] that
    returned gives the saved record, with every value that was sent as the
    table stores it (NULL for a number that is NaN or infinite). *)
Theorem latest_query_after_save (defaults : gmap string jval)
    (rejects : gmap string jval -> list stock_query -> option PostgrestError)
    (today emiten : string)
    (sector : option string) (b : BrokerData) (m : MarketData) (c : Targets)
    (t rows t' : list stock_query) :
  unique_keys t ->
  (forall r, In r t -> Queries.success_of emiten r = true ->
     exists d, str_col "from_date" r = Some d /\ not_after d today) ->
  let data := watchlist_row today emiten sector b m c in
  saveWatchlistAnalysis defaults rejects data t = (Return rows, t') ->
  exists row,
    Queries.getLatestStockQuery emiten t' = (Return (Some row), t')
    /\ In row t'
    /\ str_col "from_date" row = Some today
    /\ forall col v, data !! col = Some v -> cols row !! col = Some (stored v).
Proof.
  intros Hu Hold data Hsave.
  apply save_returned in Hsave as [_ ->].
  destruct (watchlist_row_key today emiten sector b m c) as (Kd & Ke & Ks).
  fold data in Kd, Ke, Ks.
  assert (Hk : conflict_key data = Some (today, emiten))
    by (unfold conflict_key; now rewrite Kd, Ke).
  destruct (upsert_one_row defaults data t _ Hk Hu) as (row & Hf & Hrow & Hrest).
  set (t1 := snd (upsert defaults data t)) in *.
  assert (Hin : In row t1).
  { assert (H : In row (List.filter (has_key (today, emiten)) t1)) by (rewrite Hf; now left).
    now apply List.filter_In in H. }
  assert (Hrd : str_col "from_date" row = Some today)
    by (apply str_col_lookup; exact (Hrow _ _ Kd)).
  assert (Hsel : Queries.success_of emiten row = true).
  { unfold Queries.success_of. rewrite andb_true_iff, !bool_decide_eq_true.
    split; apply str_col_lookup; [exact (Hrow _ _ Ke) | exact (Hrow _ _ Ks)]. }
  set (candidates := List.filter (Queries.success_of emiten) t1).
  assert (Hcand : In row candidates) by now apply List.filter_In.
  assert (Hdated : forall x, In x candidates ->
             exists d, str_col "from_date" x = Some d /\ not_after d today).
  { intros x Hx. apply List.filter_In in Hx as [Hx Hsx].
    destruct (Hrest x Hx) as [->|[Hxt _]].
    - exists today. split; [exact Hrd | apply not_after_refl].
    - now apply Hold. }
  destruct (newest_of_dated candidates) as (h & Hhead & Hh & Hmax).
  { apply Forall_forall. intros x Hx. apply list_elem_of_In in Hx.
    destruct (Hdated x Hx) as (d & Hd & _). now exists d. }
  { intros E. rewrite E in Hcand. destruct Hcand. }
  assert (Ehrow : h = row).
  { destruct (Hmax row Hcand) as (dr & dh & Hdr & Hdh & Hle).
    rewrite Hrd in Hdr. injection Hdr as <-.
    destruct (Hdated h Hh) as (dh' & Hdh' & Hle').
    rewrite Hdh in Hdh'. injection Hdh' as <-.
    assert (Edh : today = dh) by now apply not_after_antisym.
    apply List.filter_In in Hh as [Hht Hsh].
    destruct (Hrest h Hht) as [->|[_ Hnk]]; [reflexivity|].
    exfalso. unfold has_key in Hnk. apply bool_decide_eq_false in Hnk. apply Hnk.
    unfold Queries.success_of in Hsh. rewrite andb_true_iff, !bool_decide_eq_true in Hsh.
    destruct Hsh as [Hhe _]. apply conflict_key_cols. now rewrite Edh. }
  exists row.
  split.
  { unfold Queries.getLatestStockQuery. fold candidates.
    now rewrite first_or_null_head, Hhead, Ehrow. }
  auto.
Qed.

(** X24.  [getSpecificStockQuery] finds the record that the batch saved
    for a symbol and a day, whatever the case the symbol is asked in,
    provided the symbol was saved in upper case: the query compares the
    stored [emiten] with the upper-case form of its argument.  The record
    holds every value that was sent as the table stores it (NULL for a
    number that is NaN or infinite). *)
Theorem specific_query_after_save (toUpperCase : string -> string)
    (defaults : gmap string jval)
    (rejects : gmap string jval -> list stock_query -> option PostgrestError)
    (today emiten asked : string)
    (sector : option string) (b : BrokerData) (m : MarketData) (c : Targets)
    (t rows t' : list stock_query) :
  unique_keys t ->
  toUpperCase asked = emiten ->
  let data := watchlist_row today emiten sector b m c in
  saveWatchlistAnalysis defaults rejects data t = (Return rows, t') ->
  exists row,
    Queries.getSpecificStockQuery toUpperCase asked today today t' = (Return (Some row), t')
    /\ In row t'
    /\ forall col v, data !! col = Some v -> cols row !! col = Some (stored v).
Proof.
  intros Hu Hup data Hsave.
  apply save_returned in Hsave as [_ ->].
  destruct (watchlist_row_key today emiten sector b m c) as (Kd & Ke & Ks).
  pose proof (watchlist_row_to_date today emiten sector b m c) as Kt.
  fold data in Kd, Ke, Ks, Kt.
  assert (Hk : conflict_key data = Some (today, emiten))
    by (unfold conflict_key; now rewrite Kd, Ke).
  destruct (upsert_one_row defaults data t _ Hk Hu) as (row & Hf & Hrow & Hrest).
  set (t1 := snd (upsert defaults data t)) in *.
  assert (Hin : In row t1).
  { assert (H : In row (List.filter (has_key (today, emiten)) t1)) by (rewrite Hf; now left).
    now apply List.filter_In in H. }
  assert (Hsel : Queries.specific toUpperCase asked today today row = true).
  { unfold Queries.specific. rewrite !andb_true_iff, !bool_decide_eq_true, Hup.
    repeat split; apply str_col_lookup;
      [exact (Hrow _ _ Ke) | exact (Hrow _ _ Kd) | exact (Hrow _ _ Kt) | exact (Hrow _ _ Ks)]. }
  exists row. split; [|auto].
  unfold Queries.getSpecificStockQuery.
  rewrite (filter_filter_implied _ (has_key (today, emiten))).
  - rewrite Hf. simpl. now rewrite Hsel.
  - intros x Hx. unfold Queries.specific in Hx.
    rewrite !andb_true_iff, !bool_decide_eq_true, Hup in Hx.
    destruct Hx as [[[He Hd] _] _].
    unfold has_key. apply bool_decide_eq_true. now apply conflict_key_cols.
Qed.

(** ** The status of the token *)

Lemma lt_num (x y : Q) : TokenStatus.lt (Num x) (Num y) = true <-> (x < y)%Q.
Proof.
  unfold TokenStatus.lt. rewrite negb_true_iff. split.
  - intros H. apply Qnot_le_lt. intros Hle. apply Qle_bool_iff in Hle. congruence.
  - intros H. destruct (Qle_bool y x) eqn:E; [|reflexivity].
    apply Qle_bool_iff in E. apply Qlt_not_le in H. contradiction.
Qed.

Lemma hours_until (t : Q) (now : Z) :
  div (sub (Num t) (Num (inject_Z now))) (Num (inject_Z (1000 * 60 * 60)))
  = Num ((t - inject_Z now) / inject_Z 3600000).
Proof. reflexivity. Qed.

Lemma within_the_hour (t : Q) (now : Z) :
  TokenStatus.le (Num ((t - inject_Z now) / inject_Z 3600000)) (Num 1)
  && TokenStatus.gt (Num ((t - inject_Z now) / inject_Z 3600000)) (Num 0) = true
  <-> (inject_Z now < t)%Q /\ (t <= inject_Z (now + 3600000))%Q.
Proof.
  unfold TokenStatus.gt. rewrite andb_true_iff, lt_num. unfold TokenStatus.le.
  rewrite Qle_bool_iff, inject_Z_plus.
  assert (Hc : (inject_Z 3600000 == 3600000)%Q) by reflexivity.
  assert (Hdiv : ((t - inject_Z now) / inject_Z 3600000 * 3600000 == t - inject_Z now)%Q).
  { rewrite Hc. field. }
  split.
  - intros [H1 H2]. rewrite Hc in *. nra.
  - intros [H1 H2]. rewrite Hc in *. nra.
Qed.

(** X25.  [getTokenStatus] never reports a token both expired and
    expiring soon, nor valid when expired.  With an expiry date [t] the
    token is expired exactly when [t] is before now and expiring soon
    exactly when [t] is after now and at most one hour away, so that at
    the very instant [t] it counts as neither and is still valid; without
    an expiry date it never expires; without a row it is reported as
    missing, invalid and expired. *)
Theorem token_status_expiry (Date_parse : string -> number)
    (answer : reply TokenStatus.columns) (w : world) :
  let now := wall_clock w (clock_reads w) in
  exists s w',
    TokenStatus.getTokenStatus Date_parse answer w = (Return s, w')
    /\ (TokenStatus.isExpired s = true -> TokenStatus.isExpiringSoon s = false)
    /\ (TokenStatus.isValid s = true ->
        TokenStatus.exists_ s = true /\ TokenStatus.isExpired s = false)
    /\ match answer with
       | (Some data, None) =>
           TokenStatus.exists_ s = true
           /\ TokenStatus.token s = TokenStatus.value data
           /\ (forall e (t : Q),
                 TokenStatus.expires_at data = Some e -> e <> EmptyString ->
                 Date_parse e = Num t ->
                 (TokenStatus.isExpired s = true <-> (t < inject_Z now)%Q)
                 /\ (TokenStatus.isExpiringSoon s = true <->
                     (inject_Z now < t)%Q /\ (t <= inject_Z (now + 3600000))%Q)
                 /\ (TokenStatus.isValid s = true <->
                     TokenStatus.is_valid data <> Some false /\ (inject_Z now <= t)%Q))
           /\ (TokenStatus.expires_at data = None \/ TokenStatus.expires_at data = Some EmptyString ->
               TokenStatus.isExpired s = false /\ TokenStatus.isExpiringSoon s = false
               /\ TokenStatus.hoursUntilExpiry s = None
               /\ (TokenStatus.isValid s = true <-> TokenStatus.is_valid data <> Some false))
       | _ =>
           TokenStatus.exists_ s = false /\ TokenStatus.isValid s = false
           /\ TokenStatus.isExpired s = true /\ TokenStatus.isExpiringSoon s = false
           /\ TokenStatus.token s = None
       end.
Proof.
  intros now.
  assert (Hvalid : forall (v : option bool) (x : bool),
             negb (bool_decide (v = Some false)) && negb x = true <->
             v <> Some false /\ x = false).
  { intros v x. rewrite andb_true_iff, !negb_true_iff, bool_decide_eq_false. tauto. }
  destruct answer as [[data|] [err|]];
    try (eexists _, _; split; [reflexivity|]; cbn;
         split; [intros _; reflexivity|]; split; [discriminate|]; repeat split).
  unfold TokenStatus.getTokenStatus, Date_now. run. fold now.
  eexists _, _. split; [reflexivity|].
  unfold TokenStatus.status_of. cbn.
  destruct (TokenStatus.expires_at data) as [e|] eqn:He.
  - destruct (truthy_string e) eqn:Hte.
    + assert (Hgiven : Some e = None \/ Some e = Some EmptyString -> False).
      { intros [H|H]; [discriminate|]. injection H as ->. discriminate. }
      destruct (Date_parse e) as [|neg|t] eqn:Hp.
      * cbn. rewrite andb_true_r.
        split; [discriminate|]. split; [intros _; now split|].
        split; [reflexivity|]. split; [reflexivity|].
        split; [intros e' t' [= <-] _ Hp'; congruence | intros H; now apply Hgiven in H].
      * destruct neg; cbn; rewrite ?andb_true_r, ?andb_false_r;
          (split; [first [discriminate | intros _; reflexivity]|]);
          (split; [first [discriminate | intros _; now split]|]);
          (split; [reflexivity|]); (split; [reflexivity|]);
          (split; [intros e' t' [= <-] _ Hp'; congruence | intros H; now apply Hgiven in H]).
      * rewrite hours_until.
        pose proof (lt_num t (inject_Z now)) as Hlt.
        pose proof (within_the_hour t now) as Hsoon.
        split.
        { intros Hexp. apply Hlt in Hexp.
          apply not_true_is_false. intros E. apply Hsoon in E. destruct E as [E _]. lra. }
        split.
        { intros Hv. apply Hvalid in Hv as [_ Hv]. auto. }
        split; [reflexivity|]. split; [reflexivity|]. split.
        { intros e' t' [= <-] _ Hp'. rewrite Hp in Hp'. injection Hp' as <-.
          split; [exact Hlt|]. split; [exact Hsoon|].
          rewrite Hvalid. split.
          - intros [H1 H2]. split; [exact H1|].
            apply Qnot_lt_le. intros H. apply Hlt in H. congruence.
          - intros [H1 H2]. split; [exact H1|].
            apply not_true_is_false. intros E. apply Hlt in E. lra. }
        intros H. now apply Hgiven in H.
    + destruct e; [|discriminate]. cbn. rewrite andb_true_r.
      split; [discriminate|]. split; [intros _; now split|].
      split; [reflexivity|]. split; [reflexivity|].
      split; [intros e' t' [= <-] Hne; congruence|]. intros _.
      split; [reflexivity|]. split; [reflexivity|]. split; [reflexivity|].
      now rewrite negb_true_iff, bool_decide_eq_false.
  - cbn. rewrite andb_true_r.
    split; [discriminate|]. split; [intros _; now split|].
    split; [reflexivity|]. split; [reflexivity|].
    split; [intros e' t' H; discriminate|]. intros _.
    split; [reflexivity|]. split; [reflexivity|]. split; [reflexivity|].
    now rewrite negb_true_iff, bool_decide_eq_false.
Qed.

(** ** lib/stockbit: the requests to the provider *)

Lemma getAuthToken_wall_clock (w : world) :
  wall_clock (snd (getAuthToken w)) = wall_clock w.
Proof.
  unfold getAuthToken, Date_now, getSessionValue. run.
  destruct (truthy_token (cachedToken w) && _); cbn; [reflexivity|].
  destruct (single _) as [[d|] [e|]]; cbn;
    repeat match goal with |- context [if ?b then _ else _] => destruct b; cbn end;
    reflexivity.
Qed.

Lemma handleApiResponse_wall_clock (response : Fetch.Response) (apiName : string) (w : world) :
  wall_clock (snd (handleApiResponse response apiName w)) = wall_clock w.
Proof.
  unfold handleApiResponse, invalidateToken, updateTokenLastUsed, update_session, Date_now.
  destruct (Fetch.status response =? 401)%Z; run; [reflexivity|].
  destruct (negb (Fetch.ok response)); reflexivity.
Qed.

(** What any request leaves as it was, and what it sends. *)
Lemma GET_frame {J} (answer : nat -> Provider.Request -> result (Provider.Reply J))
    (url : string) (searchParams : list (string * string)) (apiName : string)
    (c : Provider.client) :
  let c' := snd (Provider.GET answer url searchParams apiName c) in
  Provider.sectorCache c' = Provider.sectorCache c
  /\ Provider.sectorsListCache c' = Provider.sectorsListCache c
  /\ wall_clock (Provider.process c') = wall_clock (Provider.process c)
  /\ (Provider.requests c' = Provider.requests c
      \/ exists request,
           Provider.url request = url /\ Provider.searchParams request = searchParams
           /\ Provider.requests c' = Provider.requests c ++ [request]).
Proof.
  unfold Provider.GET, Provider.getHeaders, Provider.in_process, Provider.fetch. run.
  pose proof (getAuthToken_wall_clock (Provider.process c)) as Hclock.
  destruct (getAuthToken (Provider.process c)) as [[token|e] w1]; cbn in *; [|now auto].
  match goal with |- context [answer ?n ?r] => destruct (answer n r) as [reply|e] end; cbn.
  2:{ repeat split; auto. right. eexists. repeat split; reflexivity. }
  pose proof (handleApiResponse_wall_clock (Provider.response reply) apiName w1) as Hclock'.
  destruct (handleApiResponse _ _ w1) as [[[]|e] w2]; cbn in *.
  - destruct (Provider.json reply); cbn; repeat split; try congruence;
      right; eexists; repeat split; reflexivity.
  - repeat split; try congruence. right. eexists. repeat split; reflexivity.
Qed.

(** A request that returns has sent one request and read the body of its
    answer. *)
Lemma GET_returns {J} (answer : nat -> Provider.Request -> result (Provider.Reply J))
    (url : string) (searchParams : list (string * string)) (apiName : string)
    (c c' : Provider.client) (j : J) :
  Provider.GET answer url searchParams apiName c = (Return j, c') ->
  exists request reply,
    Provider.url request = url /\ Provider.searchParams request = searchParams
    /\ answer (length (Provider.requests c)) request = Return reply
    /\ Provider.json reply = Return j
    /\ Fetch.ok (Provider.response reply) = true
    /\ Provider.requests c' = Provider.requests c ++ [request].
Proof.
  unfold Provider.GET, Provider.getHeaders, Provider.in_process, Provider.fetch. run.
  destruct (getAuthToken (Provider.process c)) as [[token|e] w1]; cbn; [|discriminate].
  match goal with |- context [answer ?n ?r] => destruct (answer n r) as [reply|e] eqn:Ha end;
    cbn; [|discriminate].
  destruct (handleApiResponse _ _ w1) as [[[]|e] w2] eqn:Hh; cbn; [|discriminate].
  destruct (Provider.json reply) as [j'|e] eqn:Hj; cbn; [|discriminate].
  intros [= -> <-]. do 2 eexists. repeat split; eauto.
  revert Hh. unfold handleApiResponse.
  destruct (Fetch.status _ =? 401)%Z; run; [discriminate|].
  destruct (Fetch.ok _); [reflexivity|discriminate].
Qed.

Section EmitenInfo.
Variable net : Provider.network.
Variable toUpperCase : string -> string.

Lemma fetchEmitenInfo_hit (emiten sector : string) (timestamp : Z) (c : Provider.client) :
  Provider.sectorCache c !! toUpperCase emiten = Some (sector, timestamp) ->
  (wall_clock (Provider.process c) (clock_reads (Provider.process c)) - timestamp
   < Provider.SECTOR_CACHE_DURATION)%Z ->
  Provider.fetchEmitenInfo net toUpperCase emiten c
  = (Return (Provider.cached_info sector emiten), snd (Provider.in_process Date_now c)).
Proof.
  intros Hc Hlt. unfold Provider.fetchEmitenInfo. run. rewrite Hc.
  unfold Provider.in_process, Date_now. cbn.
  apply Z.ltb_lt in Hlt. rewrite Hlt. reflexivity.
Qed.

Lemma fetchEmitenInfo_miss (emiten : string) (c : Provider.client) :
  match Provider.sectorCache c !! toUpperCase emiten with
  | Some (_, timestamp) =>
      (Provider.SECTOR_CACHE_DURATION
       <= wall_clock (Provider.process c) (clock_reads (Provider.process c)) - timestamp)%Z
  | None => True
  end ->
  Provider.fetchEmitenInfo net toUpperCase emiten c
  = let now := wall_clock (Provider.process c) (clock_reads (Provider.process c)) in
    match Provider.GET (Provider.emitten_info net)
            (Provider.STOCKBIT_BASE_URL +:+ "/emitten/" +:+ emiten +:+ "/info") []
            "Emiten Info API" (snd (Provider.in_process Date_now c)) with
    | (Return data, c') =>
        (Return data,
         match Provider.sector_of data with
         | Some sector =>
             if truthy_string sector
             then snd (Provider.set_sectorCache (toUpperCase emiten) (sector, now) c')
             else c'
         | None => c'
         end)
    | (Throw e, c') => (Throw e, c')
    end.
Proof.
  intros Hc. unfold Provider.fetchEmitenInfo.
  unfold mbind at 1. unfold M_bind at 1. unfold get at 1. cbv beta iota.
  unfold mbind at 1. unfold M_bind at 1.
  unfold Provider.in_process at 1. unfold Date_now at 1. cbv beta iota zeta.
  set (now := wall_clock _ _). 
  assert (forall (A : Type) (hit : string -> A) (miss : A),
    match Provider.sectorCache c !! toUpperCase emiten with
    | Some (sector, timestamp) =>
        if (now - timestamp <? Provider.SECTOR_CACHE_DURATION)%Z then hit sector else miss
    | None => miss
    end = miss) as Hmiss.
  { intros A hit miss. destruct (Provider.sectorCache c !! toUpperCase emiten) as [[s t]|];
      [|reflexivity].
    apply Z.ltb_ge in Hc. fold now in Hc. now rewrite Hc. }
  rewrite (Hmiss _ (fun sector => mret (Provider.cached_info sector emiten))).
  unfold mbind at 1. unfold M_bind at 1.
  destruct (Provider.GET _ _ _ _ _) as [[data|e] c']; [|reflexivity].
  destruct (Provider.sector_of data) as [sector|]; [|reflexivity].
  destruct (truthy_string sector); reflexivity.
Qed.

(** X26.  [fetchEmitenInfo] asks the provider once per hour and code: after
    a call that went to the provider (the cache had no entry for the code,
    or one that was an hour old or more) and returned a sector, a call for
    the same code in any letter case, made less than an hour after the
    first one read the clock, returns the answer built from the cache (that
    sector, the code as it was passed, and the placeholder fields) without
    sending a request, reading the token or touching the cache. *)
Theorem fetchEmitenInfo_second_call_cached (emiten emiten' sector : string)
    (c c1 : Provider.client) (data : Provider.EmitenInfoResponse) :
  no_fresh_sector (toUpperCase emiten)
    (wall_clock (Provider.process c) (clock_reads (Provider.process c))) c ->
  Provider.fetchEmitenInfo net toUpperCase emiten c = (Return data, c1) ->
  Provider.sector_of data = Some sector ->
  sector <> EmptyString ->
  toUpperCase emiten' = toUpperCase emiten ->
  (wall_clock (Provider.process c) (clock_reads (Provider.process c1))
   - wall_clock (Provider.process c) (clock_reads (Provider.process c)) < 3600000)%Z ->
  exists c2,
    Provider.fetchEmitenInfo net toUpperCase emiten' c1
    = (Return (Provider.cached_info sector emiten'), c2)
    /\ Provider.requests c2 = Provider.requests c1
    /\ Provider.sectorCache c2 = Provider.sectorCache c1
    /\ session_statements (Provider.process c2) = session_statements (Provider.process c1)
    /\ cachedToken (Provider.process c2) = cachedToken (Provider.process c1).
Proof.
  intros Hnone Hrun Hsector Hne Hkey Hsoon.
  rewrite fetchEmitenInfo_miss in Hrun.
  2:{ destruct (Provider.sectorCache c !! toUpperCase emiten) as [[s ts]|] eqn:Hc; [|exact I].
      exact (Hnone s ts Hc). }
  cbv zeta in Hrun.
  pose proof (GET_frame (Provider.emitten_info net)
                (Provider.STOCKBIT_BASE_URL +:+ "/emitten/" +:+ emiten +:+ "/info") []
                "Emiten Info API" (snd (Provider.in_process Date_now c))) as Hframe.
  cbv zeta in Hframe.
  destruct (Provider.GET _ _ _ _ _) as [[data'|e] c'] eqn:Hget; [|discriminate].
  injection Hrun as -> <-. rewrite Hsector.
  assert (truthy_string sector = true) as ->.
  { unfold truthy_string. destruct sector; [congruence|reflexivity]. }
  destruct Hframe as (_ & _ & Hclock & _). cbn in Hclock.
  eexists. split.
  - apply (fetchEmitenInfo_hit emiten' sector
             (wall_clock (Provider.process c) (clock_reads (Provider.process c)))).
    + rewrite Hkey. cbn. apply lookup_insert_eq.
    + cbn. rewrite Hclock. revert Hsoon. rewrite Hsector.
      assert (truthy_string sector = true) as ->.
      { unfold truthy_string. destruct sector; [congruence|reflexivity]. }
      cbn. exact (fun H => H).
  - repeat split; reflexivity.
Qed.

(** X27.  What [fetchEmitenInfo] does to the sector cache: it never touches
    the entry of another code nor the list of sectors; a call that throws
    (no token, a rejected fetch, a 401 or another bad status, an unreadable
    body) and a call whose answer has no sector leave the cache as it was;
    and after a call that returned a sector, the cache holds that sector for
    the code with a time stamp less than an hour before the call read the
    clock. *)
Theorem fetchEmitenInfo_cache (emiten : string) (c : Provider.client) :
  let r := Provider.fetchEmitenInfo net toUpperCase emiten c in
  let now := wall_clock (Provider.process c) (clock_reads (Provider.process c)) in
  (forall k, k <> toUpperCase emiten ->
     Provider.sectorCache (snd r) !! k = Provider.sectorCache c !! k)
  /\ Provider.sectorsListCache (snd r) = Provider.sectorsListCache c
  /\ (forall e, fst r = Throw e -> Provider.sectorCache (snd r) = Provider.sectorCache c)
  /\ (forall data, fst r = Return data ->
       match Provider.sector_of data with
       | Some (String _ _ as sector) =>
           exists timestamp,
             Provider.sectorCache (snd r) !! toUpperCase emiten = Some (sector, timestamp)
             /\ (now - timestamp < 3600000)%Z
       | _ => Provider.sectorCache (snd r) = Provider.sectorCache c
       end).
Proof.
  cbv zeta.
  assert (match Provider.sectorCache c !! toUpperCase emiten with
          | Some (_, timestamp) =>
              (Provider.SECTOR_CACHE_DURATION
               <= wall_clock (Provider.process c) (clock_reads (Provider.process c))
                  - timestamp)%Z
          | None => True
          end
          \/ exists sector timestamp,
               Provider.sectorCache c !! toUpperCase emiten = Some (sector, timestamp)
               /\ (wall_clock (Provider.process c) (clock_reads (Provider.process c))
                    - timestamp < Provider.SECTOR_CACHE_DURATION)%Z) as [Hmiss|Hhit].
  { destruct (Provider.sectorCache c !! toUpperCase emiten) as [[sector timestamp]|];
      [|now left].
    destruct (Z.lt_ge_cases
                (wall_clock (Provider.process c) (clock_reads (Provider.process c))
                 - timestamp) Provider.SECTOR_CACHE_DURATION); eauto. }
  - rewrite (fetchEmitenInfo_miss emiten c Hmiss). cbv zeta.
    pose proof (GET_frame (Provider.emitten_info net)
                  (Provider.STOCKBIT_BASE_URL +:+ "/emitten/" +:+ emiten +:+ "/info") []
                  "Emiten Info API" (snd (Provider.in_process Date_now c))) as Hframe.
    cbv zeta in Hframe. destruct Hframe as (Hcache & Hlist & _ & _).
    destruct (Provider.GET _ _ _ _ _) as [[data|e] c']; cbn in Hcache, Hlist |- *.
    + destruct (Provider.sector_of data) as [[|a sector]|] eqn:Hsector; cbn.
      * split; [intros k _; now rewrite Hcache|]. split; [exact Hlist|].
        split; [discriminate|]. intros d [= <-]. now rewrite Hsector.
      * split; [intros k Hk; rewrite lookup_insert_ne by congruence; now rewrite Hcache|].
        split; [exact Hlist|]. split; [discriminate|].
        intros d [= <-]. rewrite Hsector. eexists. split; [apply lookup_insert_eq|lia].
      * split; [intros k _; now rewrite Hcache|]. split; [exact Hlist|].
        split; [discriminate|]. intros d [= <-]. now rewrite Hsector.
    + split; [intros k _; now rewrite Hcache|]. split; [exact Hlist|].
      split; [intros _ _; exact Hcache|]. discriminate.
  - destruct Hhit as (sector & timestamp & Hc & Hlt).
    rewrite (fetchEmitenInfo_hit emiten sector timestamp c Hc Hlt). cbn.
    split; [reflexivity|]. split; [reflexivity|]. split; [discriminate|].
    intros data [= <-]. cbn. destruct sector; [reflexivity|]. eauto.
Qed.

End EmitenInfo.

Section Watchlist.
Variable net : Provider.network.

Lemma default_group_of (groups : list Provider.WatchlistGroup) (g : Provider.WatchlistGroup) :
  default_of groups g -> Provider.default_group groups = Some g.
Proof.
  unfold Provider.default_group.
  intros [(pre & post & -> & Hpre & Hg)|[Hnone Hhead]].
  - assert (List.find (fun w => bool_decide (Provider.is_default w = Some true))
              (pre ++ g :: post) = Some g) as ->; [|reflexivity].
    induction Hpre as [|w pre Hw Hpre IH]; cbn.
    + rewrite bool_decide_eq_true_2 by exact Hg. reflexivity.
    + rewrite bool_decide_eq_false_2 by exact Hw. exact IH.
  - assert (List.find (fun w => bool_decide (Provider.is_default w = Some true)) groups = None)
      as ->; [|exact Hhead].
    clear Hhead. induction Hnone as [|w l Hw Hl IH]; cbn; [reflexivity|].
    rewrite bool_decide_eq_false_2 by exact Hw. exact IH.
Qed.



(** X29.  [fetchWatchlist] without an id (or with 0): once the groups are
    fetched, the call goes on as a call with the id of the first group
    marked as default, or of the first group when none is marked; it throws
    [Error "No watchlist found"], without a second request, when there is no
    group or when that group has no id. *)
Theorem fetchWatchlist_default_group (id : option Z) (c c1 : Provider.client)
    (groups : list Provider.WatchlistGroup) :
  Provider.truthy_id id = false ->
  Provider.fetchWatchlistGroups net c = (Return groups, c1) ->
  let fails :=
    Provider.fetchWatchlist net id c = (Throw (Error "No watchlist found"), c1) in
  (groups = [] -> fails)
  /\ (forall g, default_of groups g ->
        match Provider.watchlist_id g with
        | Some gid =>
            if (gid =? 0)%Z then fails
            else Provider.fetchWatchlist net id c = Provider.fetchWatchlist net (Some gid) c1
        | None => fails
        end).
Proof.
  intros Hid Hgroups fails.
  assert (forall chosen : option Provider.WatchlistGroup,
            Provider.default_group groups = chosen ->
            match chosen ≫= Provider.watchlist_id with
            | Some gid =>
                if (gid =? 0)%Z then fails
                else Provider.fetchWatchlist net id c
                     = Provider.fetchWatchlist net (Some gid) c1
            | None => fails
            end) as Hrun.
  { intros chosen Hchosen. subst fails.
    assert (Provider.fetchWatchlist net (Some 0%Z) c = Provider.fetchWatchlist net None c) as H0
      by reflexivity.
    assert (Provider.fetchWatchlist net id c = Provider.fetchWatchlist net None c) as ->.
    { destruct id as [i|]; [|reflexivity]. cbn in Hid. apply negb_false_iff, Z.eqb_eq in Hid.
      now subst i. }
    clear H0.
    assert (forall gid c1, (gid =? 0)%Z = false ->
              Provider.fetchWatchlist net (Some gid) c1
              = (Provider.GET (Provider.watchlist_detail net) (Provider.detail_url gid) []
                   "Watchlist Detail API"
                 ≫= fun json =>
                      mret match Provider.watchlist_data json with
                           | Some d =>
                               match Provider.watchlist_items d with
                               | Some result =>
                                   {| Provider.watchlist_data :=
                                        Some {| Provider.watchlist_items :=
                                                  Some (map Provider.with_company_code result);
                                                Provider.watchlist_rest :=
                                                  Provider.watchlist_rest d |};
                                      Provider.watchlist_message :=
                                        Provider.watchlist_message json |}
                               | None => json
                               end
                           | None => json
                           end) c1) as Hsome.
    { intros gid c2 Hz. unfold Provider.fetchWatchlist. cbn [Provider.truthy_id].
      rewrite Hz. reflexivity. }
    destruct chosen as [g|]; cbn [mbind option_bind].
    - destruct (Provider.watchlist_id g) as [gid|] eqn:Hw.
      + destruct (gid =? 0)%Z eqn:Hz.
        * unfold Provider.fetchWatchlist. cbn [Provider.truthy_id].
          unfold mbind, M_bind. rewrite Hgroups, Hchosen, Hw. cbn [Provider.truthy_id].
          rewrite Hz. reflexivity.
        * rewrite (Hsome gid c1 Hz).
          unfold Provider.fetchWatchlist. cbn [Provider.truthy_id].
          unfold mbind, M_bind. rewrite Hgroups, Hchosen, Hw. cbn [Provider.truthy_id].
          rewrite Hz. reflexivity.
      + unfold Provider.fetchWatchlist. cbn [Provider.truthy_id].
        unfold mbind, M_bind. rewrite Hgroups, Hchosen, Hw. reflexivity.
    - unfold Provider.fetchWatchlist. cbn [Provider.truthy_id].
      unfold mbind, M_bind. rewrite Hgroups, Hchosen. reflexivity. }
  split.
  - intros ->. exact (Hrun None eq_refl).
  - intros g Hg. specialize (Hrun (Some g) (default_group_of groups g Hg)).
    cbn in Hrun. exact Hrun.
Qed.

End Watchlist.

Section Sectors.
Variable net : Provider.network.

Lemma sector_names_truthy (items : list Provider.SectorItem) :
  Forall (fun s => s <> EmptyString) (Provider.sector_names items).
Proof.
  unfold Provider.sector_names. apply List.Forall_forall. intros s Hs.
  apply filter_In in Hs as [_ Hs]. now destruct s.
Qed.

(** X30.  [fetchSectors] asks the provider once a day: a call that found no
    cached list and returned has stored the list it returns, which holds no
    empty name and is empty when the body has no [data]; a call made less
    than 24 hours after the first one read the clock returns that list, an
    empty one too, without sending a request or reading the token. *)
Theorem fetchSectors_cached_for_a_day (c c1 : Provider.client) (sectors : list string) :
  Provider.sectorsListCache c = None ->
  Provider.fetchSectors net c = (Return sectors, c1) ->
  (wall_clock (Provider.process c) (clock_reads (Provider.process c1))
   - wall_clock (Provider.process c) (clock_reads (Provider.process c)) < 86400000)%Z ->
  Forall (fun s => s <> EmptyString) sectors
  /\ (exists request reply data,
        Provider.url request = "https://exodus.stockbit.com/emitten/sectors"
        /\ Provider.emitten_sectors net (length (Provider.requests c)) request = Return reply
        /\ Provider.json reply = Return data
        /\ (Provider.sectors_data data = None -> sectors = []))
  /\ exists c2,
       Provider.fetchSectors net c1 = (Return sectors, c2)
       /\ Provider.requests c2 = Provider.requests c1
       /\ Provider.sectorsListCache c2 = Provider.sectorsListCache c1
       /\ session_statements (Provider.process c2) = session_statements (Provider.process c1)
       /\ cachedToken (Provider.process c2) = cachedToken (Provider.process c1).
Proof.
  intros Hnone Hrun Hsoon. revert Hrun.
  unfold Provider.fetchSectors at 1.
  unfold mbind at 1. unfold M_bind at 1.
  unfold Provider.in_process at 1. unfold Date_now at 1. cbv beta iota zeta.
  unfold mbind at 1. unfold M_bind at 1. unfold get at 1. cbv beta iota.
  cbn [Provider.sectorsListCache]. rewrite Hnone.
  unfold mbind at 1. unfold M_bind at 1.
  match goal with |- context [Provider.GET ?a ?u ?p ?n ?s] =>
    pose proof (GET_frame a u p n s) as Hframe;
    destruct (Provider.GET a u p n s) as [[data|e] c'] eqn:Hget
  end; [|discriminate].
  cbv zeta in Hframe. cbn in Hframe. destruct Hframe as (_ & _ & Hclock & _).
  unfold mbind at 1. unfold M_bind at 1. unfold Provider.set_sectorsListCache, modify.
  cbv beta iota. unfold mret, M_ret. intros [= <- <-].
  split; [apply sector_names_truthy|]. split.
  - apply GET_returns in Hget as (request & reply & Hurl & _ & Hanswer & Hjson & _ & _).
    exists request, reply, data. cbn in Hanswer. repeat split; try assumption.
    now intros ->.
  - cbn in Hsoon. eexists. split.
    + unfold Provider.fetchSectors, Provider.in_process, Date_now. run.
      rewrite Hclock. apply Z.ltb_lt in Hsoon. unfold Provider.SECTORS_LIST_CACHE_DURATION. rewrite Hsoon. reflexivity.
    + repeat split; reflexivity.
Qed.

End Sectors.

(** ** Instances of the further properties *)

Lemma handler_empty_watchlist_witness :
  (fetchWatchlist (Sample.env_with (Return {| watchlist_result := None |}) [])
   = Return {| watchlist_result := None |}
   /\ default [] (watchlist_result {| watchlist_result := None |}) = [])
  /\ exists j',
       handler (Sample.env_with (Return {| watchlist_result := None |}) [])
         (start (Sample.world_with Sample.queries [Sample.job_row])) =
         (Return {| http_status := 200;
                    body := {[ "success" := JBool true; "message" := JStr "No items" ]} |}, j')
       /\ jobLogId j' = None
       /\ background_job_logs (the_world j')
          = background_job_logs (Sample.world_with Sample.queries [Sample.job_row])
       /\ stock_queries (the_world j')
          = stock_queries (Sample.world_with Sample.queries [Sample.job_row]).
Proof.
  split; [split; reflexivity|].
  apply (handler_empty_watchlist (Sample.env_with (Return {| watchlist_result := None |}) [])
           (Sample.world_with Sample.queries [Sample.job_row])
           {| watchlist_result := None |} eq_refl eq_refl).
Defined.




Lemma handler_keeps_table_witness :
  (unique_keys (stock_queries (Sample.world_with Sample.queries []))
   /\ unique_ids (stock_queries (Sample.world_with Sample.queries [])))
  /\ let env := Sample.env_with (Return {| watchlist_result := Some Sample.watchlist |})
                  Sample.history in
     let w := Sample.world_with Sample.queries [] in
     let t' := stock_queries (the_world (snd (handler env (start w)))) in
     unique_keys t' /\ unique_ids t' /\ ids_kept (stock_queries w) t'.
Proof.
  split; [split; [apply sample_queries_unique_keys | apply sample_queries_unique_ids]|].
  apply (handler_keeps_table
           (Sample.env_with (Return {| watchlist_result := Some Sample.watchlist |})
              Sample.history)
           (Sample.world_with Sample.queries [])
           sample_queries_unique_keys sample_queries_unique_ids).
Defined.


Lemma stock_route_missing_field_witness :
  (blank (StockRoute.emiten {| StockRoute.emiten := Some "BBCA"; StockRoute.fromDate := None;
                               StockRoute.toDate := Some "2026-01-05" |})
   \/ blank (StockRoute.fromDate {| StockRoute.emiten := Some "BBCA"; StockRoute.fromDate := None;
                                    StockRoute.toDate := Some "2026-01-05" |})
   \/ blank (StockRoute.toDate {| StockRoute.emiten := Some "BBCA"; StockRoute.fromDate := None;
                                  StockRoute.toDate := Some "2026-01-05" |}))
  /\ StockRoute.POST Sample.env (getTopBroker (Number Sample.env)) accepts
       {| StockRoute.emiten := Some "BBCA"; StockRoute.fromDate := None;
          StockRoute.toDate := Some "2026-01-05" |} Sample.queries =
     (Return {| StockRoute.http_status := 400; StockRoute.success := false;
                StockRoute.data := None;
                StockRoute.error := Some "Missing required fields: emiten, fromDate, toDate" |},
      Sample.queries).
Proof.
  assert (H : blank (StockRoute.emiten {| StockRoute.emiten := Some "BBCA";
                                          StockRoute.fromDate := None;
                                          StockRoute.toDate := Some "2026-01-05" |})
              \/ blank (StockRoute.fromDate {| StockRoute.emiten := Some "BBCA";
                                               StockRoute.fromDate := None;
                                               StockRoute.toDate := Some "2026-01-05" |})
              \/ blank (StockRoute.toDate {| StockRoute.emiten := Some "BBCA";
                                             StockRoute.fromDate := None;
                                             StockRoute.toDate := Some "2026-01-05" |}))
    by (right; left; left; reflexivity).
  split; [exact H|].
  apply (stock_route_missing_field Sample.env (getTopBroker (Number Sample.env)) accepts _
           Sample.queries H).
Defined.


(** The route answers 200 with the same result whether the backend takes
    the record (a fourth row) or rejects it (the table as it was). *)
Lemma sample_stock_route_saves :
  let body := {| StockRoute.emiten := Some "BBCA"; StockRoute.fromDate := Some "2026-01-05";
                 StockRoute.toDate := Some "2026-01-05" |} in
  let '(r, t') :=
    StockRoute.POST Sample.env (getTopBroker (Number Sample.env)) accepts body Sample.queries in
  let '(r0, t0) :=
    StockRoute.POST Sample.env (getTopBroker (Number Sample.env)) Sample.unavailable body
      Sample.queries in
  option_map StockRoute.http_status (match r with Return x => Some x | Throw _ => None end)
  = Some 200%Z
  /\ map id t' = [1; 2; 3; 4]%nat
  /\ r0 = r
  /\ t0 = Sample.queries.
Proof. vm_compute. auto. Qed.

(** The sample order book has [close] and both lots: the route returns
    the market data of the batch job. *)
Lemma sample_market_data :
  exists result h',
    StockRoute.analyse Sample.env (getTopBroker (Number Sample.env))
      (Sample.response (Arr Sample.brokers)) Sample.orderbook ∅ = (Return result, h')
    /\ marketData_of Sample.env Sample.orderbook = Return (StockRoute.marketData result).
Proof. do 2 eexists. split; vm_compute; reflexivity. Qed.

Lemma sample_stale_cache :
  ~ fresh_cache (wall_clock (Sample.token_world 60) (clock_reads (Sample.token_world 60)))
      (Sample.token_world 60).
Proof. intros (tok & _ & _ & H). vm_compute in H. discriminate. Qed.

Lemma getAuthToken_second_call_cached_witness :
  (~ fresh_cache (wall_clock (Sample.token_world 60) (clock_reads (Sample.token_world 60)))
       (Sample.token_world 60)
   /\ fst (getSessionValue "stockbit_token"
             (with_clock_reads (S (clock_reads (Sample.token_world 60))) (Sample.token_world 60)))
      = Return (Some "jwt-1")
   /\ "jwt-1" <> EmptyString
   /\ (wall_clock (Sample.token_world 60) (S (clock_reads (Sample.token_world 60)))
       - wall_clock (Sample.token_world 60) (clock_reads (Sample.token_world 60)) < 60000)%Z)
  /\ let '(r1, w1) := getAuthToken (Sample.token_world 60) in
     let '(r2, w2) := getAuthToken w1 in
     r1 = Return "jwt-1" /\ r2 = Return "jwt-1"
     /\ session_statements w1
        = session_statements (Sample.token_world 60) ++ [SessionSelect "stockbit_token"]
     /\ session_statements w2 = session_statements w1.
Proof.
  assert (H2 : fst (getSessionValue "stockbit_token"
                      (with_clock_reads (S (clock_reads (Sample.token_world 60)))
                         (Sample.token_world 60))) = Return (Some "jwt-1")) by reflexivity.
  assert (H3 : "jwt-1" <> EmptyString) by discriminate.
  assert (H4 : (wall_clock (Sample.token_world 60) (S (clock_reads (Sample.token_world 60)))
                - wall_clock (Sample.token_world 60) (clock_reads (Sample.token_world 60))
                < 60000)%Z) by (vm_compute; reflexivity).
  split; [repeat split; try assumption; apply sample_stale_cache|].
  apply (getAuthToken_second_call_cached (Sample.token_world 60) "jwt-1"
           sample_stale_cache H2 H3 H4).
Defined.

Lemma rejected_token_handed_out_again_witness :
  (Fetch.status Sample.unauthorized = 401%Z
   /\ List.filter (has_key_eq "stockbit_token") (session (Sample.token_world 5))
      = [Sample.token_row]
   /\ session_value Sample.token_row = Some "jwt-1"
   /\ "jwt-1" <> EmptyString)
  /\ let '(r, w1) := handleApiResponse Sample.unauthorized "Orderbook API" (Sample.token_world 5) in
     let '(r2, w2) := getAuthToken w1 in
     r = Throw (TokenExpiredError ("Orderbook API" +:+ ": Token expired or invalid (401)"))
     /\ cachedToken w1 = None
     /\ r2 = Return "jwt-1"
     /\ cachedToken w2 = Some "jwt-1"
     /\ List.filter (has_key_eq "stockbit_token") (session w2)
        = [set_is_valid false Sample.token_row].
Proof.
  assert (H4 : "jwt-1" <> EmptyString) by discriminate.
  split; [repeat split; assumption|].
  apply (rejected_token_handed_out_again Sample.unauthorized "Orderbook API"
           (Sample.token_world 5) Sample.token_row "jwt-1" eq_refl eq_refl eq_refl H4).
Defined.

Lemma expired_token_fails_job_witness :
  (Fetch.status Sample.unauthorized = 401%Z
   /\ fst (handleApiResponse Sample.unauthorized "Watchlist Detail API" (Sample.token_world 5))
      = Throw Sample.token_error
   /\ fetchWatchlist (Sample.env_with (Throw Sample.token_error) []) = Throw Sample.token_error
   /\ fst (getAuthToken (Sample.world_with [] []))
      = Throw (Error "STOCKBIT_JWT_TOKEN not found in database or environment"))
  /\ isTokenError (message Sample.token_error) = true
  /\ isTokenError
       (message (Error "STOCKBIT_JWT_TOKEN not found in database or environment")) = false
  /\ exists resp j' row,
       handler (Sample.env_with (Throw Sample.token_error) []) (start (Sample.world_with [] []))
       = (Return resp, j')
       /\ http_status resp = 500%Z
       /\ body resp !! "isTokenError" = Some (JBool true)
       /\ background_job_logs (the_world j')
          = background_job_logs (Sample.world_with [] []) ++ [row]
       /\ status row = failed
       /\ error_message row
          = Some "Stockbit token expired or invalid. Please refresh your token.".
Proof.
  split; [repeat split|].
  apply (expired_token_fails_job (Sample.env_with (Throw Sample.token_error) [])
           (Sample.world_with [] []) (Sample.token_world 5) (Sample.world_with [] [])
           Sample.unauthorized "Watchlist Detail API" Sample.token_error
           (Error "STOCKBIT_JWT_TOKEN not found in database or environment")
           eq_refl eq_refl eq_refl eq_refl).
Defined.

Lemma getTopBroker_first_of_the_largest_witness :
  (brokers_buy_of (Sample.response (Arr 1%nat)) = Arr 1%nat
   /\ Sample.heap_of Sample.brokers !! 1%nat = Some Sample.brokers
   /\ Sample.brokers <> []
   /\ Forall (numeric_bval Sample.decimal) Sample.brokers)
  /\ exists earlier top later h',
       Sample.brokers = earlier ++ top :: later
       /\ getTopBroker Sample.decimal (Sample.response (Arr 1%nat))
            (Sample.heap_of Sample.brokers)
          = (Return (Some (to_BrokerData Sample.decimal top)), h')
       /\ (forall x, In x earlier -> bval_lt Sample.decimal x top)
       /\ (forall x, In x later -> bval_le Sample.decimal x top).
Proof.
  assert (H1 : brokers_buy_of (Sample.response (Arr 1%nat)) = Arr 1%nat) by reflexivity.
  assert (H2 : Sample.heap_of Sample.brokers !! 1%nat = Some Sample.brokers)
    by apply lookup_singleton_eq.
  assert (H3 : Sample.brokers <> []) by discriminate.
  assert (H4 : Forall (numeric_bval Sample.decimal) Sample.brokers)
    by (repeat constructor; unfold numeric_bval, numeric; vm_compute; discriminate).
  split; [auto|].
  apply (getTopBroker_first_of_the_largest Sample.decimal _ _ 1%nat Sample.brokers H1 H2 H3 H4).
Defined.

(** Of the two brokers with the largest [bval], "AK" stands first. *)
Lemma sample_tie_goes_to_first :
  fst (getTopBroker Sample.decimal (Sample.response (Arr 1%nat))
         (Sample.heap_of (rev Sample.brokers)))
  = Return (Some {| bandar := "BK"; barangBandar := Num 80; rataRataBandar := Num 9000 |}).
Proof. vm_compute. reflexivity. Qed.

Lemma parseLot_ignores_commas_witness :
  "25" +:+ "322" <> EmptyString
  /\ parseLot Sample.decimal (Some ("25" +:+ "," +:+ "322"))
     = parseLot Sample.decimal (Some ("25" +:+ "322"))
  /\ parseLot Sample.decimal (Some ("25" +:+ "322"))
     = Sample.decimal (remove_commas "25" +:+ remove_commas "322")
  /\ includes (remove_commas "25" +:+ remove_commas "322") "," = false
  /\ parseLot Sample.decimal None = Num 0
  /\ parseLot Sample.decimal (Some EmptyString) = Num 0.
Proof.
  assert (H : "25" +:+ "322" <> EmptyString) by discriminate.
  split; [exact H|].
  apply (parseLot_ignores_commas Sample.decimal "25" "322" H).
Defined.

Lemma sample_queries_not_after :
  forall r, In r Sample.queries -> Queries.success_of "BBCA" r = true ->
    exists d, str_col "from_date" r = Some d /\ not_after d "2026-01-05".
Proof.
  intros r [<-|[<-|[<-|[]]]] H.
  - exists "2026-01-02". split; vm_compute; reflexivity.
  - exists "2026-01-03". split; vm_compute; reflexivity.
  - vm_compute in H. discriminate.
Qed.

Lemma latest_query_after_save_witness :
  let data := watchlist_row "2026-01-05" "BBCA" (Some "Finance") Sample.broker Sample.market
                (Sample.no_targets NaN NaN NaN NaN NaN NaN NaN) in
  let run := saveWatchlistAnalysis ∅ accepts data Sample.queries in
  let rows := match fst run with Return rows => rows | Throw _ => [] end in
  (unique_keys Sample.queries
   /\ (forall r, In r Sample.queries -> Queries.success_of "BBCA" r = true ->
        exists d, str_col "from_date" r = Some d /\ not_after d "2026-01-05")
   /\ run = (Return rows, snd run))
  /\ exists row,
       Queries.getLatestStockQuery "BBCA" (snd run) = (Return (Some row), snd run)
       /\ In row (snd run)
       /\ str_col "from_date" row = Some "2026-01-05"
       /\ forall col v, data !! col = Some v -> cols row !! col = Some (stored v).
Proof.
  cbv zeta.
  assert (Hrun : saveWatchlistAnalysis ∅ accepts
                   (watchlist_row "2026-01-05" "BBCA" (Some "Finance") Sample.broker
                      Sample.market (Sample.no_targets NaN NaN NaN NaN NaN NaN NaN))
                   Sample.queries
                 = (Return match fst (saveWatchlistAnalysis ∅ accepts
                                        (watchlist_row "2026-01-05" "BBCA" (Some "Finance")
                                           Sample.broker Sample.market
                                           (Sample.no_targets NaN NaN NaN NaN NaN NaN NaN))
                                        Sample.queries) with
                           | Return rows => rows
                           | Throw _ => []
                           end,
                    snd (saveWatchlistAnalysis ∅ accepts
                           (watchlist_row "2026-01-05" "BBCA" (Some "Finance") Sample.broker
                              Sample.market (Sample.no_targets NaN NaN NaN NaN NaN NaN NaN))
                           Sample.queries)))
    by (vm_compute; reflexivity).
  split; [split; [apply sample_queries_unique_keys
                 | split; [apply sample_queries_not_after | exact Hrun]]|].
  apply (latest_query_after_save ∅ accepts "2026-01-05" "BBCA" (Some "Finance") Sample.broker
           Sample.market (Sample.no_targets NaN NaN NaN NaN NaN NaN NaN) Sample.queries _ _
           sample_queries_unique_keys sample_queries_not_after Hrun).
Defined.

Lemma specific_query_after_save_witness :
  let data := watchlist_row "2026-01-05" "BBCA" (Some "Finance") Sample.broker Sample.market
                (Sample.no_targets NaN NaN NaN NaN NaN NaN NaN) in
  let run := saveWatchlistAnalysis ∅ accepts data Sample.queries in
  let rows := match fst run with Return rows => rows | Throw _ => [] end in
  (unique_keys Sample.queries /\ Sample.upper "bbca" = "BBCA"
   /\ run = (Return rows, snd run))
  /\ exists row,
       Queries.getSpecificStockQuery Sample.upper "bbca" "2026-01-05" "2026-01-05" (snd run)
       = (Return (Some row), snd run)
       /\ In row (snd run)
       /\ forall col v, data !! col = Some v -> cols row !! col = Some (stored v).
Proof.
  cbv zeta.
  assert (Hrun : saveWatchlistAnalysis ∅ accepts
                   (watchlist_row "2026-01-05" "BBCA" (Some "Finance") Sample.broker
                      Sample.market (Sample.no_targets NaN NaN NaN NaN NaN NaN NaN))
                   Sample.queries
                 = (Return match fst (saveWatchlistAnalysis ∅ accepts
                                        (watchlist_row "2026-01-05" "BBCA" (Some "Finance")
                                           Sample.broker Sample.market
                                           (Sample.no_targets NaN NaN NaN NaN NaN NaN NaN))
                                        Sample.queries) with
                           | Return rows => rows
                           | Throw _ => []
                           end,
                    snd (saveWatchlistAnalysis ∅ accepts
                           (watchlist_row "2026-01-05" "BBCA" (Some "Finance") Sample.broker
                              Sample.market (Sample.no_targets NaN NaN NaN NaN NaN NaN NaN))
                           Sample.queries)))
    by (vm_compute; reflexivity).
  split; [split; [apply sample_queries_unique_keys | split; [reflexivity | exact Hrun]]|].
  apply (specific_query_after_save Sample.upper ∅ accepts "2026-01-05" "BBCA" "bbca"
           (Some "Finance") Sample.broker Sample.market
           (Sample.no_targets NaN NaN NaN NaN NaN NaN NaN) Sample.queries _ _
           sample_queries_unique_keys eq_refl Hrun).
Defined.

(** An order book without [close] gives NaN for [harga]: the record read
    back holds NULL there, next to the prices that are numbers. *)
Lemma sample_read_back_null :
  let market := {| harga := NaN; offerTeratas := Num 9200; bidTerbawah := Num 9125;
                   totalBid := Num 25322; totalOffer := Num 18000 |} in
  let data := watchlist_row "2026-01-05" "BBCA" (Some "Finance") Sample.broker market
                (Sample.no_targets NaN NaN NaN NaN NaN NaN NaN) in
  let t1 := snd (saveWatchlistAnalysis ∅ accepts data Sample.queries) in
  data !! "harga" = Some (JNum NaN)
  /\ match fst (Queries.getLatestStockQuery "BBCA" t1) with
     | Return (Some row) =>
         cols row !! "harga" = Some JNull
         /\ cols row !! "ara" = Some (JNum (Num 9200))
     | _ => False
     end.
Proof. vm_compute. auto. Qed.

(** A token that expires in half an hour, at its expiry instant, and one
    second after it. *)
Lemma sample_token_status :
  let status (expiry : Z) :=
    TokenStatus.status_of (fun _ => Num (inject_Z expiry))
      (Some {| TokenStatus.value := Some "jwt-1";
               TokenStatus.expires_at := Some "2026-01-05T10:00:00Z";
               TokenStatus.last_used_at := None;
               TokenStatus.is_valid := Some true;
               TokenStatus.updated_at := None |}, None) 1000000%Z in
  (TokenStatus.isExpiringSoon (status 2800000%Z), TokenStatus.isExpired (status 2800000%Z),
   TokenStatus.isValid (status 2800000%Z)) = (true, false, true)
  /\ (TokenStatus.isExpiringSoon (status 1000000%Z), TokenStatus.isExpired (status 1000000%Z),
      TokenStatus.isValid (status 1000000%Z)) = (false, false, true)
  /\ (TokenStatus.isExpiringSoon (status 999000%Z), TokenStatus.isExpired (status 999000%Z),
      TokenStatus.isValid (status 999000%Z)) = (false, true, false).
Proof. vm_compute. auto. Qed.

Lemma fetchEmitenInfo_second_call_cached_witness :
  let c := Sample.stale_client in
  let c1 := snd (Provider.fetchEmitenInfo Sample.net Sample.upper "bbca" c) in
  (no_fresh_sector (Sample.upper "bbca")
     (wall_clock (Provider.process c) (clock_reads (Provider.process c))) c
   /\ Provider.fetchEmitenInfo Sample.net Sample.upper "bbca" c = (Return Sample.info, c1)
   /\ Provider.sector_of Sample.info = Some "Finance"
   /\ Sample.upper "Bbca" = Sample.upper "bbca"
   /\ (wall_clock (Provider.process c) (clock_reads (Provider.process c1))
       - wall_clock (Provider.process c) (clock_reads (Provider.process c)) < 3600000)%Z)
  /\ exists c2,
       Provider.fetchEmitenInfo Sample.net Sample.upper "Bbca" c1
       = (Return (Provider.cached_info "Finance" "Bbca"), c2)
       /\ Provider.requests c2 = Provider.requests c1
       /\ Provider.sectorCache c2 = Provider.sectorCache c1
       /\ session_statements (Provider.process c2) = session_statements (Provider.process c1)
       /\ cachedToken (Provider.process c2) = cachedToken (Provider.process c1).
Proof.
  cbv zeta.
  assert (H1 : no_fresh_sector (Sample.upper "bbca")
                 (wall_clock (Provider.process Sample.stale_client)
                    (clock_reads (Provider.process Sample.stale_client))) Sample.stale_client).
  { intros sector timestamp H. vm_compute in H. injection H as <- <-. vm_compute. discriminate. }
  assert (H2 : Provider.fetchEmitenInfo Sample.net Sample.upper "bbca" Sample.stale_client
               = (Return Sample.info,
                  snd (Provider.fetchEmitenInfo Sample.net Sample.upper "bbca"
                         Sample.stale_client)))
    by (vm_compute; reflexivity).
  assert (H3 : (wall_clock (Provider.process Sample.stale_client)
                  (clock_reads (Provider.process
                     (snd (Provider.fetchEmitenInfo Sample.net Sample.upper "bbca"
                             Sample.stale_client))))
                - wall_clock (Provider.process Sample.stale_client)
                    (clock_reads (Provider.process Sample.stale_client)) < 3600000)%Z)
    by (vm_compute; reflexivity).
  split; [repeat split; try assumption; reflexivity|].
  apply (fetchEmitenInfo_second_call_cached Sample.net Sample.upper "bbca" "Bbca" "Finance"
           Sample.stale_client _ Sample.info H1 H2 eq_refl ltac:(discriminate) eq_refl H3).
Defined.


Lemma sample_default_of :
  default_of Sample.groups
    {| Provider.watchlist_id := Some 22%Z; Provider.is_default := Some true |}.
Proof.
  left. exists [{| Provider.watchlist_id := Some 11%Z; Provider.is_default := None |}],
          [{| Provider.watchlist_id := Some 33%Z; Provider.is_default := Some true |}].
  repeat split. constructor; [discriminate|constructor].
Qed.

Lemma fetchWatchlist_default_group_witness :
  let c := Sample.client in
  let c1 := snd (Provider.fetchWatchlistGroups Sample.net c) in
  let fails :=
    Provider.fetchWatchlist Sample.net None c = (Throw (Error "No watchlist found"), c1) in
  (Provider.truthy_id None = false
   /\ Provider.fetchWatchlistGroups Sample.net c = (Return Sample.groups, c1))
  /\ (Sample.groups = [] -> fails)
  /\ (forall g, default_of Sample.groups g ->
        match Provider.watchlist_id g with
        | Some gid =>
            if (gid =? 0)%Z then fails
            else Provider.fetchWatchlist Sample.net None c
                 = Provider.fetchWatchlist Sample.net (Some gid) c1
        | None => fails
        end).
Proof.
  split; [split; [reflexivity | vm_compute; reflexivity]|].
  apply (fetchWatchlist_default_group Sample.net None Sample.client);
    [reflexivity | vm_compute; reflexivity].
Defined.

Lemma fetchSectors_cached_for_a_day_witness :
  let c := Sample.client in
  let c1 := snd (Provider.fetchSectors Sample.net c) in
  let sectors := ["Finance"; "Energy"] in
  (Provider.sectorsListCache c = None
   /\ Provider.fetchSectors Sample.net c = (Return sectors, c1))
  /\ Forall (fun s => s <> EmptyString) sectors
  /\ (exists request reply data,
        Provider.url request = "https://exodus.stockbit.com/emitten/sectors"
        /\ Provider.emitten_sectors Sample.net (length (Provider.requests c)) request
           = Return reply
        /\ Provider.json reply = Return data
        /\ (Provider.sectors_data data = None -> sectors = []))
  /\ exists c2,
       Provider.fetchSectors Sample.net c1 = (Return sectors, c2)
       /\ Provider.requests c2 = Provider.requests c1
       /\ Provider.sectorsListCache c2 = Provider.sectorsListCache c1
       /\ session_statements (Provider.process c2) = session_statements (Provider.process c1)
       /\ cachedToken (Provider.process c2) = cachedToken (Provider.process c1).
Proof.
  split; [split; [reflexivity | vm_compute; reflexivity]|].
  apply (fetchSectors_cached_for_a_day Sample.net Sample.client);
    [reflexivity | vm_compute; reflexivity | vm_compute; reflexivity].
Defined.

(** With the sample provider: the default watchlist is the one of id 22,
    the second group, and two requests are sent for it. *)
Lemma sample_default_watchlist :
  let '(r, c') := Provider.fetchWatchlist Sample.net None Sample.client in
  r = Return (Sample.watchlist_of Sample.fetched_items)
  /\ map Provider.url (Provider.requests c')
     = ["https://exodus.stockbit.com/watchlist?page=1&limit=500";
        "https://exodus.stockbit.com/watchlist/22?page=1&limit=500"].
Proof. vm_compute. auto. Qed.
